(** * droid-apikey: the batch-fetch-and-aggregate engine of src/index.ts

    A shallow embedding of the usage client ([fetchApiKeyData]), the batch
    scheduler ([batchProcess]), the aggregator ([getAggregatedData]) and the
    refresh cache ([ServerState], [autoRefreshData]) of the Cloudflare Worker,
    with the properties of its design document stated over it.

    Conventions of the embedding.
    - A JavaScript [number] that counts tokens, indexes an array or holds an
      HTTP status is a [Z]; [usedRatio] is a [Q].  Token counts are taken to be
      integers, so the arithmetic of the aggregator is exact.
    - A JavaScript string is a [string]; its characters stand for UTF-16 code
      units, so [length] is [String.prototype.length].
    - An [async] function is a computation over an explicit [World] (network,
      clock) that also returns the trace of the effects it performed. *)

From Stdlib Require Import ZArith QArith List String Ascii Bool Lia Arith.
From Stdlib Require Import Permutation Sorted.
From Stdlib Require DecimalString.
From Equations Require Import Equations.
Import ListNotations.

#[local] Open Scope string_scope.
#[local] Open Scope list_scope.
#[local] Open Scope Z_scope.

(** ** JavaScript primitives used by the source *)

Module JS.

(** Clamp an index into [0, len], as [substring] and [slice] do. *)
Definition clamp (x len : Z) : Z := Z.max 0 (Z.min x len).

(** [s.substring(start, end)]: both indices are clamped to the string and
    swapped when [start > end]; a missing [end] is the length. *)
Definition substring (s : string) (start : Z) (end_ : option Z) : string :=
  let len := Z.of_nat (String.length s) in
  let a := clamp start len in
  let b := match end_ with Some e => clamp e len | None => len end in
  let from := Z.min a b in
  let to := Z.max a b in
  String.substring (Z.to_nat from) (Z.to_nat (to - from)) s.

(** A relative index of [Array.prototype.slice]: negative counts from the
    end, and the result is clamped to the array. *)
Definition relative (k len : Z) : Z :=
  if k <? 0 then Z.max (len + k) 0 else Z.min k len.

(** [xs.slice(start, end)]. *)
Definition slice {A : Type} (xs : list A) (start end_ : Z) : list A :=
  let len := Z.of_nat (List.length xs) in
  let k := relative start len in
  let final := relative end_ len in
  firstn (Z.to_nat (Z.max (final - k) 0)) (skipn (Z.to_nat k) xs).

(** [Array.prototype.sort(cmp)] for a comparator that returns a number:
    the sort is stable (ECMAScript 2019), so for a consistent comparator the
    result is the one a stable insertion sort produces.  [x] stays before
    [y] unless [cmp x y > 0]. *)
Fixpoint insert {A : Type} (cmp : A -> A -> Z) (x : A) (l : list A) : list A :=
  match l with
  | [] => [x]
  | y :: l' => if cmp x y <=? 0 then x :: l else y :: insert cmp x l'
  end.

Definition sort {A : Type} (cmp : A -> A -> Z) (l : list A) : list A :=
  fold_right (insert cmp) [] l.

(** [x || 0] on an optional number field. *)
Definition or_zero (x : option Z) : Z :=
  match x with Some v => v | None => 0 end.

Definition or_zeroQ (x : option Q) : Q :=
  match x with Some v => v | None => 0%Q end.

(** The decimal rendering of an integer inside a template literal. *)
Definition toString (n : Z) : string :=
  DecimalString.NilZero.string_of_int (Z.to_int n).

(** [s.repeat(n)]. *)
Fixpoint repeat (s : string) (n : nat) : string :=
  match n with
  | O => EmptyString
  | S n' => (s ++ repeat s n')%string
  end.

End JS.

(** ** Type definitions (index.ts, lines 5-51) *)

Module ApiKey.
Record t : Type := mk { id : string; key : string }.
End ApiKey.

Module ApiUsageData.
Record t : Type := mk {
  id : string;
  key : string;
  startDate : string;
  endDate : string;
  orgTotalTokensUsed : Z;
  totalAllowance : Z;
  usedRatio : Q
}.
End ApiUsageData.

Module ApiErrorData.
Record t : Type := mk { id : string; key : string; error : string }.
End ApiErrorData.

(** [type ApiKeyResult = ApiUsageData | ApiErrorData]; the discriminator of
    the source is the presence of the [error] field. *)
Inductive ApiKeyResult : Type :=
| UsageData (u : ApiUsageData.t)
| ErrorData (e : ApiErrorData.t).

Module UsageTotals.
Record t : Type := mk {
  total_orgTotalTokensUsed : Z;
  total_totalAllowance : Z;
  totalRemaining : Z
}.
End UsageTotals.

Module AggregatedResponse.
Record t : Type := mk {
  update_time : string;
  total_count : Z;
  totals : UsageTotals.t;
  data : list ApiKeyResult
}.
End AggregatedResponse.

(** [interface ApiResponse]: the body of the usage endpoint.  A field that
    the provider left out is [None]. *)
Module ApiResponse.
Record standard_t : Type := mk_standard {
  orgTotalTokensUsed : option Z;
  totalAllowance : option Z;
  usedRatio : option Q
}.
Record usage_t : Type := mk_usage {
  startDate : option Z;
  endDate : option Z;
  standard : option standard_t
}.
Record t : Type := mk { usage : option usage_t }.
End ApiResponse.

(** ** Configuration (lines 67-75) *)

Module CONFIG.
Definition TIMEZONE_OFFSET_HOURS : Z := 8.
Definition KEY_MASK_PREFIX_LENGTH : Z := 4.
Definition KEY_MASK_SUFFIX_LENGTH : Z := 4.
Definition AUTO_REFRESH_INTERVAL_SECONDS : Z := 60.
End CONFIG.

(** ** Server state and caching (lines 79-108) *)

Module ServerState.

Record t : Type := mk {
  cachedData : option AggregatedResponse.t;
  lastError : option string;
  isUpdating : bool
}.

(** The field initialisers of the class. *)
Definition new : t := mk None None false.

Definition getData (s : t) : option AggregatedResponse.t := cachedData s.
Definition getError (s : t) : option string := lastError s.
Definition isCurrentlyUpdating (s : t) : bool := isUpdating s.

Definition updateCache (data : AggregatedResponse.t) (s : t) : t :=
  let s := mk (Some data) (lastError s) (isUpdating s) in
  let s := mk (cachedData s) None (isUpdating s) in
  mk (cachedData s) (lastError s) false.

Definition setError (errorMessage : string) (s : t) : t :=
  let s := mk (cachedData s) (Some errorMessage) (isUpdating s) in
  mk (cachedData s) (lastError s) false.

Definition startUpdate (s : t) : t :=
  mk (cachedData s) (lastError s) true.

Definition clearCache (s : t) : t :=
  let s := mk None (lastError s) (isUpdating s) in
  let s := mk (cachedData s) None (isUpdating s) in
  mk (cachedData s) (lastError s) false.

End ServerState.

(** ** Utility functions (lines 149-158) *)

Definition maskApiKey (key : string) : string :=
  if Z.of_nat (String.length key)
     <=? CONFIG.KEY_MASK_PREFIX_LENGTH + CONFIG.KEY_MASK_SUFFIX_LENGTH
  then (JS.substring key 0 (Some CONFIG.KEY_MASK_PREFIX_LENGTH) ++ "...")%string
  else (JS.substring key 0 (Some CONFIG.KEY_MASK_PREFIX_LENGTH) ++ "..."
        ++ JS.substring key
             (Z.of_nat (String.length key) - CONFIG.KEY_MASK_SUFFIX_LENGTH) None)%string.

Definition getDisplayKey (key : string) (isLoggedIn : bool) : string :=
  if isLoggedIn then key else maskApiKey key.

(** ** Effects

    An [async] function of the source is a function of the [World] it runs
    in; it returns its value, the world it leaves and the trace of the effects
    it performed, in program order.  Each layer has its own event type and
    embeds the events of the layer below, so a property of the scheduler's
    pacing never has to reason about what a worker does. *)

(** A thrown value: an [Error] with its message, or anything else. *)
Inductive Exn : Type :=
| ErrorObject (message : string)
| Thrown.

(** How an awaited call ends.  [Unsettled] is the promise that has not
    settled when the fuel of a loop ran out. *)
Inductive Completion (A : Type) : Type :=
| Returned (a : A)
| Threw (e : Exn)
| Unsettled.
Arguments Returned {A} a.
Arguments Threw {A} e.
Arguments Unsettled {A}.

(** What [await fetch(...)] followed by [response.json()] can give: the call
    rejects, or a response with a status and a body.  The body is [None] when
    [response.json()] rejects or when [usage] cannot be destructured from the
    parsed value; both end in the [catch] of [fetchApiKeyData]. *)
Inductive HttpResult : Type :=
| NetworkFailure
| Response (status : Z) (body : option ApiResponse.t).

(** Effects of [fetchApiKeyData]: the request of line 914 and the
    [setTimeout] of line 924. *)
Inductive FetchEvent : Type :=
| Fetch (bearer : string)
| Backoff (delayMs : Z).

(** Effects of [batchProcess]: a [Promise.all] over [n] tasks (line 894),
    the [setTimeout] of line 899, and the effects of the tasks. *)
Inductive BatchEvent (E : Type) : Type :=
| Batch (n : nat)
| Pacing (delayMs : Z)
| Task (e : E).
Arguments Batch {E} n.
Arguments Pacing {E} delayMs.
Arguments Task {E} e.

(** Effects of [getAggregatedData] and [autoRefreshData]. *)
Inductive AggEvent : Type :=
| Scheduler (e : BatchEvent FetchEvent)
| ConsoleLog (line : string).

Definition newline : string := String (ascii_of_nat 10) EmptyString.

Section Engine.

(** The environment of the Worker: the network, the clock, the platform's
    [Date] and the credential store. *)
Variable World : Type.
Variable fetch : string -> World -> HttpResult * World.
Variable elapse : Z -> World -> World.
Variable Date_now : World -> Z.
Variable toISODate : Z -> option string.
Variable formatBeijingTime : Z -> string -> string.
Variable KVNamespace : Type.
Variable getAllKeys : KVNamespace -> World -> (Exn + list ApiKey.t) * World.

Definition M (E A : Type) : Type := World -> A * World * list E.

Definition ret {E A : Type} (a : A) : M E A := fun w => (a, w, []).

Definition bind {E A B : Type} (m : M E A) (k : A -> M E B) : M E B :=
  fun w =>
    let '(a, w1, t1) := m w in
    let '(b, w2, t2) := k a w1 in
    (b, w2, t1 ++ t2).

Definition emit {E : Type} (e : E) : M E unit := fun w => (tt, w, [e]).

Definition embed {E E' A : Type} (f : E -> E') (m : M E A) : M E' A :=
  fun w => let '(a, w1, t) := m w in (a, w1, map f t).

Notation "x <- m ;; k" := (bind m (fun x => k))
  (at level 61, m at next level, right associativity).
Notation "m ;;; k" := (bind m (fun _ => k))
  (at level 61, right associativity).

(** [await new Promise(resolve => setTimeout(resolve, ms))]. *)
Definition sleep {E : Type} (ev : Z -> E) (ms : Z) : M E unit :=
  fun w => (tt, elapse ms w, [ev ms]).

(** *** formatDate (lines 160-168) and getBeijingTime (170-172)

    [toISODate t] is [new Date(t).toISOString().split('T')[0]], or [None]
    when [toISOString] throws its [RangeError]. *)
Definition formatDate (timestamp : option Z) : string :=
  match timestamp with
  | None => "N/A"
  | Some t =>
      match toISODate t with
      | Some d => d
      | None => "Invalid Date"
      end
  end.

Definition getBeijingTime {E : Type} : M E Z :=
  fun w => (Date_now w + CONFIG.TIMEZONE_OFFSET_HOURS * 60 * 60 * 1000, w, []).

(** *** fetchApiKeyData (lines 909-950) *)

Definition maxRetries : nat := 2.

(** [response.ok]. *)
Definition ok (status : Z) : bool := (200 <=? status) && (status <=? 299).

Equations? fetchApiKeyData (id key : string) (isLoggedIn : bool)
    (retryCount : nat) (w : World) : ApiKeyResult * World * list FetchEvent
    by wf (maxRetries - retryCount)%nat lt :=
  fetchApiKeyData id key isLoggedIn retryCount w :=
    let displayKey := getDisplayKey key isLoggedIn in
    (response <- (fun w => let '(r, w1) := fetch key w in (r, w1, [Fetch key])) ;;
    match response with
    | NetworkFailure =>
        ret (ErrorData (ApiErrorData.mk id displayKey "Failed to fetch"))
    | Response status body =>
        if negb (ok status) then
          match Z.eqb status 401, lt_dec retryCount maxRetries with
          | true, left _ =>
              let delayMs := (Z.of_nat retryCount + 1) * 1000 in
              sleep Backoff delayMs ;;;
              (fun w' => fetchApiKeyData id key isLoggedIn (S retryCount) w')
          | _, _ =>
              ret (ErrorData (ApiErrorData.mk id displayKey
                                ("HTTP " ++ JS.toString status)%string))
          end
        else
          match body with
          | None =>
              ret (ErrorData (ApiErrorData.mk id displayKey "Failed to fetch"))
          | Some apiData =>
              match ApiResponse.usage apiData with
              | None =>
                  ret (ErrorData (ApiErrorData.mk id displayKey
                                    "Invalid API response"))
              | Some usage =>
                  match ApiResponse.standard usage with
                  | None =>
                      ret (ErrorData (ApiErrorData.mk id displayKey
                                        "Invalid API response"))
                  | Some standard =>
                      ret (UsageData (ApiUsageData.mk id displayKey
                             (formatDate (ApiResponse.startDate usage))
                             (formatDate (ApiResponse.endDate usage))
                             (JS.or_zero (ApiResponse.orgTotalTokensUsed standard))
                             (JS.or_zero (ApiResponse.totalAllowance standard))
                             (JS.or_zeroQ (ApiResponse.usedRatio standard))))
                  end
              end
          end
    end) w.
Proof. unfold maxRetries in *. destruct retryCount as [|[|?]]; lia. Qed.

(** *** batchProcess (lines 884-904)

    [Promise.all(batch.map(processor))] starts the tasks of the batch
    together and resumes when all have settled; the results are positional.
    The tasks are run here in the order of the batch. *)
Fixpoint promise_all {E R : Type} (tasks : list (M E R))
    : M (BatchEvent E) (list R) :=
  match tasks with
  | [] => ret []
  | task :: rest =>
      r <- embed Task task ;;
      rs <- promise_all rest ;;
      ret (r :: rs)
  end.

(** The [for] loop from index [i] with the results pushed so far.  The loop
    has no bound of its own when [concurrency <= 0], so the embedding
    counts iterations: [Unsettled] is returned when [fuel] iterations did
    not reach the exit test. *)
Fixpoint batchProcess_loop {T R E : Type} (fuel : nat) (items : list T)
    (processor : T -> M E R) (concurrency delayMs : Z)
    (i : Z) (results : list R) : M (BatchEvent E) (Completion (list R)) :=
  if i <? Z.of_nat (List.length items) then
    match fuel with
    | O => ret Unsettled
    | S fuel' =>
        let batch := JS.slice items i (i + concurrency) in
        emit (Batch (List.length batch)) ;;;
        batchResults <- promise_all (map processor batch) ;;
        let results := results ++ batchResults in
        (if i + concurrency <? Z.of_nat (List.length items)
         then sleep Pacing delayMs
         else ret tt) ;;;
        batchProcess_loop fuel' items processor concurrency delayMs
          (i + concurrency) results
    end
  else ret (Returned results).

Definition batchProcess {T R E : Type} (fuel : nat) (items : list T)
    (processor : T -> M E R) (concurrency delayMs : Z)
    : M (BatchEvent E) (Completion (list R)) :=
  batchProcess_loop fuel items processor concurrency delayMs 0 [].

(** *** Type guard (line 955) and aggregation (lines 962-1001) *)

Definition isApiUsageData (result : ApiKeyResult) : bool :=
  match result with UsageData _ => true | ErrorData _ => false end.

Definition hasError (result : ApiKeyResult) : bool :=
  match result with UsageData _ => false | ErrorData _ => true end.

(** [results.filter(isApiUsageData)], with the narrowed element type. *)
Definition validResults (results : list ApiKeyResult) : list ApiUsageData.t :=
  flat_map (fun r => match r with UsageData u => [u] | ErrorData _ => [] end)
           results.

(** [Math.max(0, r.totalAllowance - r.orgTotalTokensUsed)]. *)
Definition remaining (r : ApiUsageData.t) : Z :=
  Z.max 0 (ApiUsageData.totalAllowance r - ApiUsageData.orgTotalTokensUsed r).

(** Lines 982-985: decorate with [remaining], sort, undecorate. *)
Definition sortedValid (valid : list ApiUsageData.t) : list ApiUsageData.t :=
  map fst
    (JS.sort (fun a b => snd b - snd a)
       (map (fun r => (r, remaining r)) valid)).

Definition emptyTotals : UsageTotals.t := UsageTotals.mk 0 0 0.

(** Lines 987-991: the [reduce] over [validResults]. *)
Definition totals (valid : list ApiUsageData.t) : UsageTotals.t :=
  fold_left
    (fun acc res =>
       UsageTotals.mk
         (UsageTotals.total_orgTotalTokensUsed acc
          + ApiUsageData.orgTotalTokensUsed res)
         (UsageTotals.total_totalAllowance acc
          + ApiUsageData.totalAllowance res)
         (UsageTotals.totalRemaining acc
          + Z.max 0 (ApiUsageData.totalAllowance res
                     - ApiUsageData.orgTotalTokensUsed res)))
    valid emptyTotals.

(** *** logKeysWithBalance (lines 1006-1028): the lines it prints. *)
Definition logKeysWithBalance (valid : list ApiUsageData.t)
    (keyPairs : list ApiKey.t) : list string :=
  let keysWithBalance :=
    filter (fun r => 0 <? ApiUsageData.totalAllowance r
                           - ApiUsageData.orgTotalTokensUsed r) valid in
  if (0 <? List.length keysWithBalance)%nat then
    [JS.repeat "=" 80; "📋 剩余额度大于0的API Keys:"; JS.repeat "-" 80]
    ++ flat_map
         (fun item =>
            match find (fun kp => String.eqb (ApiKey.id kp) (ApiUsageData.id item))
                       keyPairs with
            | Some originalKeyPair => [ApiKey.key originalKeyPair]
            | None => []
            end)
         keysWithBalance
    ++ [(JS.repeat "=" 80 ++ newline)%string]
  else [(newline ++ "⚠️  没有剩余额度大于0的API Keys" ++ newline)%string].

Fixpoint console_log (lines : list string) : M AggEvent unit :=
  match lines with
  | [] => ret tt
  | line :: rest => emit (ConsoleLog line) ;;; console_log rest
  end.

Definition getAggregatedData (kv : KVNamespace) (isLoggedIn : bool)
    : M AggEvent (Completion AggregatedResponse.t) :=
  keys <- (fun w => let '(r, w1) := getAllKeys kv w in (r, w1, [])) ;;
  match keys with
  | inl e => ret (Threw e)
  | inr keyPairs =>
      beijingTime <- getBeijingTime ;;
      let emptyResponse :=
        AggregatedResponse.mk
          (formatBeijingTime beijingTime "yyyy-MM-dd HH:mm:ss")
          0 emptyTotals [] in
      if (List.length keyPairs =? 0)%nat then ret (Returned emptyResponse)
      else
        batch <- embed Scheduler
                   (batchProcess (List.length keyPairs) keyPairs
                      (fun kp => fetchApiKeyData (ApiKey.id kp) (ApiKey.key kp)
                                   isLoggedIn 0)
                      10 100) ;;
        match batch with
        | Returned results =>
            let valid := validResults results in
            console_log (logKeysWithBalance valid keyPairs) ;;;
            ret (Returned
                   (AggregatedResponse.mk
                      (formatBeijingTime beijingTime "yyyy-MM-dd HH:mm:ss")
                      (Z.of_nat (List.length keyPairs))
                      (totals valid)
                      (map UsageData (sortedValid valid)
                       ++ filter hasError results)))
        | Threw e => ret (Threw e)
        | Unsettled => ret Unsettled
        end
  end.

(** *** autoRefreshData (lines 1036-1050)

    The function runs to its [await] and resumes when [getAggregatedData]
    settles; other handlers of the Worker can run in between.  The two
    halves are given separately, and [autoRefreshData] is the run in which
    nothing else touches the server state meanwhile. *)

Record Env : Type := mkEnv { API_KEYS : KVNamespace; EXPORT_PASSWORD : string }.

(** Up to the [await]: [None] when the guard returned at once, otherwise
    the state after [startUpdate]. *)
Definition autoRefreshData_enter (serverState : ServerState.t)
    : option ServerState.t :=
  if ServerState.isCurrentlyUpdating serverState then None
  else Some (ServerState.startUpdate serverState).

(** From the settling of [getAggregatedData] to the end. *)
Definition autoRefreshData_resume (settled : Exn + AggregatedResponse.t)
    (serverState : ServerState.t) : ServerState.t :=
  match settled with
  | inr data => ServerState.updateCache data serverState
  | inl (ErrorObject message) => ServerState.setError message serverState
  | inl Thrown => ServerState.setError "Refresh failed" serverState
  end.

Definition autoRefreshData (env : Env) (serverState : ServerState.t)
    : M AggEvent (Completion ServerState.t) :=
  match autoRefreshData_enter serverState with
  | None => ret (Returned serverState)
  | Some started =>
      now <- getBeijingTime ;;
      let timestamp := formatBeijingTime now "HH:mm:ss" in
      emit (ConsoleLog ("[" ++ timestamp ++ "] Starting data refresh...")%string) ;;;
      settled <- getAggregatedData (API_KEYS env) false ;;
      match settled with
      | Returned data =>
          emit (ConsoleLog ("[" ++ timestamp ++ "] Data updated successfully.")%string) ;;;
          ret (Returned (autoRefreshData_resume (inr data) started))
      | Threw e => ret (Returned (autoRefreshData_resume (inl e) started))
      | Unsettled => ret Unsettled
      end
  end.

End Engine.

Arguments ret {World E A} a.
Arguments bind {World E A B} m k.
Arguments emit {World E} e.
Arguments embed {World E E' A} f m.
Arguments promise_all {World E R} tasks.
Arguments batchProcess_loop {World} elapse {T R E} fuel items processor
  concurrency delayMs i results.
Arguments batchProcess {World} elapse {T R E} fuel items processor
  concurrency delayMs.

(** ** The refresh cache under interleaving

    The handlers of the Worker share one [ServerState].  Between the two
    halves of [autoRefreshData] any of them can run: a scheduled tick that
    calls [autoRefreshData] again, or a key being added or deleted, which
    calls [clearCache] (lines 1155, 1171, 1181, 1193).  [inflight] counts the
    refresh cycles that have started and not yet resumed; [initiated] counts
    the fetch cycles started so far. *)

Module Cache.

Inductive Action : Type :=
| Tick                                          (* autoRefreshData is called *)
| Settle (r : Exn + AggregatedResponse.t)       (* a pending cycle resumes *)
| KeysChanged.                                  (* a handler calls clearCache *)

Record System : Type := mkSystem {
  serverState : ServerState.t;
  inflight : nat;
  initiated : nat
}.

Definition boot : System := mkSystem ServerState.new 0 0.

Definition step (sys : System) (a : Action) : System :=
  match a with
  | Tick =>
      match autoRefreshData_enter (serverState sys) with
      | None => sys
      | Some started =>
          mkSystem started (S (inflight sys)) (S (initiated sys))
      end
  | Settle r =>
      match inflight sys with
      | O => sys
      | S n =>
          mkSystem (autoRefreshData_resume r (serverState sys)) n (initiated sys)
      end
  | KeysChanged =>
      mkSystem (ServerState.clearCache (serverState sys))
               (inflight sys) (initiated sys)
  end.

Definition run (sys : System) (actions : list Action) : System :=
  fold_left step actions sys.

(** No key is added or deleted while a refresh cycle is pending. *)
Fixpoint quiet (sys : System) (actions : list Action) : bool :=
  match actions with
  | [] => true
  | a :: rest =>
      match a with
      | KeysChanged => (inflight sys =? 0)%nat
      | _ => true
      end && quiet (step sys a) rest
  end.

(** The refreshing flag tells exactly whether a cycle is pending: the
    invariant of the runs in which no key changes while one is. *)
Definition flag_counts (sys : System) : Prop :=
  inflight sys
  = if ServerState.isCurrentlyUpdating (serverState sys) then 1%nat else 0%nat.

End Cache.

(** ** Observations on traces and results *)

(** The scheduler's own events of a trace: the events of the tasks erased. *)
Definition schedule {E : Type} (tr : list (BatchEvent E)) : list (BatchEvent E) :=
  filter (fun e => match e with Task _ => false | _ => true end) tr.

(** The number of pacing delays in a trace. *)
Definition pacings {E : Type} (tr : list (BatchEvent E)) : nat :=
  List.length (filter (fun e => match e with Pacing _ => true | _ => false end) tr).

(** The schedule of [n] items in chunks of [c] with a delay of [d] between
    consecutive chunks and none after the last. *)
Inductive Paced {E : Type} (c : nat) (d : Z) : nat -> list (BatchEvent E) -> Prop :=
| Paced_none : Paced c d 0 []
| Paced_last (n : nat) :
    (0 < n <= c)%nat -> Paced c d n [Batch n]
| Paced_more (n : nat) (tr : list (BatchEvent E)) :
    (c < n)%nat -> Paced c d (n - c) tr ->
    Paced c d n (Batch c :: Pacing d :: tr).

(** A run of the scheduler over [items] from the world [w], as a value, a
    final world and a trace: the items are cut into consecutive batches, every
    batch but the last of [c] items and the last of 1 to [c]; a batch is
    announced, its items are given to [promise_all] in their order, and a
    delay of [d] follows every batch but the last. *)
Inductive Chunked {World T R E : Type} (elapse : Z -> World -> World)
    (processor : T -> M World E R) (c : nat) (d : Z)
    : list T -> World -> list R * World * list (BatchEvent E) -> Prop :=
| Chunked_none (w : World) :
    Chunked elapse processor c d [] w ([], w, [])
| Chunked_last (batch : list T) (w w1 : World) (rs : list R)
    (t : list (BatchEvent E)) :
    (0 < List.length batch <= c)%nat ->
    promise_all (map processor batch) w = (rs, w1, t) ->
    Chunked elapse processor c d batch w
      (rs, w1, Batch (List.length batch) :: t)
| Chunked_more (batch rest : list T) (w w1 w' : World) (rs rs' : list R)
    (t tr : list (BatchEvent E)) :
    List.length batch = c -> rest <> [] ->
    promise_all (map processor batch) w = (rs, w1, t) ->
    Chunked elapse processor c d rest (elapse d w1) (rs', w', tr) ->
    Chunked elapse processor c d (batch ++ rest) w
      (rs ++ rs', w', Batch c :: t ++ Pacing d :: tr).

Definition resultId (r : ApiKeyResult) : string :=
  match r with
  | UsageData u => ApiUsageData.id u
  | ErrorData e => ApiErrorData.id e
  end.

Definition resultKey (r : ApiKeyResult) : string :=
  match r with
  | UsageData u => ApiUsageData.key u
  | ErrorData e => ApiErrorData.key e
  end.

(** What one record adds to each total: an error record adds nothing. *)
Definition usedOf (r : ApiKeyResult) : Z :=
  match r with UsageData u => ApiUsageData.orgTotalTokensUsed u | ErrorData _ => 0 end.

Definition allowanceOf (r : ApiKeyResult) : Z :=
  match r with UsageData u => ApiUsageData.totalAllowance u | ErrorData _ => 0 end.

Definition remainingOf (r : ApiKeyResult) : Z :=
  match r with UsageData u => remaining u | ErrorData _ => 0 end.

Definition sumOver {A : Type} (f : A -> Z) (l : list A) : Z :=
  fold_right (fun x acc => f x + acc) 0 l.

(** ** A scripted world

    The network answers from a script, one entry per request; the clock
    stands still.  Used to run the engine on concrete inputs. *)

Module Scripted.

Definition World : Type := list HttpResult.

Definition fetch (_ : string) (w : World) : HttpResult * World :=
  match w with
  | [] => (NetworkFailure, [])
  | r :: w' => (r, w')
  end.

Definition elapse (_ : Z) (w : World) : World := w.
Definition Date_now (_ : World) : Z := 0.
Definition toISODate (_ : Z) : option string := Some "1970-01-01".
Definition formatBeijingTime (_ : Z) (formatStr : string) : string := formatStr.

(** The credential store is the list of its credentials. *)
Definition getAllKeys (kv : list ApiKey.t) (w : World)
    : (Exn + list ApiKey.t) * World := (inr kv, w).

Definition usage (used allowance : Z) : HttpResult :=
  Response 200
    (Some (ApiResponse.mk
             (Some (ApiResponse.mk_usage (Some 0) (Some 0)
                      (Some (ApiResponse.mk_standard
                               (Some used) (Some allowance) None)))))).

Definition unauthorized : HttpResult := Response 401 None.

Definition fetchApiKeyData := fetchApiKeyData World fetch elapse toISODate.

Definition getAggregatedData :=
  getAggregatedData World fetch elapse Date_now toISODate formatBeijingTime
    (list ApiKey.t) getAllKeys.

End Scripted.

(** ** Further observations on traces *)

(** The sizes of the batches of a trace, in order. *)
Definition batchSizes {E : Type} (tr : list (BatchEvent E)) : list nat :=
  flat_map (fun e => match e with Batch k => [k] | _ => [] end) tr.

(** The effects of the tasks of a trace. *)
Definition tasks {E : Type} (tr : list (BatchEvent E)) : list E :=
  flat_map (fun e => match e with Task e' => [e'] | _ => [] end) tr.

(** The number of requests sent in a trace of the usage client. *)
Definition requests (tr : list FetchEvent) : nat :=
  List.length (filter (fun e => match e with Fetch _ => true | _ => false end) tr).

(** The scheduler's part and the console's part of a trace of the aggregator. *)
Definition schedulerEvents (tr : list AggEvent) : list (BatchEvent FetchEvent) :=
  flat_map (fun e => match e with Scheduler e' => [e'] | _ => [] end) tr.

Definition consoleLines (tr : list AggEvent) : list string :=
  flat_map (fun e => match e with ConsoleLog line => [line] | _ => [] end) tr.

(** The test of [logKeysWithBalance] (lines 1008-1009). *)
Definition hasBalance (r : ApiUsageData.t) : bool :=
  0 <? ApiUsageData.totalAllowance r - ApiUsageData.orgTotalTokensUsed r.

(** ** JavaScript values of request bodies

    What [await req.json()] gives, and [undefined] for a property that is not
    there.  The handlers test these values dynamically, so the tests are
    modelled on the values and not on the types the source casts them to. *)

#[warnings="-register-all"]
Inductive jsval : Type :=
| VUndefined
| VNull
| VBool (b : bool)
| VNumber (n : Z)
| VString (s : string)
| VArray (items : list jsval)
| VObject (fields : list (string * jsval)).

Module Dyn.

(** [!!v]. *)
Definition truthy (v : jsval) : bool :=
  match v with
  | VUndefined | VNull => false
  | VBool b => b
  | VNumber n => negb (n =? 0)
  | VString s => negb (String.eqb s "")
  | VArray _ | VObject _ => true
  end.

(** [typeof v === 'object']. *)
Definition isObject (v : jsval) : bool :=
  match v with
  | VNull | VArray _ | VObject _ => true
  | _ => false
  end.

(** [Array.isArray(v)]. *)
Definition isArray (v : jsval) : bool :=
  match v with VArray _ => true | _ => false end.

(** The value of a property of a parsed object: the last field of that name,
    as [JSON.parse] keeps it. *)
Fixpoint lookup (name : string) (fields : list (string * jsval)) : option jsval :=
  match fields with
  | [] => None
  | (n, v) :: rest =>
      match lookup name rest with
      | Some v' => Some v'
      | None => if String.eqb n name then Some v else None
      end
  end.

(** [name in v], for an object or array [v] and a name that no built-in
    prototype defines. *)
Definition has (name : string) (v : jsval) : bool :=
  match v with
  | VObject fields =>
      match lookup name fields with Some _ => true | None => false end
  | _ => false
  end.

(** [v.name], also as destructured by [const { name } = v], for [v] other
    than [null] and [undefined] and a name that no built-in prototype
    defines. *)
Definition get (name : string) (v : jsval) : jsval :=
  match v with
  | VObject fields =>
      match lookup name fields with Some x => x | None => VUndefined end
  | _ => VUndefined
  end.

(** [v === s] for a string [s]. *)
Definition isString (s : string) (v : jsval) : bool :=
  match v with VString s' => String.eqb s' s | _ => false end.

(** Membership in a [Set]: primitives are compared by value; an object or
    array parsed from the body is no member, being a fresh object. *)
Definition sameValueZero (a b : jsval) : bool :=
  match a, b with
  | VUndefined, VUndefined => true
  | VNull, VNull => true
  | VBool x, VBool y => Bool.eqb x y
  | VNumber x, VNumber y => x =? y
  | VString x, VString y => String.eqb x y
  | _, _ => false
  end.

Definition setHas (set : list jsval) (v : jsval) : bool :=
  existsb (fun x => sameValueZero x v) set.

(** The string a value becomes inside a template literal. *)
Fixpoint toString (v : jsval) : string :=
  match v with
  | VUndefined => "undefined"
  | VNull => "null"
  | VBool true => "true"
  | VBool false => "false"
  | VNumber n => JS.toString n
  | VString s => s
  | VArray items =>
      (fix join (l : list jsval) : string :=
         match l with
         | [] => ""
         | x :: rest =>
             let piece := match x with
                          | VUndefined | VNull => ""
                          | _ => toString x
                          end in
             match rest with
             | [] => piece
             | _ :: _ => (piece ++ "," ++ join rest)%string
             end
         end) items
  | VObject _ => "[object Object]"
  end.

End Dyn.

(** ** More string primitives *)

Module JSString.

(** [s.indexOf(pattern)], [None] for -1. *)
Definition indexOf (pattern s : string) : option nat := String.index 0 pattern s.

(** The rest of [s] from position [n]. *)
Definition from (n : nat) (s : string) : string :=
  String.substring n (String.length s - n) s.

(** [s.replace(pattern, replacement)] for a string pattern and a replacement
    without [$]: the first occurrence is replaced. *)
Definition replace (s pattern replacement : string) : string :=
  match indexOf pattern s with
  | Some m =>
      (String.substring 0 m s ++ replacement
       ++ from (m + String.length pattern) s)%string
  | None => s
  end.

(** [s.split(separator)[1]] for a non-empty separator: the piece between the
    first and the second occurrence, [None] (undefined) without a first. *)
Definition splitSecond (s separator : string) : option string :=
  match indexOf separator s with
  | None => None
  | Some m =>
      let rest := from (m + String.length separator) s in
      Some match indexOf separator rest with
           | Some k => String.substring 0 k rest
           | None => rest
           end
  end.

(** [s.startsWith(p)]. *)
Definition startsWith (s p : string) : bool := String.prefix p s.

Definition endsWith (s p : string) : bool :=
  (String.length p <=? String.length s)%nat
  && String.eqb (from (String.length s - String.length p) s) p.

(** A character that [.] of a regular expression matches: no line feed, no
    carriage return. *)
Definition isDot (c : ascii) : bool :=
  negb (Ascii.eqb c (ascii_of_nat 10)) && negb (Ascii.eqb c (ascii_of_nat 13)).

Fixpoint allDots (s : string) : bool :=
  match s with
  | EmptyString => true
  | String c s' => isDot c && allDots s'
  end.

(** [/^\/api\/keys\/.+\/refresh$/] (line 1294): the fixed prefix, at least
    one [.] character, the fixed suffix. *)
Definition matchesRefresh (pathname : string) : bool :=
  startsWith pathname "/api/keys/"
  && endsWith pathname "/refresh"
  && (19 <=? String.length pathname)%nat
  && allDots (String.substring 10 (String.length pathname - 18) pathname).

End JSString.

(** ** Requests and responses *)

Module Worker.

(** What the handlers read of a [Request]: the method, the path of its URL,
    the [X-Logged-In] header, and what [await req.json()] gives or throws. *)
Record Request : Type := mkRequest {
  method : string;
  pathname : string;
  loggedInHeader : option string;
  json : Exn + jsval
}.

(** The object literals that the handlers serialise. *)
Inductive Data : Type :=
| DError (error : string)                         (* { error } *)
| DSuccess                                        (* { success: true } *)
| DImported (added skipped : Z)                   (* { success, added, skipped } *)
| DDeleted (deleted : Z)                          (* { success, deleted } *)
| DKeys (keys : list ApiKey.t)                    (* the array of keys *)
| DExported (keys : list ApiKey.t)                (* { success, keys } *)
| DAggregated (data : AggregatedResponse.t)
| DRefreshed (data : ApiKeyResult)                (* { success, data } *)
| DInternal (thrown : Exn).                       (* { error, message, stack } *)

Inductive Payload : Type :=
| Json (data : Data)
| Html
| Text (text : string).

Record Response : Type := mkResponse {
  status : Z;
  contentType : option string;
  payload : Payload
}.

(** Lines 191-200.  The default status of [createJsonResponse] is 200. *)
Definition createJsonResponse (data : Data) (status : Z) : Response :=
  mkResponse status (Some "application/json") (Json data).

Definition createErrorResponse (message : string) (status : Z) : Response :=
  createJsonResponse (DError message) status.

(** [error instanceof Error ? error.message : fallback]. *)
Definition messageOr (fallback : string) (e : Exn) : string :=
  match e with ErrorObject message => message | Thrown => fallback end.

(** [req.headers.get('X-Logged-In') === 'true']. *)
Definition loggedIn (req : Request) : bool :=
  match loggedInHeader req with
  | Some v => String.eqb v "true"
  | None => false
  end.

Inductive KvEvent : Type :=
| KvList (prefix : string)
| KvGet (name : string)
| KvPut (name : string) (value : jsval)
| KvDelete (name : string).

Inductive WorkerEvent : Type :=
| Kv (e : KvEvent)
| Usage (e : FetchEvent)
| Aggregation (e : AggEvent)
| ConsoleError (label : string).

Section Handlers.

(** The platform: the network, the clock and the random source of the
    engine, and the operations of a KV namespace.  [kv_list] gives the names
    of [list.keys], [kv_get] the stored text or [None] for [null].  Each can
    throw.  [random36] is [Math.random().toString(36).substring(2, 9)], and
    [typeErrorMessage p] is the message of the [TypeError] for reading or
    destructuring property [p] of [null] or [undefined]. *)
Variable World : Type.
Variable fetch : string -> World -> HttpResult * World.
Variable elapse : Z -> World -> World.
Variable Date_now : World -> Z.
Variable toISODate : Z -> option string.
Variable formatBeijingTime : Z -> string -> string.
Variable KVNamespace : Type.
Variable kv_list : KVNamespace -> string -> World -> (Exn + list string) * World.
Variable kv_get : KVNamespace -> string -> World -> (Exn + option string) * World.
Variable kv_put : KVNamespace -> string -> jsval -> World -> (Exn + unit) * World.
Variable kv_delete : KVNamespace -> string -> World -> (Exn + unit) * World.
Variable random36 : World -> string * World.
Variable typeErrorMessage : string -> string.

Notation "x <- m ;; k" := (bind m (fun x => k))
  (at level 61, m at next level, right associativity).
Notation "m ;;; k" := (bind m (fun _ => k))
  (at level 61, right associativity).

Definition kvList (kv : KVNamespace) (prefix : string)
    : M World KvEvent (Exn + list string) :=
  fun w => let '(r, w1) := kv_list kv prefix w in (r, w1, [KvList prefix]).

Definition kvGet (kv : KVNamespace) (name : string)
    : M World KvEvent (Exn + option string) :=
  fun w => let '(r, w1) := kv_get kv name w in (r, w1, [KvGet name]).

Definition kvPut (kv : KVNamespace) (name : string) (value : jsval)
    : M World KvEvent (Exn + unit) :=
  fun w => let '(r, w1) := kv_put kv name value w in (r, w1, [KvPut name value]).

Definition kvDelete (kv : KVNamespace) (name : string)
    : M World KvEvent (Exn + unit) :=
  fun w => let '(r, w1) := kv_delete kv name w in (r, w1, [KvDelete name]).

(** *** Database operations (lines 119-145) *)

(** The [for] loop of [getAllKeys] over the listed names, with the keys
    pushed so far. *)
Fixpoint getAllKeys_loop (kv : KVNamespace) (names : list string)
    (keys : list ApiKey.t) : M World KvEvent (Exn + list ApiKey.t) :=
  match names with
  | [] => ret (inr keys)
  | name :: rest =>
      let id := JSString.replace name "api_keys:" "" in
      value <- kvGet kv name ;;
      match value with
      | inl e => ret (inl e)
      | inr None => getAllKeys_loop kv rest keys
      | inr (Some v) =>
          if String.eqb v "" then getAllKeys_loop kv rest keys
          else getAllKeys_loop kv rest (keys ++ [ApiKey.mk id v])
      end
  end.

Definition getAllKeys (kv : KVNamespace) : M World KvEvent (Exn + list ApiKey.t) :=
  list <- kvList kv "api_keys:" ;;
  match list with
  | inl e => ret (inl e)
  | inr names => getAllKeys_loop kv names []
  end.

Definition addKey (kv : KVNamespace) (id : string) (key : jsval)
    : M World KvEvent (Exn + unit) :=
  kvPut kv ("api_keys:" ++ id)%string key.

Definition deleteKey (kv : KVNamespace) (id : string)
    : M World KvEvent (Exn + unit) :=
  kvDelete kv ("api_keys:" ++ id)%string.

Definition apiKeyExists (kv : KVNamespace) (key : jsval)
    : M World KvEvent (Exn + bool) :=
  keys <- getAllKeys kv ;;
  match keys with
  | inl e => ret (inl e)
  | inr keys => ret (inr (existsb (fun k => Dyn.isString (ApiKey.key k) key) keys))
  end.

(** [`key-${Date.now()}-${Math.random().toString(36).substring(2, 9)}`]
    (lines 1150 and 1169). *)
Definition newId : M World WorkerEvent string :=
  fun w =>
    let '(suffix, w1) := random36 w in
    (("key-" ++ JS.toString (Date_now w) ++ "-" ++ suffix)%string, w1, []).

(** The credential store as the engine reads it: what [getAllKeys] returns
    and the world it leaves. *)
Definition listKeys (kv : KVNamespace) (w : World)
    : (Exn + list ApiKey.t) * World :=
  let '(r, w1, _) := getAllKeys kv w in (r, w1).

(** [getAggregatedData(kv, isLoggedIn)] against the store.  Its first step
    is [await getAllKeys(kv)] (line 963), in the world it is entered in: the
    KV operations of that listing open the trace, the requests, delays and
    log lines of the aggregation follow. *)
Definition getAggregatedData_kv (kv : KVNamespace) (isLoggedIn : bool)
    : M World WorkerEvent (Completion AggregatedResponse.t) :=
  fun w =>
    let '(settled, w1, t) :=
      getAggregatedData World fetch elapse Date_now toISODate
        formatBeijingTime KVNamespace listKeys kv isLoggedIn w in
    (settled, w1, map Kv (snd (getAllKeys kv w)) ++ map Aggregation t).

(** *** Route handlers (lines 1059-1262) *)

Definition handleRoot : Response :=
  mkResponse 200 (Some "text/html; charset=utf-8") Html.

Definition handleGetData (req : Request) (env : Env KVNamespace)
    : M World WorkerEvent (Completion Response) :=
  let isLoggedIn := loggedIn req in
  settled <- getAggregatedData_kv (API_KEYS KVNamespace env) isLoggedIn ;;
  match settled with
  | Returned data => ret (Returned (createJsonResponse (DAggregated data) 200))
  | Threw error =>
      emit (ConsoleError "Error getting data:") ;;;
      ret (Returned (createErrorResponse
                       (messageOr "Failed to load data" error) 500))
  | Unsettled => ret Unsettled
  end.

Definition handleLogin (req : Request) (env : Env KVNamespace)
    : M World WorkerEvent Response :=
  let failed (error : Exn) :=
    emit (ConsoleError "Error during login:") ;;;
    ret (createErrorResponse (messageOr "Invalid JSON" error) 400) in
  match json req with
  | inl error => failed error
  | inr (VNull | VUndefined) => failed (ErrorObject (typeErrorMessage "username"))
  | inr body =>
      let username := Dyn.get "username" body in
      let password := Dyn.get "password" body in
      if Dyn.isString (EXPORT_PASSWORD KVNamespace env) username
         && Dyn.isString (EXPORT_PASSWORD KVNamespace env) password
      then ret (createJsonResponse DSuccess 200)
      else ret (createErrorResponse "账号或密码错误" 401)
  end.

Definition handleGetKeys (env : Env KVNamespace) : M World WorkerEvent Response :=
  keys <- embed Kv (getAllKeys (API_KEYS KVNamespace env)) ;;
  match keys with
  | inr keys => ret (createJsonResponse (DKeys keys) 200)
  | inl error =>
      emit (ConsoleError "Error getting keys:") ;;;
      ret (createErrorResponse (messageOr "Unknown error" error) 500)
  end.

(** The [for] loop of [handleBatchImport] with the set of known keys and the
    two counters. *)
Fixpoint handleBatchImport_loop (kv : KVNamespace) (items : list jsval)
    (existingKeys : list jsval) (added skipped : Z)
    : M World WorkerEvent (Exn + Z * Z) :=
  match items with
  | [] => ret (inr (added, skipped))
  | item :: rest =>
      if negb (Dyn.truthy item) || negb (Dyn.isObject item)
         || negb (Dyn.has "key" item)
      then handleBatchImport_loop kv rest existingKeys added skipped
      else
        let key := Dyn.get "key" item in
        if negb (Dyn.truthy key) || Dyn.setHas existingKeys key
        then handleBatchImport_loop kv rest existingKeys added
               (if Dyn.truthy key then skipped + 1 else skipped)
        else
          id <- newId ;;
          put <- embed Kv (addKey kv id key) ;;
          match put with
          | inl e => ret (inl e)
          | inr _ =>
              handleBatchImport_loop kv rest (existingKeys ++ [key])
                (added + 1) skipped
          end
  end.

Definition handleBatchImport (items : list jsval) (env : Env KVNamespace)
    (serverState : ServerState.t)
    : M World WorkerEvent ((Exn + Response) * ServerState.t) :=
  keys <- embed Kv (getAllKeys (API_KEYS KVNamespace env)) ;;
  match keys with
  | inl e => ret (inl e, serverState)
  | inr keys =>
      let existingKeys := map (fun k => VString (ApiKey.key k)) keys in
      counted <- handleBatchImport_loop (API_KEYS KVNamespace env) items
                   existingKeys 0 0 ;;
      match counted with
      | inl e => ret (inl e, serverState)
      | inr (added, skipped) =>
          let serverState :=
            if 0 <? added then ServerState.clearCache serverState
            else serverState in
          ret (inr (createJsonResponse (DImported added skipped) 200),
               serverState)
      end
  end.

Definition handleSingleKeyAdd (body : jsval) (env : Env KVNamespace)
    (serverState : ServerState.t)
    : M World WorkerEvent ((Exn + Response) * ServerState.t) :=
  if negb (Dyn.truthy body) || negb (Dyn.isObject body)
     || negb (Dyn.has "key" body)
  then ret (inr (createErrorResponse "key is required" 400), serverState)
  else
    let key := Dyn.get "key" body in
    if negb (Dyn.truthy key)
    then ret (inr (createErrorResponse "key cannot be empty" 400), serverState)
    else
      found <- embed Kv (apiKeyExists (API_KEYS KVNamespace env) key) ;;
      match found with
      | inl e => ret (inl e, serverState)
      | inr true =>
          ret (inr (createErrorResponse "API key already exists" 409),
               serverState)
      | inr false =>
          id <- newId ;;
          put <- embed Kv (addKey (API_KEYS KVNamespace env) id key) ;;
          match put with
          | inl e => ret (inl e, serverState)
          | inr _ =>
              ret (inr (createJsonResponse DSuccess 200),
                   ServerState.clearCache serverState)
          end
      end.

Definition handleAddKeys (req : Request) (env : Env KVNamespace)
    (serverState : ServerState.t)
    : M World WorkerEvent (Response * ServerState.t) :=
  let failed (error : Exn) (serverState : ServerState.t) :=
    emit (ConsoleError "Error adding keys:") ;;;
    ret (createErrorResponse (messageOr "Invalid JSON" error) 400, serverState) in
  match json req with
  | inl error => failed error serverState
  | inr body =>
      done <- match body with
              | VArray items => handleBatchImport items env serverState
              | _ => handleSingleKeyAdd body env serverState
              end ;;
      match done with
      | (inr response, serverState) => ret (response, serverState)
      | (inl error, serverState) => failed error serverState
      end
  end.

Definition handleDeleteKey (pathname : string) (env : Env KVNamespace)
    (serverState : ServerState.t)
    : M World WorkerEvent ((Exn + Response) * ServerState.t) :=
  match JSString.splitSecond pathname "/api/keys/" with
  | None | Some EmptyString =>
      ret (inr (createErrorResponse "Key ID is required" 400), serverState)
  | Some id =>
      deleted <- embed Kv (deleteKey (API_KEYS KVNamespace env) id) ;;
      match deleted with
      | inl e => ret (inl e, serverState)
      | inr _ =>
          ret (inr (createJsonResponse DSuccess 200),
               ServerState.clearCache serverState)
      end
  end.

(** [Promise.all(ids.map(id => deleteKey(...).catch(() => {})))]: every
    delete is attempted, a failed one is ignored. *)
Fixpoint deleteAll (kv : KVNamespace) (ids : list jsval)
    : M World WorkerEvent unit :=
  match ids with
  | [] => ret tt
  | id :: rest =>
      embed Kv (deleteKey kv (Dyn.toString id)) ;;;
      deleteAll kv rest
  end.

Definition handleBatchDeleteKeys (req : Request) (env : Env KVNamespace)
    (serverState : ServerState.t)
    : M World WorkerEvent (Response * ServerState.t) :=
  match json req with
  | inl error =>
      ret (createErrorResponse (messageOr "Invalid JSON" error) 400, serverState)
  | inr (VNull | VUndefined) =>
      ret (createErrorResponse (typeErrorMessage "ids") 400, serverState)
  | inr body =>
      match Dyn.get "ids" body with
      | VArray (id :: rest) =>
          deleteAll (API_KEYS KVNamespace env) (id :: rest) ;;;
          ret (createJsonResponse
                 (DDeleted (Z.of_nat (List.length (id :: rest)))) 200,
               ServerState.clearCache serverState)
      | _ => ret (createErrorResponse "ids array is required" 400, serverState)
      end
  end.

Definition handleExportKeys (req : Request) (env : Env KVNamespace)
    : M World WorkerEvent Response :=
  let failed (error : Exn) :=
    emit (ConsoleError "Error exporting keys:") ;;;
    ret (createErrorResponse (messageOr "Invalid JSON" error) 400) in
  match json req with
  | inl error => failed error
  | inr (VNull | VUndefined) => failed (ErrorObject (typeErrorMessage "password"))
  | inr body =>
      let password := Dyn.get "password" body in
      if negb (Dyn.isString (EXPORT_PASSWORD KVNamespace env) password)
      then ret (createErrorResponse "密码错误" 401)
      else
        keys <- embed Kv (getAllKeys (API_KEYS KVNamespace env)) ;;
        match keys with
        | inr keys => ret (createJsonResponse (DExported keys) 200)
        | inl error => failed error
        end
  end.

Definition handleRefreshSingleKey (pathname : string) (req : Request)
    (env : Env KVNamespace) : M World WorkerEvent Response :=
  let failed (error : Exn) :=
    emit (ConsoleError "Error refreshing key:") ;;;
    ret (createErrorResponse (messageOr "Unknown error" error) 500) in
  match JSString.splitSecond pathname "/api/keys/" with
  | None => failed (ErrorObject (typeErrorMessage "replace"))
  | Some piece =>
      let id := JSString.replace piece "/refresh" "" in
      if String.eqb id "" then ret (createErrorResponse "Key ID is required" 400)
      else
        key <- embed Kv (kvGet (API_KEYS KVNamespace env) ("api_keys:" ++ id)%string) ;;
        match key with
        | inl error => failed error
        | inr None => ret (createErrorResponse "Key not found" 404)
        | inr (Some key) =>
            if String.eqb key "" then ret (createErrorResponse "Key not found" 404)
            else
              let isLoggedIn := loggedIn req in
              keyData <- embed Usage
                           (fetchApiKeyData World fetch elapse toISODate
                              id key isLoggedIn 0%nat) ;;
              ret (createJsonResponse (DRefreshed keyData) 200)
        end
  end.

(** *** Main request handler (lines 1269-1318) *)

Definition handler (req : Request) (env : Env KVNamespace)
    (serverState : ServerState.t)
    : M World WorkerEvent (Completion Response * ServerState.t) :=
  let path := pathname req in
  if String.eqb path "/" then ret (Returned handleRoot, serverState)
  else if String.eqb path "/api/data" && String.eqb (method req) "GET" then
    response <- handleGetData req env ;; ret (response, serverState)
  else if String.eqb path "/api/login" && String.eqb (method req) "POST" then
    response <- handleLogin req env ;; ret (Returned response, serverState)
  else if String.eqb path "/api/keys" && String.eqb (method req) "GET" then
    response <- handleGetKeys env ;; ret (Returned response, serverState)
  else if String.eqb path "/api/keys" && String.eqb (method req) "POST" then
    done <- handleAddKeys req env serverState ;;
    ret (Returned (fst done), snd done)
  else if String.eqb path "/api/keys/batch-delete"
          && String.eqb (method req) "POST" then
    done <- handleBatchDeleteKeys req env serverState ;;
    ret (Returned (fst done), snd done)
  else if String.eqb path "/api/keys/export" && String.eqb (method req) "POST" then
    response <- handleExportKeys req env ;; ret (Returned response, serverState)
  else if JSString.startsWith path "/api/keys/"
          && String.eqb (method req) "DELETE" then
    done <- handleDeleteKey path env serverState ;;
    ret (match fst done with
         | inr response => Returned response
         | inl error => Threw error
         end, snd done)
  else if JSString.matchesRefresh path && String.eqb (method req) "POST" then
    response <- handleRefreshSingleKey path req env ;;
    ret (Returned response, serverState)
  else ret (Returned (mkResponse 404 None (Text "Not Found")), serverState).

(** *** The exported [fetch] (lines 1323-1342): whatever [handler] throws
    becomes a 500 response. *)
Definition default_fetch (request : Request) (env : Env KVNamespace)
    (serverState : ServerState.t)
    : M World WorkerEvent (Completion Response * ServerState.t) :=
  done <- handler request env serverState ;;
  match fst done with
  | Threw error =>
      emit (ConsoleError "[FATAL ERROR]") ;;;
      ret (Returned (createJsonResponse (DInternal error) 500), snd done)
  | settled => ret (settled, snd done)
  end.

End Handlers.

(** *** Observations on worker traces *)

Definition kvEvents (tr : list WorkerEvent) : list KvEvent :=
  flat_map (fun e => match e with Kv e' => [e'] | _ => [] end) tr.

Definition usageEvents (tr : list WorkerEvent) : list FetchEvent :=
  flat_map (fun e => match e with Usage e' => [e'] | _ => [] end) tr.

(** The writes of a trace of KV operations: what was put under which name. *)
Definition puts (tr : list KvEvent) : list (string * jsval) :=
  flat_map (fun e => match e with KvPut name value => [(name, value)] | _ => [] end) tr.

Definition deletes (tr : list KvEvent) : list string :=
  flat_map (fun e => match e with KvDelete name => [name] | _ => [] end) tr.

Definition gets (tr : list KvEvent) : list string :=
  flat_map (fun e => match e with KvGet name => [name] | _ => [] end) tr.

(** An item of a batch import that carries a usable key (lines 1143-1146). *)
Definition importable (item : jsval) : bool :=
  Dyn.truthy item && Dyn.isObject item && Dyn.has "key" item
  && Dyn.truthy (Dyn.get "key" item).

(** A string without [/] and without line breaks, as the ids that [newId]
    makes are. *)
Fixpoint plain (s : string) : bool :=
  match s with
  | EmptyString => true
  | String c s' =>
      negb (Ascii.eqb c "/"%char) && JSString.isDot c && plain s'
  end.

End Worker.

(** ** An in-memory platform

    The namespace is the list of its entries, the network always fails and
    the clock and the random source are constant.  Used to run the handlers
    on concrete requests. *)

Module Memory.

Definition World : Type := list (string * string).

Definition fetch (_ : string) (w : World) : HttpResult * World :=
  (NetworkFailure, w).
Definition elapse (_ : Z) (w : World) : World := w.
Definition Date_now (_ : World) : Z := 1700000000000.
Definition toISODate (_ : Z) : option string := None.
Definition formatBeijingTime (_ : Z) (formatStr : string) : string := formatStr.

Definition kv_list (_ : unit) (prefix : string) (w : World)
    : (Exn + list string) * World :=
  (inr (map fst (filter (fun e => String.prefix prefix (fst e)) w)), w).

Definition kv_get (_ : unit) (name : string) (w : World)
    : (Exn + option string) * World :=
  (inr (option_map snd (find (fun e => String.eqb (fst e) name) w)), w).

Definition kv_put (_ : unit) (name : string) (value : jsval) (w : World)
    : (Exn + unit) * World :=
  match value with
  | VString text =>
      (inr tt, filter (fun e => negb (String.eqb (fst e) name)) w ++ [(name, text)])
  | _ => (inl (ErrorObject "KV put() accepts only strings"), w)
  end.

Definition kv_delete (_ : unit) (name : string) (w : World)
    : (Exn + unit) * World :=
  (inr tt, filter (fun e => negb (String.eqb (fst e) name)) w).

Definition random36 (w : World) : string * World := ("k3j9x0a", w).
Definition typeErrorMessage (property : string) : string :=
  ("Cannot destructure property '" ++ property ++ "'")%string.

Definition env : Env unit := mkEnv unit tt "hunter2".

Definition default_fetch :=
  Worker.default_fetch World fetch elapse Date_now toISODate formatBeijingTime
    unit kv_list kv_get kv_put kv_delete random36 typeErrorMessage.

End Memory.

(** * Properties *)

Example mask_long : maskApiKey "fk-ABCDEFGHIJKL" = "fk-A...IJKL".
Proof. reflexivity. Qed.

Example mask_short : maskApiKey "abc" = "abc...".
Proof. reflexivity. Qed.

Example toString_401 : JS.toString 401 = "401".
Proof. reflexivity. Qed.

Example slice_neg : JS.slice [1; 2; 3] 0 (-1) = [1; 2].
Proof. reflexivity. Qed.

(** ** Strings *)

Lemma string_length_append (a b : string) :
  String.length (a ++ b)%string = (String.length a + String.length b)%nat.
Proof.
  induction a as [|c a IH]; simpl; [reflexivity | now rewrite IH].
Qed.

Lemma string_append_empty (a : string) : (a ++ "")%string = a.
Proof.
  induction a as [|c a IH]; simpl; [reflexivity | now rewrite IH].
Qed.

Lemma string_length_zero (a : string) : String.length a = 0%nat -> a = "".
Proof. destruct a; simpl; [reflexivity | discriminate]. Qed.

(** [substring 0 n] cuts a prefix of [min n (length s)] characters. *)
Lemma substring_prefix (n : nat) :
  forall s : string,
    exists rest : string,
      s = (String.substring 0 n s ++ rest)%string
      /\ String.length (String.substring 0 n s) = Nat.min n (String.length s).
Proof.
  induction n as [|n IH]; intros s.
  - exists s. destruct s; simpl; split; reflexivity.
  - destruct s as [|c s].
    + exists "". simpl. split; reflexivity.
    + destruct (IH s) as [rest [Hs Hlen]].
      exists rest. simpl. split.
      * f_equal. exact Hs.
      * f_equal. exact Hlen.
Qed.

Lemma JS_substring_from_start (s : string) (n : Z) :
  0 <= n ->
  JS.substring s 0 (Some n)
  = String.substring 0 (Nat.min (Z.to_nat n) (String.length s)) s.
Proof.
  intros Hn. unfold JS.substring, JS.clamp.
  replace (Z.min (Z.max 0 (Z.min 0 (Z.of_nat (String.length s))))
                 (Z.max 0 (Z.min n (Z.of_nat (String.length s))))) with 0 by lia.
  replace (Z.max (Z.max 0 (Z.min 0 (Z.of_nat (String.length s))))
                 (Z.max 0 (Z.min n (Z.of_nat (String.length s)))) - 0)
    with (Z.min n (Z.of_nat (String.length s))) by lia.
  simpl (Z.to_nat 0).
  f_equal. lia.
Qed.

(** ** The refresh cache *)

Lemma clearCache_fields (s : ServerState.t) :
  ServerState.clearCache s = ServerState.mk None None false.
Proof. reflexivity. Qed.

Lemma setError_fields (message : string) (s : ServerState.t) :
  ServerState.setError message s
  = ServerState.mk (ServerState.cachedData s) (Some message) false.
Proof. reflexivity. Qed.

Lemma updateCache_fields (data : AggregatedResponse.t) (s : ServerState.t) :
  ServerState.updateCache data s = ServerState.mk (Some data) None false.
Proof. reflexivity. Qed.

(** C8.  Masking of the displayed key: with the configured prefix and suffix
    of 4 characters, the secret [fk-ABCDEFGHIJKL] is displayed as
    [fk-A...IJKL] when secrets are not revealed, and every secret is
    displayed unchanged when they are. *)
Theorem display_key_masking :
  CONFIG.KEY_MASK_PREFIX_LENGTH = 4
  /\ CONFIG.KEY_MASK_SUFFIX_LENGTH = 4
  /\ getDisplayKey "fk-ABCDEFGHIJKL" false = "fk-A...IJKL"
  /\ forall secret : string, getDisplayKey secret true = secret.
Proof.
  repeat split.
Qed.

(** C9.  A secret no longer than prefix plus suffix (8 characters) is
    displayed as its first 4 characters, or all of them when it has fewer,
    followed by the ellipsis, with no suffix; a secret of at most 4 characters
    is therefore displayed whole, followed by the ellipsis. *)
Theorem mask_short_secret (key : string)
    (Hshort : Z.of_nat (String.length key)
              <= CONFIG.KEY_MASK_PREFIX_LENGTH + CONFIG.KEY_MASK_SUFFIX_LENGTH) :
  (exists prefix rest : string,
      key = (prefix ++ rest)%string
      /\ String.length prefix = Nat.min 4 (String.length key)
      /\ maskApiKey key = (prefix ++ "...")%string)
  /\ ((String.length key <= 4)%nat -> maskApiKey key = (key ++ "...")%string).
Proof.
  assert (Hmask : maskApiKey key
                  = (String.substring 0 (Nat.min 4 (String.length key)) key
                     ++ "...")%string).
  { unfold maskApiKey.
    destruct (Z.leb_spec (Z.of_nat (String.length key))
                (CONFIG.KEY_MASK_PREFIX_LENGTH + CONFIG.KEY_MASK_SUFFIX_LENGTH))
      as [_|Hgt]; [|lia].
    rewrite JS_substring_from_start by (unfold CONFIG.KEY_MASK_PREFIX_LENGTH; lia).
    reflexivity. }
  destruct (substring_prefix (Nat.min 4 (String.length key)) key)
    as [rest [Hkey Hlen]].
  rewrite <- Nat.min_assoc, Nat.min_id in Hlen.
  split.
  - exists (String.substring 0 (Nat.min 4 (String.length key)) key), rest.
    repeat split; assumption.
  - intros Hle. rewrite Hmask. f_equal.
    assert (Hrest : String.length rest = 0%nat).
    { apply (f_equal String.length) in Hkey.
      rewrite string_length_append, Hlen in Hkey. lia. }
    apply string_length_zero in Hrest. subst rest.
    rewrite string_append_empty in Hkey. symmetry. exact Hkey.
Qed.

Lemma mask_short_secret_witness :
  maskApiKey "abcdef" = "abcd..." /\ maskApiKey "abc" = "abc...".
Proof.
  split.
  - destruct (mask_short_secret "abcdef") as [[prefix [rest [Hk [Hl Hm]]]] _].
    + vm_compute. discriminate.
    + reflexivity.
  - apply (mask_short_secret "abc").
    + vm_compute. discriminate.
    + simpl. lia.
Defined.

(** C3, as the code has it.  [clearCache] clears the snapshot and the last
    error and also sets the refreshing flag to [false]: whatever the state
    was, it is the initial state again, so the flag keeps its value only when
    no refresh was in progress. *)
Theorem clearCache_resets_all (s : ServerState.t) :
  ServerState.getData (ServerState.clearCache s) = None
  /\ ServerState.getError (ServerState.clearCache s) = None
  /\ ServerState.isCurrentlyUpdating (ServerState.clearCache s) = false
  /\ ServerState.clearCache s = ServerState.new.
Proof.
  repeat split.
Qed.

(** C3, as stated, fails: a cache that is refreshing is no longer marked as
    refreshing after [clearCache]. *)
Lemma clearCache_touches_refreshing :
  ~ (forall s : ServerState.t,
        ServerState.isCurrentlyUpdating (ServerState.clearCache s)
        = ServerState.isCurrentlyUpdating s).
Proof.
  intros H.
  specialize (H (ServerState.startUpdate ServerState.new)).
  discriminate H.
Qed.

(** C7.  [setError] ends the refresh (the flag becomes [false]), records the
    message as the last error and leaves the snapshot as it was; after a
    [updateCache] the committed snapshot is therefore still served. *)
Theorem setError_keeps_snapshot (message : string) (s : ServerState.t) :
  ServerState.isCurrentlyUpdating (ServerState.setError message s) = false
  /\ ServerState.getError (ServerState.setError message s) = Some message
  /\ ServerState.getData (ServerState.setError message s) = ServerState.getData s
  /\ (forall data : AggregatedResponse.t,
         ServerState.getData
           (ServerState.setError message
              (ServerState.startUpdate (ServerState.updateCache data s)))
         = Some data)
  /\ (forall e : Exn,
         ServerState.getData (autoRefreshData_resume (inl e) s)
         = ServerState.getData s).
Proof.
  repeat split.
  intros [m|]; reflexivity.
Qed.

Lemma enter_when_updating (s : ServerState.t) :
  ServerState.isCurrentlyUpdating s = true -> autoRefreshData_enter s = None.
Proof. unfold autoRefreshData_enter. intros ->. reflexivity. Qed.

Lemma flag_counts_step (sys : Cache.System) (a : Cache.Action) :
  Cache.flag_counts sys ->
  match a with Cache.KeysChanged => Cache.inflight sys = 0%nat | _ => True end ->
  Cache.flag_counts (Cache.step sys a).
Proof.
  unfold Cache.flag_counts. destruct sys as [s n k]. simpl.
  destruct a as [|r|]; simpl; intros Hinv Hquiet.
  - unfold autoRefreshData_enter.
    destruct (ServerState.isCurrentlyUpdating s) eqn:Hflag; simpl.
    + rewrite Hflag. exact Hinv.
    + rewrite Hinv. reflexivity.
  - destruct n as [|n]; simpl.
    + exact Hinv.
    + destruct (ServerState.isCurrentlyUpdating s); [|discriminate].
      injection Hinv as ->. destruct r as [[m|]|data]; reflexivity.
  - exact Hquiet.
Qed.

Lemma flag_counts_run (actions : list Cache.Action) :
  forall sys : Cache.System,
    Cache.flag_counts sys -> Cache.quiet sys actions = true ->
    Cache.flag_counts (Cache.run sys actions).
Proof.
  induction actions as [|a rest IH]; intros sys Hinv Hquiet; simpl in *.
  - exact Hinv.
  - apply andb_prop in Hquiet as [Ha Hrest].
    apply IH; [|exact Hrest].
    apply flag_counts_step; [exact Hinv|].
    destruct a; try exact I. now apply Nat.eqb_eq.
Qed.

(** C6, as the code has it.  When a refresh cycle is in progress,
    [autoRefreshData] returns at once: no request is made, nothing is logged
    and the state is unchanged.  Two calls in a row therefore start one fetch
    cycle, and at most one cycle is in progress at a time as long as no key is
    added or deleted (no [clearCache]) while a cycle is pending. *)
Theorem refresh_guard :
  (forall (World : Type) fetch elapse Date_now toISODate formatBeijingTime
          (KVNamespace : Type) getAllKeys
          (env : Env KVNamespace) (s : ServerState.t) (w : World),
      ServerState.isCurrentlyUpdating s = true ->
      autoRefreshData World fetch elapse Date_now toISODate formatBeijingTime
        KVNamespace getAllKeys env s w = (Returned s, w, []))
  /\ (forall sys : Cache.System,
         ServerState.isCurrentlyUpdating (Cache.serverState sys) = true ->
         Cache.step sys Cache.Tick = sys)
  /\ (forall sys : Cache.System,
         ServerState.isCurrentlyUpdating (Cache.serverState sys) = false ->
         Cache.initiated (Cache.run sys [Cache.Tick; Cache.Tick])
         = S (Cache.initiated sys))
  /\ (forall actions : list Cache.Action,
         Cache.quiet Cache.boot actions = true ->
         (Cache.inflight (Cache.run Cache.boot actions) <= 1)%nat).
Proof.
  repeat split.
  - intros World fetch elapse Date_now toISODate formatBeijingTime KV getAllKeys
           env s w Hflag.
    unfold autoRefreshData. rewrite (enter_when_updating s Hflag). reflexivity.
  - intros sys Hflag. simpl. rewrite (enter_when_updating _ Hflag). reflexivity.
  - intros [s n k] Hflag. simpl in *. unfold autoRefreshData_enter.
    rewrite Hflag. reflexivity.
  - intros actions Hquiet.
    assert (Hinv : Cache.flag_counts (Cache.run Cache.boot actions)).
    { apply flag_counts_run; [reflexivity | exact Hquiet]. }
    unfold Cache.flag_counts in Hinv. rewrite Hinv.
    destruct (ServerState.isCurrentlyUpdating _); lia.
Qed.

Lemma refresh_guard_witness :
  (Cache.inflight
     (Cache.run Cache.boot
        [Cache.Tick; Cache.Tick; Cache.Settle (inl Thrown);
         Cache.KeysChanged; Cache.Tick]) <= 1)%nat.
Proof.
  apply (proj2 (proj2 (proj2 refresh_guard))).
  reflexivity.
Defined.

(** C6, as stated, fails: a key deleted while a refresh is pending clears the
    flag, the next tick starts a second cycle, and two are in progress. *)
Lemma two_cycles_in_flight :
  ~ (forall actions : list Cache.Action,
        (Cache.inflight (Cache.run Cache.boot actions) <= 1)%nat).
Proof.
  intros H.
  specialize (H [Cache.Tick; Cache.KeysChanged; Cache.Tick]).
  vm_compute in H. lia.
Qed.

(** ** Running computations *)

Lemma bind_run {World E A B : Type} (m : M World E A) (k : A -> M World E B)
    (w : World) a w1 t1 b w2 t2 :
  m w = (a, w1, t1) -> k a w1 = (b, w2, t2) ->
  bind m k w = (b, w2, t1 ++ t2).
Proof. intros Hm Hk. unfold bind. rewrite Hm, Hk. reflexivity. Qed.

Lemma schedule_app {E : Type} (t1 t2 : list (BatchEvent E)) :
  schedule (t1 ++ t2) = schedule t1 ++ schedule t2.
Proof. apply filter_app. Qed.

Lemma schedule_tasks {E : Type} (t : list E) : schedule (map Task t) = [].
Proof. induction t as [|e t IH]; simpl; [reflexivity | exact IH]. Qed.

Lemma pacings_schedule {E : Type} (tr : list (BatchEvent E)) :
  pacings (schedule tr) = pacings tr.
Proof.
  unfold pacings, schedule.
  induction tr as [|e tr IH]; simpl; [reflexivity|].
  destruct e; simpl; rewrite ?IH; reflexivity.
Qed.

Lemma firstn_min_length {A : Type} (n : nat) (l : list A) :
  firstn (Nat.min n (List.length l)) l = firstn n l.
Proof.
  destruct (Nat.le_ge_cases n (List.length l)) as [H|H].
  - rewrite Nat.min_l by exact H. reflexivity.
  - rewrite Nat.min_r by exact H.
    rewrite firstn_all, firstn_all2 by exact H. reflexivity.
Qed.

(** Inside the array and with a positive chunk size, [slice] takes the next
    chunk of the remaining items. *)
Lemma slice_chunk {A : Type} (items : list A) (i c : Z) :
  0 <= i -> 1 <= c ->
  JS.slice items i (i + c)
  = firstn (Z.to_nat c) (skipn (Z.to_nat i) items).
Proof.
  intros Hi Hc. unfold JS.slice, JS.relative.
  destruct (Z.ltb_spec i 0) as [?|_]; [lia|].
  destruct (Z.ltb_spec (i + c) 0) as [?|_]; [lia|].
  destruct (Z_le_gt_dec i (Z.of_nat (List.length items))) as [Hin|Hout].
  - rewrite (Z.min_l i) by exact Hin.
    rewrite <- (firstn_min_length (Z.to_nat c)).
    f_equal. rewrite length_skipn. lia.
  - rewrite (skipn_all2 items (n := Z.to_nat i)) by lia.
    rewrite (skipn_all2 items (n := Z.to_nat (Z.min i (Z.of_nat (List.length items))))) by lia.
    rewrite !firstn_nil. reflexivity.
Qed.

Lemma Paced_zero {E : Type} (c : nat) (d : Z) (tr : list (BatchEvent E)) :
  Paced c d 0 tr -> tr = [].
Proof. inversion 1; [reflexivity | lia | lia]. Qed.

Section BatchFacts.

Context {World : Type} (elapse : Z -> World -> World).
Context {T R E : Type} (items : list T) (processor : T -> M World E R).
Context (concurrency delayMs : Z).

(** A property that every result of the worker has, whatever the world. *)
Variable P : T -> R -> Prop.
Hypothesis processor_P : forall item w, P item (fst (fst (processor item w))).

Lemma promise_all_spec (batch : list T) :
  forall w : World,
    exists rs w' tr,
      promise_all (map processor batch) w = (rs, w', tr)
      /\ Forall2 P batch rs
      /\ schedule tr = [].
Proof.
  induction batch as [|item batch IH]; intros w; simpl.
  - exists [], w, []. repeat split. constructor.
  - destruct (processor item w) as [[r w1] t1] eqn:Hrun.
    destruct (IH w1) as (rs & w2 & tr & Hrest & HP & Hsched).
    exists (r :: rs), w2, (map Task t1 ++ tr ++ []).
    split; [|split].
    + eapply bind_run.
      * unfold embed. rewrite Hrun. reflexivity.
      * eapply bind_run; [exact Hrest | reflexivity].
    + constructor; [|exact HP].
      specialize (processor_P item w). rewrite Hrun in processor_P.
      exact processor_P.
    + rewrite app_nil_r, schedule_app, schedule_tasks, Hsched. reflexivity.
Qed.

Lemma batchProcess_loop_unfold (fuel : nat) (i : Z) (results : list R) :
  batchProcess_loop elapse fuel items processor concurrency delayMs i results
  = if i <? Z.of_nat (List.length items) then
      match fuel with
      | O => ret Unsettled
      | S fuel' =>
          let batch := JS.slice items i (i + concurrency) in
          bind (emit (Batch (List.length batch))) (fun _ =>
          bind (promise_all (map processor batch)) (fun batchResults =>
          bind (if i + concurrency <? Z.of_nat (List.length items)
                then sleep World elapse Pacing delayMs
                else ret tt) (fun _ =>
          batchProcess_loop elapse fuel' items processor concurrency delayMs
            (i + concurrency) (results ++ batchResults))))
      end
    else ret (Returned results).
Proof. destruct fuel; reflexivity. Qed.

(** With a chunk size of at least 1, one unit of fuel per remaining item is
    enough for the loop to return: the results pushed are those of the
    remaining items, in order, and the schedule is paced. *)
Lemma batchProcess_loop_returns :
  1 <= concurrency ->
  forall (fuel : nat) (i : Z) (results : list R) (w : World),
    0 <= i ->
    (List.length (skipn (Z.to_nat i) items) <= fuel)%nat ->
    exists rs w' tr,
      batchProcess_loop elapse fuel items processor concurrency delayMs
        i results w = (Returned (results ++ rs), w', tr)
      /\ Forall2 P (skipn (Z.to_nat i) items) rs
      /\ Paced (Z.to_nat concurrency) delayMs
           (List.length (skipn (Z.to_nat i) items)) (schedule tr).
Proof.
  intros Hc fuel.
  induction fuel as [|fuel IH]; intros i results w Hi Hfuel;
    rewrite batchProcess_loop_unfold;
    rewrite length_skipn in Hfuel;
    destruct (Z.ltb_spec i (Z.of_nat (List.length items))) as [Hlt|Hge];
    try lia.
  - exists [], w, []. rewrite app_nil_r.
    rewrite skipn_all2 by lia. repeat split; constructor.
  - cbv zeta.
    rewrite slice_chunk by lia.
    set (rem := skipn (Z.to_nat i) items).
    assert (Hrem : List.length rem = (List.length items - Z.to_nat i)%nat)
      by apply length_skipn.
    destruct (promise_all_spec (firstn (Z.to_nat concurrency) rem) w)
      as (brs & w1 & t1 & Hall & HP1 & Hs1).
    assert (Hnext : skipn (Z.to_nat (i + concurrency)) items
                    = skipn (Z.to_nat concurrency) rem).
    { unfold rem. rewrite skipn_skipn. f_equal. lia. }
    destruct (Z.ltb_spec (i + concurrency) (Z.of_nat (List.length items)))
      as [Hmore|Hlast].
    + destruct (IH (i + concurrency) (results ++ brs) (elapse delayMs w1))
        as (rs & w2 & tr & Hloop & HP2 & Hpaced); [lia | |].
      { rewrite length_skipn. lia. }
      rewrite Hnext in HP2, Hpaced.
      exists (brs ++ rs), w2,
        ([Batch (List.length (firstn (Z.to_nat concurrency) rem))]
         ++ t1 ++ [Pacing delayMs] ++ tr).
      split; [|split].
      * eapply bind_run; [reflexivity|].
        eapply bind_run; [exact Hall|].
        eapply bind_run; [reflexivity|].
        rewrite Hloop. rewrite <- app_assoc. reflexivity.
      * rewrite <- (firstn_skipn (Z.to_nat concurrency) rem).
        apply Forall2_app; assumption.
      * rewrite !schedule_app, Hs1. simpl.
        rewrite length_firstn, Nat.min_l by lia.
        apply Paced_more; [lia|].
        rewrite length_skipn in Hpaced. exact Hpaced.
    + destruct (IH (i + concurrency) (results ++ brs) w1)
        as (rs & w2 & tr & Hloop & HP2 & Hpaced); [lia | |].
      { rewrite length_skipn. lia. }
      rewrite Hnext in HP2, Hpaced.
      rewrite length_skipn in Hpaced.
      replace (List.length rem - Z.to_nat concurrency)%nat with 0%nat
        in Hpaced by lia.
      apply Paced_zero in Hpaced.
      exists (brs ++ rs), w2,
        ([Batch (List.length (firstn (Z.to_nat concurrency) rem))]
         ++ t1 ++ [] ++ tr).
      split; [|split].
      * eapply bind_run; [reflexivity|].
        eapply bind_run; [exact Hall|].
        eapply bind_run; [reflexivity|].
        rewrite Hloop. rewrite <- app_assoc. reflexivity.
      * rewrite <- (firstn_skipn (Z.to_nat concurrency) rem).
        apply Forall2_app; assumption.
      * rewrite !schedule_app, Hs1, Hpaced. simpl.
        rewrite length_firstn, Nat.min_r by lia.
        apply Paced_last. lia.
  - exists [], w, []. rewrite app_nil_r.
    rewrite skipn_all2 by lia. repeat split; constructor.
Qed.

Lemma batchProcess_returns :
  1 <= concurrency ->
  forall (fuel : nat) (w : World),
    (List.length items <= fuel)%nat ->
    exists results w' tr,
      batchProcess elapse fuel items processor concurrency delayMs w
      = (Returned results, w', tr)
      /\ Forall2 P items results
      /\ Paced (Z.to_nat concurrency) delayMs (List.length items) (schedule tr).
Proof.
  intros Hc fuel w Hfuel.
  destruct (batchProcess_loop_returns Hc fuel 0 [] w) as (rs & w' & tr & H);
    [lia | exact Hfuel |].
  exists rs, w', tr. exact H.
Qed.

(** With a chunk size of 0 or less the index never passes the end of a
    non-empty array: no amount of fuel lets the loop return. *)
Lemma batchProcess_loop_spins :
  concurrency <= 0 -> items <> [] ->
  forall (fuel : nat) (i : Z) (results : list R) (w : World),
    i <= 0 ->
    fst (fst (batchProcess_loop elapse fuel items processor concurrency
                delayMs i results w)) = Unsettled.
Proof.
  intros Hc Hitems fuel.
  assert (Hlen : 0 < Z.of_nat (List.length items)).
  { destruct items; [contradiction | simpl; lia]. }
  induction fuel as [|fuel IH]; intros i results w Hi;
    rewrite batchProcess_loop_unfold;
    destruct (Z.ltb_spec i (Z.of_nat (List.length items))) as [Hlt|Hge];
    try lia.
  - reflexivity.
  - cbv zeta. unfold bind at 1. simpl.
    unfold bind at 1.
    destruct (promise_all _ w) as [[brs w1] t1].
    unfold bind at 1.
    destruct ((if i + concurrency <? Z.of_nat (List.length items)
               then sleep World elapse (@Pacing E) delayMs else ret tt) w1)
      as [[u w2] t2].
    specialize (IH (i + concurrency) (results ++ brs) w2).
    destruct (batchProcess_loop _ _ _ _ _ _ _ _ w2) as [[b w3] t3].
    simpl in *. apply IH. lia.
Qed.

End BatchFacts.

(** ** Pacing *)

Lemma Paced_pacings {E : Type} (c : nat) (d : Z) (n : nat)
    (tr : list (BatchEvent E)) :
  Paced c d n tr -> (0 < c)%nat -> n <> 0%nat ->
  Z.of_nat (pacings tr) = (Z.of_nat n + Z.of_nat c - 1) / Z.of_nat c - 1.
Proof.
  induction 1 as [|n Hn|n tr Hn Hrest IH]; intros Hc Hpos.
  - contradiction.
  - replace ((Z.of_nat n + Z.of_nat c - 1) / Z.of_nat c) with 1.
    + reflexivity.
    + apply Z.div_unique with (r := Z.of_nat n - 1); lia.
  - change (pacings (Batch c :: Pacing d :: tr)) with (S (pacings tr)).
    rewrite Nat2Z.inj_succ, IH by lia.
    replace (Z.of_nat n + Z.of_nat c - 1)
      with ((Z.of_nat (n - c) + Z.of_nat c - 1) + 1 * Z.of_nat c) by lia.
    rewrite Z.div_add by lia. lia.
Qed.

Lemma Paced_sizes {E : Type} (c : nat) (d : Z) (n : nat)
    (tr : list (BatchEvent E)) :
  (0 < c)%nat -> Paced c d n tr ->
  Forall (fun e => match e with
                   | Batch k => (0 < k <= c)%nat
                   | Pacing d' => d' = d
                   | Task _ => False
                   end) tr.
Proof.
  intros Hc. induction 1 as [|n Hn|n tr Hn Hrest IH].
  - constructor.
  - constructor; [exact Hn | constructor].
  - constructor; [lia|]. constructor; [reflexivity | exact IH].
Qed.


Lemma Forall_schedule {E : Type} (Q : BatchEvent E -> Prop)
    (tr : list (BatchEvent E)) :
  (forall e : E, Q (Task e)) -> Forall Q (schedule tr) -> Forall Q tr.
Proof.
  intros Htask. induction tr as [|e tr IH]; intros H; [constructor|].
  destruct e as [k|d|e]; simpl in H.
  - inversion H; subst. constructor; [assumption | apply IH; assumption].
  - inversion H; subst. constructor; [assumption | apply IH; assumption].
  - constructor; [apply Htask | apply IH; exact H].
Qed.

(** C10.  With a chunk size of at least 1 [batchProcess] returns, for every
    list of items, once it is given one unit of fuel per item: one result per
    item, the result at each position being what the worker returned for the
    item at that position.  With a chunk size of 0 or less and a non-empty
    list the loop never reaches its exit test: whatever the fuel, the call is
    still pending, and it has not thrown. *)
Theorem batchProcess_termination {World : Type} (elapse : Z -> World -> World)
    {T R E : Type} (items : list T) (processor : T -> M World E R)
    (concurrency delayMs : Z) (w : World) :
  (1 <= concurrency ->
   forall fuel : nat,
     (List.length items <= fuel)%nat ->
     exists results w' tr,
       batchProcess elapse fuel items processor concurrency delayMs w
       = (Returned results, w', tr)
       /\ List.length results = List.length items
       /\ Forall2 (fun item r => exists w0, fst (fst (processor item w0)) = r)
            items results)
  /\ (concurrency <= 0 -> items <> [] ->
      forall fuel : nat,
        fst (fst (batchProcess elapse fuel items processor concurrency
                    delayMs w)) = Unsettled).
Proof.
  split.
  - intros Hc fuel Hfuel.
    destruct (batchProcess_returns elapse items processor concurrency delayMs
                (fun item r => exists w0, fst (fst (processor item w0)) = r)
                (fun item w0 => ex_intro _ w0 eq_refl) Hc fuel w Hfuel)
      as (results & w' & tr & Hrun & HP & _).
    exists results, w', tr. repeat split; try assumption.
    symmetry. exact (Forall2_length HP).
  - intros Hc Hitems fuel.
    apply (batchProcess_loop_spins elapse items processor concurrency delayMs
             Hc Hitems fuel 0 [] w).
    lia.
Qed.

Lemma batchProcess_termination_witness :
  (exists results w' tr,
      batchProcess (fun _ (w : unit) => w) 3 [1; 2; 3]
        (fun x : Z => ret (World := unit) (E := Empty_set) (x + 1)) 2 100 tt
      = (Returned results, w', tr)
      /\ List.length results = 3%nat
      /\ Forall2 (fun item r => exists w0 : unit,
                      fst (fst (ret (World := unit) (E := Empty_set)
                                  (item + 1) w0)) = r)
           [1; 2; 3] results)
  /\ fst (fst (batchProcess (fun _ (w : unit) => w) 1000 [1; 2; 3]
                 (fun x : Z => ret (World := unit) (E := Empty_set) (x + 1))
                 0 100 tt)) = Unsettled.
Proof.
  split.
  - apply (proj1 (batchProcess_termination (fun _ (w : unit) => w) [1; 2; 3]
                    (fun x : Z => ret (x + 1)) 2 100 tt)).
    + lia.
    + simpl. lia.
  - apply (proj2 (batchProcess_termination (fun _ (w : unit) => w) [1; 2; 3]
                    (fun x : Z => ret (x + 1)) 0 100 tt)).
    + lia.
    + discriminate.
Defined.




(** ** The usage client *)

Section ClientFacts.

Context {World : Type} (fetch : string -> World -> HttpResult * World).
Context (elapse : Z -> World -> World) (toISODate : Z -> option string).
Context (id key : string) (isLoggedIn : bool).


Lemma client_network_failure (retryCount : nat) (w w1 : World) :
  fetch key w = (NetworkFailure, w1) ->
  fetchApiKeyData World fetch elapse toISODate id key isLoggedIn retryCount w
  = (ErrorData (ApiErrorData.mk id (getDisplayKey key isLoggedIn) "Failed to fetch"),
     w1, [Fetch key]).
Proof.
  intros Hfetch. rewrite fetchApiKeyData_equation_1.
  cbv zeta. unfold bind at 1. rewrite Hfetch. reflexivity.
Qed.

Lemma client_other_status (retryCount : nat) (w w1 : World)
    (status : Z) (body : option ApiResponse.t) :
  fetch key w = (Response status body, w1) ->
  ok status = false -> status <> 401 ->
  fetchApiKeyData World fetch elapse toISODate id key isLoggedIn retryCount w
  = (ErrorData (ApiErrorData.mk id (getDisplayKey key isLoggedIn)
                  ("HTTP " ++ JS.toString status)%string),
     w1, [Fetch key]).
Proof.
  intros Hfetch Hok Hstatus.
  rewrite fetchApiKeyData_equation_1.
  cbv zeta. unfold bind at 1. rewrite Hfetch, Hok.
  apply Z.eqb_neq in Hstatus. rewrite Hstatus. reflexivity.
Qed.

Lemma client_gives_up (retryCount : nat) (w w1 : World)
    (body : option ApiResponse.t) :
  fetch key w = (Response 401 body, w1) ->
  (maxRetries <= retryCount)%nat ->
  fetchApiKeyData World fetch elapse toISODate id key isLoggedIn retryCount w
  = (ErrorData (ApiErrorData.mk id (getDisplayKey key isLoggedIn) "HTTP 401"), w1, [Fetch key]).
Proof.
  intros Hfetch Hmax.
  rewrite fetchApiKeyData_equation_1.
  cbv zeta. unfold bind at 1. rewrite Hfetch.
  change (negb (ok 401)) with true. change (401 =? 401) with true.
  cbv iota.
  destruct (lt_dec retryCount maxRetries) as [Hlt|_]; [lia|].
  reflexivity.
Qed.

Lemma client_retries (retryCount : nat) (w w1 : World)
    (body : option ApiResponse.t) :
  fetch key w = (Response 401 body, w1) ->
  (retryCount < maxRetries)%nat ->
  fetchApiKeyData World fetch elapse toISODate id key isLoggedIn retryCount w
  = let delayMs := (Z.of_nat retryCount + 1) * 1000 in
    let '(r, w2, t) := fetchApiKeyData World fetch elapse toISODate id key isLoggedIn (S retryCount) (elapse delayMs w1) in
    (r, w2, Fetch key :: Backoff delayMs :: t).
Proof.
  intros Hfetch Hlt.
  rewrite fetchApiKeyData_equation_1.
  cbv zeta. unfold bind at 1. rewrite Hfetch.
  change (negb (ok 401)) with true. change (401 =? 401) with true.
  cbv iota.
  destruct (lt_dec retryCount maxRetries) as [_|Hge]; [|lia].
  unfold bind, sleep.
  destruct (fetchApiKeyData World fetch elapse toISODate id key isLoggedIn
              (S retryCount) _) as [[r w2] t].
  reflexivity.
Qed.

Lemma client_unreadable_body (retryCount : nat) (w w1 : World) (status : Z) :
  fetch key w = (Response status None, w1) ->
  ok status = true ->
  fetchApiKeyData World fetch elapse toISODate id key isLoggedIn retryCount w
  = (ErrorData (ApiErrorData.mk id (getDisplayKey key isLoggedIn) "Failed to fetch"),
     w1, [Fetch key]).
Proof.
  intros Hfetch Hok. rewrite fetchApiKeyData_equation_1.
  cbv zeta. unfold bind at 1. rewrite Hfetch, Hok. reflexivity.
Qed.

Lemma client_missing_shape (retryCount : nat) (w w1 : World) (status : Z)
    (apiData : ApiResponse.t) :
  fetch key w = (Response status (Some apiData), w1) ->
  ok status = true ->
  match ApiResponse.usage apiData with
  | None => True
  | Some usage => ApiResponse.standard usage = None
  end ->
  fetchApiKeyData World fetch elapse toISODate id key isLoggedIn retryCount w
  = (ErrorData (ApiErrorData.mk id (getDisplayKey key isLoggedIn) "Invalid API response"),
     w1, [Fetch key]).
Proof.
  intros Hfetch Hok Hshape.
  rewrite fetchApiKeyData_equation_1.
  cbv zeta. unfold bind at 1. rewrite Hfetch, Hok. simpl.
  destruct (ApiResponse.usage apiData) as [usage|]; [|reflexivity].
  rewrite Hshape. reflexivity.
Qed.

Lemma client_success (retryCount : nat) (w w1 : World) (status : Z)
    (apiData : ApiResponse.t) (usage : ApiResponse.usage_t)
    (standard : ApiResponse.standard_t) :
  fetch key w = (Response status (Some apiData), w1) ->
  ok status = true ->
  ApiResponse.usage apiData = Some usage ->
  ApiResponse.standard usage = Some standard ->
  fetchApiKeyData World fetch elapse toISODate id key isLoggedIn retryCount w
  = (UsageData
       (ApiUsageData.mk id (getDisplayKey key isLoggedIn)
          (formatDate toISODate (ApiResponse.startDate usage))
          (formatDate toISODate (ApiResponse.endDate usage))
          (JS.or_zero (ApiResponse.orgTotalTokensUsed standard))
          (JS.or_zero (ApiResponse.totalAllowance standard))
          (JS.or_zeroQ (ApiResponse.usedRatio standard))),
     w1, [Fetch key]).
Proof.
  intros Hfetch Hok Husage Hstandard.
  rewrite fetchApiKeyData_equation_1.
  cbv zeta. unfold bind at 1. rewrite Hfetch, Hok. simpl.
  rewrite Husage, Hstandard. reflexivity.
Qed.

(** Whatever the network does, the fetchApiKeyData World fetch elapse toISODate id key isLoggedIn returns a record, and the record
    is the one of this credential. *)
Lemma client_identity (retryCount : nat) (w : World) :
  resultId (fst (fst (fetchApiKeyData World fetch elapse toISODate id key isLoggedIn retryCount w))) = id
  /\ resultKey (fst (fst (fetchApiKeyData World fetch elapse toISODate id key isLoggedIn retryCount w))) = (getDisplayKey key isLoggedIn).
Proof.
  remember (maxRetries - retryCount)%nat as budget eqn:Hbudget.
  revert retryCount w Hbudget.
  induction budget as [budget IH] using lt_wf_ind.
  intros retryCount w Hbudget.
  destruct (fetch key w) as [[|status body] w1] eqn:Hfetch.
  - rewrite (client_network_failure _ _ _ Hfetch). split; reflexivity.
  - destruct (ok status) eqn:Hok.
    + destruct body as [apiData|].
      * destruct (ApiResponse.usage apiData) as [usage|] eqn:Husage.
        -- destruct (ApiResponse.standard usage) as [standard|] eqn:Hstd.
           ++ rewrite (client_success _ _ _ _ _ _ _ Hfetch Hok Husage Hstd).
              split; reflexivity.
           ++ rewrite (client_missing_shape _ _ _ _ _ Hfetch Hok);
                [split; reflexivity | rewrite Husage; exact Hstd].
        -- rewrite (client_missing_shape _ _ _ _ _ Hfetch Hok);
             [split; reflexivity | rewrite Husage; exact I].
      * rewrite (client_unreadable_body _ _ _ _ Hfetch Hok).
        split; reflexivity.
    + destruct (Z.eq_dec status 401) as [->|Hne].
      * destruct (lt_dec retryCount maxRetries) as [Hlt|Hge].
        -- rewrite (client_retries _ _ _ _ Hfetch Hlt). cbv zeta.
           specialize (IH (maxRetries - S retryCount)%nat ltac:(lia)
                         (S retryCount)
                         (elapse ((Z.of_nat retryCount + 1) * 1000) w1)
                         eq_refl).
           destruct (fetchApiKeyData World fetch elapse toISODate id key isLoggedIn (S retryCount) _) as [[r w2] t].
           exact IH.
        -- rewrite (client_gives_up _ _ _ _ Hfetch) by lia.
           split; reflexivity.
      * rewrite (client_other_status _ _ _ _ _ Hfetch Hok Hne).
        split; reflexivity.
Qed.

(** A call ends with its request, without a delay, unless the answer is a
    401 that may still be retried. *)
Lemma client_final (retryCount : nat) (w : World) :
  (forall body, fst (fetch key w) <> Response 401 body)
  \/ (maxRetries <= retryCount)%nat ->
  snd (fetchApiKeyData World fetch elapse toISODate id key isLoggedIn
         retryCount w) = [Fetch key]
  /\ snd (fst (fetchApiKeyData World fetch elapse toISODate id key isLoggedIn
                 retryCount w)) = snd (fetch key w).
Proof.
  intros Hstop.
  destruct (fetch key w) as [[|status body] w1] eqn:Hfetch; simpl in *.
  - rewrite (client_network_failure _ _ _ Hfetch). split; reflexivity.
  - destruct (ok status) eqn:Hok.
    + destruct body as [apiData|].
      * destruct (ApiResponse.usage apiData) as [usage|] eqn:Husage.
        -- destruct (ApiResponse.standard usage) as [standard|] eqn:Hstd.
           ++ rewrite (client_success _ _ _ _ _ _ _ Hfetch Hok Husage Hstd).
              split; reflexivity.
           ++ rewrite (client_missing_shape _ _ _ _ _ Hfetch Hok)
                by (rewrite Husage; exact Hstd).
              split; reflexivity.
        -- rewrite (client_missing_shape _ _ _ _ _ Hfetch Hok)
             by (rewrite Husage; exact I).
           split; reflexivity.
      * rewrite (client_unreadable_body _ _ _ _ Hfetch Hok).
        split; reflexivity.
    + destruct (Z.eq_dec status 401) as [->|Hstatus].
      * destruct Hstop as [Hne|Hmax]; [exfalso; exact (Hne body eq_refl)|].
        rewrite (client_gives_up _ _ _ _ Hfetch Hmax). split; reflexivity.
      * rewrite (client_other_status _ _ _ _ _ Hfetch Hok Hstatus).
        split; reflexivity.
Qed.

End ClientFacts.

(** C5.  The retry policy of the usage client, at every attempt
    ([retryCount] is the number of retries made so far) and in every world.
    A 401 on the first or the second attempt is retried, after 1000 ms and
    after 2000 ms; a 401 on a later attempt gives the error record
    [HTTP 401] at once.  Whatever the attempt, any other status outside
    200-299, a body without [usage.standard], an unreadable body and a failed
    request each end the call with an error record, after that request and
    with no delay, and a usable 2xx response ends it with a usage record: so
    the answer to a retry is final unless it is a 401 again.  Hence, from
    the first attempt: two 401s followed by a usable 2xx response give a
    usage record after three requests and the two delays; a third 401 gives
    [HTTP 401]; a 401 followed by anything but a 401 ends after the second
    request; and whatever the third answer is, there is no fourth request.
    In every case the caller gets a record of this credential: the client is
    a total function into [ApiKeyResult]. *)
Theorem usage_client_retry_policy {World : Type}
    (fetch : string -> World -> HttpResult * World)
    (elapse : Z -> World -> World) (toISODate : Z -> option string)
    (id key : string) (isLoggedIn : bool) :
  let client := fetchApiKeyData World fetch elapse toISODate id key isLoggedIn in
  let displayKey := getDisplayKey key isLoggedIn in
  (forall w b1 b2 w1 w2 w3 status apiData usage standard,
      fetch key w = (Response 401 b1, w1) ->
      fetch key (elapse 1000 w1) = (Response 401 b2, w2) ->
      fetch key (elapse 2000 w2) = (Response status (Some apiData), w3) ->
      ok status = true ->
      ApiResponse.usage apiData = Some usage ->
      ApiResponse.standard usage = Some standard ->
      client 0%nat w
      = (UsageData
           (ApiUsageData.mk id displayKey
              (formatDate toISODate (ApiResponse.startDate usage))
              (formatDate toISODate (ApiResponse.endDate usage))
              (JS.or_zero (ApiResponse.orgTotalTokensUsed standard))
              (JS.or_zero (ApiResponse.totalAllowance standard))
              (JS.or_zeroQ (ApiResponse.usedRatio standard))),
         w3,
         [Fetch key; Backoff 1000; Fetch key; Backoff 2000; Fetch key]))
  /\ (forall w b1 b2 b3 w1 w2 w3,
         fetch key w = (Response 401 b1, w1) ->
         fetch key (elapse 1000 w1) = (Response 401 b2, w2) ->
         fetch key (elapse 2000 w2) = (Response 401 b3, w3) ->
         client 0%nat w
         = (ErrorData (ApiErrorData.mk id displayKey "HTTP 401"),
            w3,
            [Fetch key; Backoff 1000; Fetch key; Backoff 2000; Fetch key]))
  /\ (forall retryCount w body w1,
         fetch key w = (Response 401 body, w1) ->
         (retryCount < 2)%nat ->
         client retryCount w
         = (fst (fst (client (S retryCount)
                        (elapse ((Z.of_nat retryCount + 1) * 1000) w1))),
            snd (fst (client (S retryCount)
                        (elapse ((Z.of_nat retryCount + 1) * 1000) w1))),
            Fetch key :: Backoff ((Z.of_nat retryCount + 1) * 1000)
            :: snd (client (S retryCount)
                      (elapse ((Z.of_nat retryCount + 1) * 1000) w1))))
  /\ (forall retryCount w body w1,
         fetch key w = (Response 401 body, w1) ->
         (2 <= retryCount)%nat ->
         client retryCount w
         = (ErrorData (ApiErrorData.mk id displayKey "HTTP 401"),
            w1, [Fetch key]))
  /\ (forall retryCount w status body w1,
         fetch key w = (Response status body, w1) ->
         ok status = false -> status <> 401 ->
         client retryCount w
         = (ErrorData (ApiErrorData.mk id displayKey
                         ("HTTP " ++ JS.toString status)%string),
            w1, [Fetch key]))
  /\ (forall retryCount w status apiData w1,
         fetch key w = (Response status (Some apiData), w1) ->
         ok status = true ->
         match ApiResponse.usage apiData with
         | None => True
         | Some usage => ApiResponse.standard usage = None
         end ->
         client retryCount w
         = (ErrorData (ApiErrorData.mk id displayKey "Invalid API response"),
            w1, [Fetch key]))
  /\ (forall retryCount w status w1,
         fetch key w = (Response status None, w1) ->
         ok status = true ->
         client retryCount w
         = (ErrorData (ApiErrorData.mk id displayKey "Failed to fetch"),
            w1, [Fetch key]))
  /\ (forall retryCount w w1,
         fetch key w = (NetworkFailure, w1) ->
         client retryCount w
         = (ErrorData (ApiErrorData.mk id displayKey "Failed to fetch"),
            w1, [Fetch key]))
  /\ (forall retryCount w status apiData usage standard w1,
         fetch key w = (Response status (Some apiData), w1) ->
         ok status = true ->
         ApiResponse.usage apiData = Some usage ->
         ApiResponse.standard usage = Some standard ->
         client retryCount w
         = (UsageData
              (ApiUsageData.mk id displayKey
                 (formatDate toISODate (ApiResponse.startDate usage))
                 (formatDate toISODate (ApiResponse.endDate usage))
                 (JS.or_zero (ApiResponse.orgTotalTokensUsed standard))
                 (JS.or_zero (ApiResponse.totalAllowance standard))
                 (JS.or_zeroQ (ApiResponse.usedRatio standard))),
            w1, [Fetch key]))
  /\ (forall retryCount w,
         (forall body, fst (fetch key w) <> Response 401 body) ->
         snd (client retryCount w) = [Fetch key]
         /\ snd (fst (client retryCount w)) = snd (fetch key w))
  /\ (forall w b1 w1,
         fetch key w = (Response 401 b1, w1) ->
         (forall body, fst (fetch key (elapse 1000 w1)) <> Response 401 body) ->
         snd (client 0%nat w) = [Fetch key; Backoff 1000; Fetch key])
  /\ (forall w b1 b2 w1 w2,
         fetch key w = (Response 401 b1, w1) ->
         fetch key (elapse 1000 w1) = (Response 401 b2, w2) ->
         snd (client 0%nat w)
         = [Fetch key; Backoff 1000; Fetch key; Backoff 2000; Fetch key])
  /\ (forall retryCount w,
         resultId (fst (fst (client retryCount w))) = id
         /\ resultKey (fst (fst (client retryCount w))) = displayKey).
Proof.
  cbv zeta.
  split; [|split; [|split; [|split; [|split; [|split; [|split; [|split;
    [|split; [|split; [|split; [|split]]]]]]]]]]].
  - intros w b1 b2 w1 w2 w3 status apiData usage standard H1 H2 H3 Hok Hu Hs.
    pose proof (client_success fetch elapse toISODate id key isLoggedIn
                  2 _ _ _ _ _ _ H3 Hok Hu Hs) as E3.
    pose proof (client_retries fetch elapse toISODate id key isLoggedIn
                  1 _ _ _ H2 ltac:(unfold maxRetries; lia)) as E2.
    change ((Z.of_nat 1 + 1) * 1000) with 2000 in E2. cbv zeta in E2.
    rewrite E3 in E2.
    pose proof (client_retries fetch elapse toISODate id key isLoggedIn
                  0 _ _ _ H1 ltac:(unfold maxRetries; lia)) as E1.
    change ((Z.of_nat 0 + 1) * 1000) with 1000 in E1. cbv zeta in E1.
    rewrite E2 in E1. exact E1.
  - intros w b1 b2 b3 w1 w2 w3 H1 H2 H3.
    pose proof (client_gives_up fetch elapse toISODate id key isLoggedIn
                  2 _ _ _ H3 ltac:(unfold maxRetries; lia)) as E3.
    pose proof (client_retries fetch elapse toISODate id key isLoggedIn
                  1 _ _ _ H2 ltac:(unfold maxRetries; lia)) as E2.
    change ((Z.of_nat 1 + 1) * 1000) with 2000 in E2. cbv zeta in E2.
    rewrite E3 in E2.
    pose proof (client_retries fetch elapse toISODate id key isLoggedIn
                  0 _ _ _ H1 ltac:(unfold maxRetries; lia)) as E1.
    change ((Z.of_nat 0 + 1) * 1000) with 1000 in E1. cbv zeta in E1.
    rewrite E2 in E1. exact E1.
  - intros retryCount w body w1 Hfetch Hlt.
    rewrite (client_retries fetch elapse toISODate id key isLoggedIn
               retryCount _ _ _ Hfetch Hlt).
    cbv zeta.
    destruct (fetchApiKeyData World fetch elapse toISODate id key isLoggedIn
                (S retryCount) _) as [[r w2] t].
    reflexivity.
  - intros retryCount w body w1 Hfetch Hge.
    apply (client_gives_up fetch elapse toISODate id key isLoggedIn
             retryCount _ _ _ Hfetch Hge).
  - intros retryCount w status body w1. apply client_other_status.
  - intros retryCount w status apiData w1. apply client_missing_shape.
  - intros retryCount w status w1. apply client_unreadable_body.
  - intros retryCount w w1. apply client_network_failure.
  - intros retryCount w status apiData usage standard w1.
    apply client_success.
  - intros retryCount w Hne. apply client_final. left. exact Hne.
  - intros w b1 w1 H1 Hne.
    rewrite (client_retries fetch elapse toISODate id key isLoggedIn
               0 _ _ _ H1) by (unfold maxRetries; lia).
    change ((Z.of_nat 0 + 1) * 1000) with 1000. cbv zeta.
    pose proof (client_final fetch elapse toISODate id key isLoggedIn 1
                  (elapse 1000 w1) (or_introl Hne)) as [Htrace Hworld].
    destruct (fetchApiKeyData World fetch elapse toISODate id key isLoggedIn
                1 (elapse 1000 w1)) as [[r w2] t].
    simpl in *. subst t. reflexivity.
  - intros w b1 b2 w1 w2 H1 H2.
    rewrite (client_retries fetch elapse toISODate id key isLoggedIn
               0 _ _ _ H1) by (unfold maxRetries; lia).
    change ((Z.of_nat 0 + 1) * 1000) with 1000. cbv zeta.
    rewrite (client_retries fetch elapse toISODate id key isLoggedIn
               1 _ _ _ H2) by (unfold maxRetries; lia).
    change ((Z.of_nat 1 + 1) * 1000) with 2000. cbv zeta.
    pose proof (client_final fetch elapse toISODate id key isLoggedIn 2
                  (elapse 2000 w2) (or_intror (le_n 2))) as [Htrace Hworld].
    destruct (fetchApiKeyData World fetch elapse toISODate id key isLoggedIn
                2 (elapse 2000 w2)) as [[r w3] t].
    simpl in *. subst t. reflexivity.
  - intros retryCount w. apply client_identity.
Qed.

Lemma usage_client_retry_policy_witness :
  Scripted.fetchApiKeyData "k1" "fk-ABCDEFGHIJKL" false 0%nat
    [Scripted.unauthorized; Scripted.unauthorized; Scripted.usage 3 10]
  = (UsageData
       (ApiUsageData.mk "k1" "fk-A...IJKL" "1970-01-01" "1970-01-01" 3 10 0%Q),
     [],
     [Fetch "fk-ABCDEFGHIJKL"; Backoff 1000; Fetch "fk-ABCDEFGHIJKL";
      Backoff 2000; Fetch "fk-ABCDEFGHIJKL"]).
Proof.
  refine (proj1 (usage_client_retry_policy Scripted.fetch Scripted.elapse
                   Scripted.toISODate "k1" "fk-ABCDEFGHIJKL" false)
            [Scripted.unauthorized; Scripted.unauthorized;
             Scripted.usage 3 10]
            None None [Scripted.unauthorized; Scripted.usage 3 10]
            [Scripted.usage 3 10] [] 200
            (ApiResponse.mk
               (Some (ApiResponse.mk_usage (Some 0) (Some 0)
                        (Some (ApiResponse.mk_standard (Some 3) (Some 10) None)))))
            (ApiResponse.mk_usage (Some 0) (Some 0)
               (Some (ApiResponse.mk_standard (Some 3) (Some 10) None)))
            (ApiResponse.mk_standard (Some 3) (Some 10) None)
            _ _ _ _ _ _);
    reflexivity.
Defined.

(** ** Sorting *)

Section SortFacts.

Context {A : Type} (rank : A -> Z).

(** The comparator of the source is [(a, b) => rank b - rank a]. *)

Lemma insert_perm (x : A) (l : list A) :
  Permutation (JS.insert (fun a b => rank b - rank a) x l) (x :: l).
Proof.
  induction l as [|y l IH]; simpl.
  - apply Permutation_refl.
  - destruct (rank y - rank x <=? 0).
    + apply Permutation_refl.
    + eapply perm_trans; [apply perm_skip, IH | apply perm_swap].
Qed.

Lemma sort_perm (l : list A) : Permutation (JS.sort (fun a b => rank b - rank a) l) l.
Proof.
  induction l as [|x l IH]; simpl.
  - apply perm_nil.
  - eapply perm_trans; [apply insert_perm | apply perm_skip, IH].
Qed.

Lemma insert_sorted (x : A) (l : list A) :
  StronglySorted (fun a b => rank b <= rank a) l ->
  StronglySorted (fun a b => rank b <= rank a) (JS.insert (fun a b => rank b - rank a) x l).
Proof.
  induction 1 as [|y l Hsorted IH Hall]; simpl.
  - constructor; constructor.
  - destruct (Z.leb_spec (rank y - rank x) 0) as [Hle|Hgt].
    + constructor; [constructor; assumption|].
      constructor; [lia|].
      eapply Forall_impl; [|exact Hall]. simpl. intros b Hb. lia.
    + constructor; [exact IH|].
      apply (Permutation_Forall (Permutation_sym (insert_perm x l))).
      constructor; [lia | exact Hall].
Qed.

Lemma sort_sorted (l : list A) :
  StronglySorted (fun a b => rank b <= rank a) (JS.sort (fun a b => rank b - rank a) l).
Proof.
  induction l as [|x l IH]; simpl.
  - constructor.
  - apply insert_sorted, IH.
Qed.

End SortFacts.

(** ** The aggregator *)

Lemma sortedValid_perm (valid : list ApiUsageData.t) :
  Permutation (sortedValid valid) valid.
Proof.
  unfold sortedValid.
  eapply perm_trans.
  - apply Permutation_map. apply (sort_perm snd).
  - rewrite map_map. simpl. rewrite map_id. apply Permutation_refl.
Qed.

Lemma sorted_undecorate (l : list (ApiUsageData.t * Z)) :
  Forall (fun p => snd p = remaining (fst p)) l ->
  StronglySorted (fun a b => snd b <= snd a) l ->
  StronglySorted (fun a b => remaining b <= remaining a) (map fst l).
Proof.
  intros Hdec Hsorted.
  induction Hsorted as [|p l Hsorted IH Hall]; simpl.
  - constructor.
  - inversion Hdec as [|p' l' Hp Hl]; subst.
    constructor; [apply IH; exact Hl|].
    apply Forall_map.
    rewrite Forall_forall in Hall, Hl |- *.
    intros q Hq. rewrite <- Hp, <- (Hl q Hq). apply Hall, Hq.
Qed.

Lemma sortedValid_sorted (valid : list ApiUsageData.t) :
  StronglySorted (fun a b => remaining b <= remaining a) (sortedValid valid).
Proof.
  unfold sortedValid. apply sorted_undecorate.
  - apply (Permutation_Forall (Permutation_sym (sort_perm snd _))).
    apply Forall_map. apply Forall_forall. intros; reflexivity.
  - apply (sort_sorted snd).
Qed.

(** Successes first, errors after: the two parts are the results, reordered. *)
Lemma partition_perm (results : list ApiKeyResult) :
  Permutation (map UsageData (validResults results) ++ filter hasError results)
              results.
Proof.
  induction results as [|[u|e] results IH]; simpl.
  - apply perm_nil.
  - apply perm_skip, IH.
  - apply Permutation_sym, Permutation_cons_app, Permutation_sym, IH.
Qed.

Lemma data_perm (results : list ApiKeyResult) :
  Permutation
    (map UsageData (sortedValid (validResults results)) ++ filter hasError results)
    results.
Proof.
  eapply perm_trans; [|apply partition_perm].
  apply Permutation_app_tail, Permutation_map, sortedValid_perm.
Qed.

Lemma sumOver_perm {A : Type} (f : A -> Z) (l l' : list A) :
  Permutation l l' -> sumOver f l = sumOver f l'.
Proof.
  induction 1 as [|x l l' _ IH|x y l|l l' l'' _ IH1 _ IH2]; simpl; lia.
Qed.

Lemma sumOver_valid (f : ApiUsageData.t -> Z) (results : list ApiKeyResult) :
  sumOver f (validResults results)
  = sumOver (fun r => match r with UsageData u => f u | ErrorData _ => 0 end)
      results.
Proof.
  induction results as [|[u|e] results IH]; simpl; [reflexivity | | ];
    unfold sumOver in *; rewrite IH; reflexivity.
Qed.

Lemma totals_fold (valid : list ApiUsageData.t) :
  forall acc : UsageTotals.t,
    fold_left
      (fun acc res =>
         UsageTotals.mk
           (UsageTotals.total_orgTotalTokensUsed acc
            + ApiUsageData.orgTotalTokensUsed res)
           (UsageTotals.total_totalAllowance acc
            + ApiUsageData.totalAllowance res)
           (UsageTotals.totalRemaining acc
            + Z.max 0 (ApiUsageData.totalAllowance res
                       - ApiUsageData.orgTotalTokensUsed res)))
      valid acc
    = UsageTotals.mk
        (UsageTotals.total_orgTotalTokensUsed acc
         + sumOver ApiUsageData.orgTotalTokensUsed valid)
        (UsageTotals.total_totalAllowance acc
         + sumOver ApiUsageData.totalAllowance valid)
        (UsageTotals.totalRemaining acc + sumOver remaining valid).
Proof.
  induction valid as [|res valid IH]; intros [used allowance rest]; simpl.
  - f_equal; lia.
  - rewrite IH. simpl. unfold remaining at 2. f_equal; lia.
Qed.

Lemma totals_sums (results : list ApiKeyResult) :
  totals (validResults results)
  = UsageTotals.mk (sumOver usedOf results) (sumOver allowanceOf results)
      (sumOver remainingOf results).
Proof.
  unfold totals. rewrite totals_fold. simpl.
  rewrite !sumOver_valid. reflexivity.
Qed.

Lemma console_log_run {World : Type} (lines : list string) (w : World) :
  console_log World lines w = (tt, w, map ConsoleLog lines).
Proof.
  induction lines as [|line lines IH]; simpl; [reflexivity|].
  unfold bind, emit. rewrite IH. reflexivity.
Qed.

Section AggregatorFacts.

Context {World : Type} (fetch : string -> World -> HttpResult * World).
Context (elapse : Z -> World -> World) (Date_now : World -> Z).
Context (toISODate : Z -> option string).
Context (formatBeijingTime : Z -> string -> string).
Context {KVNamespace : Type}.
Context (getAllKeys : KVNamespace -> World -> (Exn + list ApiKey.t) * World).

(** Once the credentials are listed, [getAggregatedData] returns: the fuel
    it gives the scheduler is enough, and nothing after the listing throws.
    The response is built from the positional results of the scheduler. *)
Lemma getAggregatedData_run (kv : KVNamespace) (isLoggedIn : bool)
    (w w1 : World) (keyPairs : list ApiKey.t) :
  getAllKeys kv w = (inr keyPairs, w1) ->
  exists results w' tr,
    Forall2 (fun kp r => resultId r = ApiKey.id kp) keyPairs results
    /\ getAggregatedData World fetch elapse Date_now toISODate
         formatBeijingTime KVNamespace getAllKeys kv isLoggedIn w
       = (Returned
            (AggregatedResponse.mk
               (formatBeijingTime
                  (Date_now w1 + CONFIG.TIMEZONE_OFFSET_HOURS * 60 * 60 * 1000)
                  "yyyy-MM-dd HH:mm:ss")
               (Z.of_nat (List.length keyPairs))
               (totals (validResults results))
               (map UsageData (sortedValid (validResults results))
                ++ filter hasError results)),
          w', tr).
Proof.
  intros Hkeys. unfold getAggregatedData.
  unfold bind at 1. rewrite Hkeys.
  unfold bind at 1. unfold getBeijingTime at 1.
  destruct keyPairs as [|kp keyPairs].
  - exists [], w1, []. split; [constructor|]. reflexivity.
  - change (List.length (kp :: keyPairs) =? 0)%nat with false. cbv iota.
    destruct (batchProcess_returns elapse (kp :: keyPairs)
                (fun kp => fetchApiKeyData World fetch elapse toISODate
                             (ApiKey.id kp) (ApiKey.key kp) isLoggedIn 0%nat)
                10 100
                (fun kp r => resultId r = ApiKey.id kp)
                (fun kp w0 => proj1 (client_identity fetch elapse toISODate
                                       (ApiKey.id kp) (ApiKey.key kp)
                                       isLoggedIn 0%nat w0))
                ltac:(lia) (List.length (kp :: keyPairs)) w1 (le_n _))
      as (results & w2 & tr & Hrun & HP & _).
    exists results, w2.
    unfold bind at 1. unfold embed. rewrite Hrun.
    unfold bind. rewrite console_log_run. unfold ret.
    eexists. split; [exact HP | reflexivity].
Qed.

End AggregatorFacts.

Lemma positional_ids (keyPairs : list ApiKey.t) (results : list ApiKeyResult) :
  Forall2 (fun kp r => resultId r = ApiKey.id kp) keyPairs results ->
  map resultId results = map ApiKey.id keyPairs.
Proof.
  induction 1 as [|kp r keyPairs results Hid _ IH]; simpl.
  - reflexivity.
  - rewrite Hid, IH. reflexivity.
Qed.

(** C1.  Once the credentials are listed, [getAggregatedData] returns a
    response whose [data] has exactly one entry per credential (the results
    are positional, and [data] is a reordering of them): first the usage
    records, sorted by [remaining = max(0, allowance - used)] in descending
    order, then the error records in the order of the input. *)
Theorem aggregated_data_order {World : Type}
    (fetch : string -> World -> HttpResult * World)
    (elapse : Z -> World -> World) (Date_now : World -> Z)
    (toISODate : Z -> option string)
    (formatBeijingTime : Z -> string -> string) {KVNamespace : Type}
    (getAllKeys : KVNamespace -> World -> (Exn + list ApiKey.t) * World)
    (kv : KVNamespace) (isLoggedIn : bool) (w w1 : World)
    (keyPairs : list ApiKey.t)
    (Hkeys : getAllKeys kv w = (inr keyPairs, w1)) :
  exists resp w' tr results successes,
    getAggregatedData World fetch elapse Date_now toISODate formatBeijingTime
      KVNamespace getAllKeys kv isLoggedIn w = (Returned resp, w', tr)
    /\ Forall2 (fun kp r => resultId r = ApiKey.id kp) keyPairs results
    /\ List.length (AggregatedResponse.data resp) = List.length keyPairs
    /\ Permutation (map resultId (AggregatedResponse.data resp))
         (map ApiKey.id keyPairs)
    /\ AggregatedResponse.data resp
       = map UsageData successes ++ filter hasError results
    /\ Permutation successes (validResults results)
    /\ StronglySorted (fun a b => remaining b <= remaining a) successes
    /\ (forall u, remaining u
                  = Z.max 0 (ApiUsageData.totalAllowance u
                             - ApiUsageData.orgTotalTokensUsed u)).
Proof.
  destruct (getAggregatedData_run fetch elapse Date_now toISODate
              formatBeijingTime getAllKeys kv isLoggedIn w w1 keyPairs Hkeys)
    as (results & w' & tr & HP & Hrun).
  eexists _, w', tr, results, (sortedValid (validResults results)).
  split; [exact Hrun|]. simpl.
  pose proof (positional_ids keyPairs results HP) as Hids.
  repeat split.
  - exact HP.
  - rewrite (Permutation_length (data_perm results)).
    symmetry. exact (Forall2_length HP).
  - rewrite <- Hids. apply Permutation_map, data_perm.
  - apply sortedValid_perm.
  - apply sortedValid_sorted.
Qed.

Lemma aggregated_data_order_witness :
  exists resp w' tr results successes,
    Scripted.getAggregatedData
      [ApiKey.mk "a" "ka"; ApiKey.mk "b" "kb"; ApiKey.mk "c" "kc";
       ApiKey.mk "d" "kd"] false
      [Scripted.usage 0 10; Response 500 None; Scripted.usage 5 5;
       Scripted.usage 0 30]
    = (Returned resp, w', tr)
    /\ Forall2 (fun kp r => resultId r = ApiKey.id kp)
         [ApiKey.mk "a" "ka"; ApiKey.mk "b" "kb"; ApiKey.mk "c" "kc";
          ApiKey.mk "d" "kd"] results
    /\ List.length (AggregatedResponse.data resp) = 4%nat
    /\ Permutation (map resultId (AggregatedResponse.data resp))
         ["a"; "b"; "c"; "d"]
    /\ AggregatedResponse.data resp
       = map UsageData successes ++ filter hasError results
    /\ Permutation successes (validResults results)
    /\ StronglySorted (fun a b => remaining b <= remaining a) successes
    /\ (forall u, remaining u
                  = Z.max 0 (ApiUsageData.totalAllowance u
                             - ApiUsageData.orgTotalTokensUsed u)).
Proof.
  apply (aggregated_data_order Scripted.fetch Scripted.elapse Scripted.Date_now
           Scripted.toISODate Scripted.formatBeijingTime Scripted.getAllKeys
           [ApiKey.mk "a" "ka"; ApiKey.mk "b" "kb"; ApiKey.mk "c" "kc";
            ApiKey.mk "d" "kd"] false
           [Scripted.usage 0 10; Response 500 None; Scripted.usage 5 5;
            Scripted.usage 0 30]
           [Scripted.usage 0 10; Response 500 None; Scripted.usage 5 5;
            Scripted.usage 0 30]).
  reflexivity.
Defined.

(** The run of the design document: records with remaining 10, 0 and 30 and
    one error come out as 30, 10, 0 and then the error. *)
Example aggregated_order_run :
  match fst (fst (Scripted.getAggregatedData
                    [ApiKey.mk "a" "ka"; ApiKey.mk "b" "kb"; ApiKey.mk "c" "kc";
                     ApiKey.mk "d" "kd"] false
                    [Scripted.usage 0 10; Response 500 None; Scripted.usage 5 5;
                     Scripted.usage 0 30])) with
  | Returned resp =>
      map resultId (AggregatedResponse.data resp) = ["d"; "a"; "c"; "b"]
      /\ map remainingOf (AggregatedResponse.data resp) = [30; 10; 0; 0]
      /\ map hasError (AggregatedResponse.data resp) = [false; false; false; true]
  | _ => False
  end.
Proof. vm_compute. repeat split. Qed.

(** C2.  The totals sum [used] and [allowance] over the usage records only,
    and [totalRemaining] sums the per-key [max(0, allowance - used)]; an error
    record adds nothing to any total.  This holds of the totals of every
    result list and of every response that [getAggregatedData] returns.  The
    remaining total is not [max(0, totalAllowance - totalUsed)]: with one key
    over its allowance the two differ. *)
Theorem totals_over_successes :
  (forall results : list ApiKeyResult,
      totals (validResults results)
      = UsageTotals.mk (sumOver usedOf results) (sumOver allowanceOf results)
          (sumOver remainingOf results))
  /\ (forall (e : ApiErrorData.t) (before after : list ApiKeyResult),
         usedOf (ErrorData e) = 0 /\ allowanceOf (ErrorData e) = 0
         /\ remainingOf (ErrorData e) = 0
         /\ totals (validResults (before ++ ErrorData e :: after))
            = totals (validResults (before ++ after)))
  /\ (forall u : ApiUsageData.t,
         remainingOf (UsageData u)
         = Z.max 0 (ApiUsageData.totalAllowance u
                    - ApiUsageData.orgTotalTokensUsed u))
  /\ (forall (World : Type) fetch elapse Date_now toISODate formatBeijingTime
             (KVNamespace : Type) getAllKeys (kv : KVNamespace)
             (isLoggedIn : bool) (w : World),
         match fst (fst (getAggregatedData World fetch elapse Date_now
                           toISODate formatBeijingTime KVNamespace getAllKeys
                           kv isLoggedIn w)) with
         | Returned resp =>
             AggregatedResponse.totals resp
             = UsageTotals.mk
                 (sumOver usedOf (AggregatedResponse.data resp))
                 (sumOver allowanceOf (AggregatedResponse.data resp))
                 (sumOver remainingOf (AggregatedResponse.data resp))
         | Threw _ => exists e w1, getAllKeys kv w = (inl e, w1)
         | Unsettled => False
         end)
  /\ (exists results : list ApiKeyResult,
         let t := totals (validResults results) in
         UsageTotals.totalRemaining t
         <> Z.max 0 (UsageTotals.total_totalAllowance t
                     - UsageTotals.total_orgTotalTokensUsed t)).
Proof.
  split; [exact totals_sums|]. split; [|split; [|split]].
  - intros e before after. repeat split.
    rewrite !totals_sums. unfold sumOver.
    rewrite !fold_right_app. reflexivity.
  - reflexivity.
  - intros World fetch elapse Date_now toISODate formatBeijingTime KV getAllKeys
           kv isLoggedIn w.
    destruct (getAllKeys kv w) as [[e|keyPairs] w1] eqn:Hkeys.
    + unfold getAggregatedData, bind. rewrite Hkeys. simpl. eauto.
    + destruct (getAggregatedData_run fetch elapse Date_now toISODate
                  formatBeijingTime getAllKeys kv isLoggedIn w w1 keyPairs Hkeys)
        as (results & w' & tr & _ & Hrun).
      rewrite Hrun. simpl.
      rewrite totals_sums.
      rewrite !(sumOver_perm _ _ _ (data_perm results)). reflexivity.
  - exists [UsageData (ApiUsageData.mk "a" "ka" "" "" 0 10 0%Q);
            UsageData (ApiUsageData.mk "b" "kb" "" "" 5 0 0%Q)].
    vm_compute. discriminate.
Qed.

(** The run of the design document: remaining 5 and 0 and one error record
    give a remaining total of 5. *)
Example totals_run :
  UsageTotals.totalRemaining
    (totals (validResults
               [UsageData (ApiUsageData.mk "a" "ka" "" "" 0 5 0%Q);
                ErrorData (ApiErrorData.mk "b" "kb" "HTTP 500");
                UsageData (ApiUsageData.mk "c" "kc" "" "" 7 3 0%Q)])) = 5.
Proof. reflexivity. Qed.

(** * Further properties of the engine *)

(** ** Masking of long secrets *)

Lemma string_append_assoc (a b c : string) :
  ((a ++ b) ++ c)%string = (a ++ (b ++ c))%string.
Proof.
  induction a as [|x a IH]; simpl; [reflexivity | now rewrite IH].
Qed.

Lemma substring_whole (s : string) :
  String.substring 0 (String.length s) s = s.
Proof.
  induction s as [|c s IH]; simpl; [reflexivity | now rewrite IH].
Qed.

(** [substring n (length s - n)] cuts the suffix after [n] characters. *)
Lemma substring_suffix (n : nat) :
  forall s : string,
    (n <= String.length s)%nat ->
    exists pre : string,
      s = (pre ++ String.substring n (String.length s - n) s)%string
      /\ String.length pre = n.
Proof.
  induction n as [|n IH]; intros s Hn.
  - exists "". rewrite Nat.sub_0_r, substring_whole. split; reflexivity.
  - destruct s as [|c s]; simpl in Hn; [lia|].
    destruct (IH s) as [pre [Hs Hlen]]; [lia|].
    exists (String c pre). simpl. split.
    + f_equal. exact Hs.
    + f_equal. exact Hlen.
Qed.

Lemma substring_prefix_append (n : nat) :
  forall a b : string,
    (n <= String.length a)%nat ->
    String.substring 0 n (a ++ b) = String.substring 0 n a.
Proof.
  induction n as [|n IH]; intros a b Hn.
  - destruct a, b; reflexivity.
  - destruct a as [|c a]; simpl in Hn; [lia|].
    simpl. f_equal. apply IH. lia.
Qed.

Lemma JS_substring_to_end (s : string) (start : Z) :
  0 <= start <= Z.of_nat (String.length s) ->
  JS.substring s start None
  = String.substring (Z.to_nat start) (String.length s - Z.to_nat start) s.
Proof.
  intros Hstart. unfold JS.substring, JS.clamp.
  rewrite (Z.min_l start) by lia. rewrite (Z.max_r 0 start) by lia.
  rewrite (Z.min_l start) by lia. rewrite (Z.max_r start) by lia.
  f_equal. lia.
Qed.

(** X1.  A secret longer than prefix plus suffix is displayed as its first 4
    characters, the ellipsis and its last 4 characters: 11 characters, of
    which 8 are the secret's. *)
Theorem mask_long_secret (key : string)
    (Hlong : CONFIG.KEY_MASK_PREFIX_LENGTH + CONFIG.KEY_MASK_SUFFIX_LENGTH
             < Z.of_nat (String.length key)) :
  exists first middle last : string,
    key = (first ++ middle ++ last)%string
    /\ String.length first = 4%nat
    /\ String.length last = 4%nat
    /\ maskApiKey key = (first ++ "..." ++ last)%string
    /\ String.length (maskApiKey key) = 11%nat.
Proof.
  unfold CONFIG.KEY_MASK_PREFIX_LENGTH, CONFIG.KEY_MASK_SUFFIX_LENGTH in Hlong.
  destruct (substring_suffix (String.length key - 4) key) as [pre [Hkey Hpre]];
    [lia|].
  replace (String.length key - (String.length key - 4))%nat with 4%nat
    in Hkey by lia.
  set (last := String.substring (String.length key - 4) 4 key) in *.
  assert (Hlast : String.length last = 4%nat).
  { apply (f_equal String.length) in Hkey.
    rewrite string_length_append, Hpre in Hkey. lia. }
  destruct (substring_prefix 4 pre) as [middle [Hsplit Hfirst]].
  rewrite Nat.min_l in Hfirst by lia.
  assert (Hmask : maskApiKey key
                  = (String.substring 0 4 pre ++ "..." ++ last)%string).
  { unfold maskApiKey.
    unfold CONFIG.KEY_MASK_PREFIX_LENGTH, CONFIG.KEY_MASK_SUFFIX_LENGTH.
    destruct (Z.leb_spec (Z.of_nat (String.length key)) (4 + 4)) as [?|_];
      [lia|].
    rewrite JS_substring_from_start by lia.
    rewrite JS_substring_to_end by lia.
    replace (Nat.min (Z.to_nat 4) (String.length key)) with 4%nat by lia.
    replace (Z.to_nat (Z.of_nat (String.length key) - 4))
      with (String.length key - 4)%nat by lia.
    replace (String.length key - (String.length key - 4))%nat with 4%nat by lia.
    fold last.
    rewrite Hkey at 1. rewrite substring_prefix_append by lia. reflexivity. }
  exists (String.substring 0 4 pre), middle, last.
  repeat split.
  - rewrite <- string_append_assoc, <- Hsplit. exact Hkey.
  - exact Hfirst.
  - exact Hlast.
  - exact Hmask.
  - rewrite Hmask, !string_length_append, Hfirst, Hlast. reflexivity.
Qed.

Lemma mask_long_secret_witness :
  exists first middle last : string,
    "fk-0123456789" = (first ++ middle ++ last)%string
    /\ String.length first = 4%nat
    /\ String.length last = 4%nat
    /\ maskApiKey "fk-0123456789" = (first ++ "..." ++ last)%string
    /\ String.length (maskApiKey "fk-0123456789") = 11%nat.
Proof.
  apply (mask_long_secret "fk-0123456789").
  vm_compute. reflexivity.
Defined.

(** ** Requests and delays of the usage client *)

Section ClientBounds.

Context {World : Type} (fetch : string -> World -> HttpResult * World).
Context (elapse : Z -> World -> World) (toISODate : Z -> option string).
Context (id key : string) (isLoggedIn : bool).

(** Unless the answer is a 401 that may still be retried, the client stops
    after this one request. *)
Lemma client_single_request (retryCount : nat) (w : World) :
  match fst (fetch key w) with
  | Response 401 _ => (maxRetries <= retryCount)%nat
  | _ => True
  end ->
  snd (fetchApiKeyData World fetch elapse toISODate id key isLoggedIn
         retryCount w) = [Fetch key].
Proof.
  destruct (fetch key w) as [[|status body] w1] eqn:Hfetch; simpl.
  - intros _. rewrite (client_network_failure _ _ _ _ _ _ _ _ _ Hfetch).
    reflexivity.
  - intros Hstop.
    destruct (ok status) eqn:Hok.
    + destruct body as [apiData|].
      * destruct (ApiResponse.usage apiData) as [usage|] eqn:Husage.
        -- destruct (ApiResponse.standard usage) as [standard|] eqn:Hstd.
           ++ rewrite (client_success _ _ _ _ _ _ _ _ _ _ _ _ _ Hfetch Hok
                         Husage Hstd). reflexivity.
           ++ rewrite (client_missing_shape _ _ _ _ _ _ _ _ _ _ _ Hfetch Hok);
                [reflexivity | rewrite Husage; exact Hstd].
        -- rewrite (client_missing_shape _ _ _ _ _ _ _ _ _ _ _ Hfetch Hok);
             [reflexivity | rewrite Husage; exact I].
      * rewrite (client_unreadable_body _ _ _ _ _ _ _ _ _ _ Hfetch Hok).
        reflexivity.
    + destruct (Z.eq_dec status 401) as [->|Hne].
      * rewrite (client_gives_up _ _ _ _ _ _ _ _ _ _ Hfetch Hstop).
        reflexivity.
      * rewrite (client_other_status _ _ _ _ _ _ _ _ _ _ _ Hfetch Hok Hne).
        reflexivity.
Qed.

End ClientBounds.

(** The traces of the usage client, by its first answer. *)
Lemma client_trace_cases {World : Type}
    (fetch : string -> World -> HttpResult * World)
    (elapse : Z -> World -> World) (toISODate : Z -> option string)
    (id key : string) (isLoggedIn : bool) (w : World) :
  let tr := snd (fetchApiKeyData World fetch elapse toISODate id key
                   isLoggedIn 0%nat w) in
  match fst (fetch key w) with
  | Response 401 _ =>
      tr = [Fetch key; Backoff 1000; Fetch key]
      \/ tr = [Fetch key; Backoff 1000; Fetch key; Backoff 2000; Fetch key]
  | _ => tr = [Fetch key]
  end.
Proof.
  cbv zeta.
  destruct (fetch key w) as [r1 w1] eqn:H1.
  assert (Hfirst : fst (fetch key w) = r1) by (rewrite H1; reflexivity).
  destruct r1 as [|status b1].
  - simpl. apply client_single_request. rewrite Hfirst. exact I.
  - simpl.
    destruct (Z.eq_dec status 401) as [->|Hne].
    + rewrite (client_retries fetch elapse toISODate id key isLoggedIn
                 0 _ _ _ H1) by (unfold maxRetries; lia).
      change ((Z.of_nat 0 + 1) * 1000) with 1000. cbv zeta.
      destruct (fetch key (elapse 1000 w1)) as [r2 w2] eqn:H2.
      assert (Hsecond : fst (fetch key (elapse 1000 w1)) = r2)
        by (rewrite H2; reflexivity).
      assert (Hcases : (exists b2, r2 = Response 401 b2)
                       \/ match r2 with Response 401 _ => False | _ => True end).
      { destruct r2 as [|s2 b2]; [right; exact I|].
        destruct (Z.eq_dec s2 401) as [->|Hne2]; [left; eauto|].
        right. destruct s2 as [|p|p]; try exact I.
        do 9 (destruct p as [p|p|]; try exact I). congruence. }
      destruct Hcases as [[b2 ->]|Hother].
      * rewrite (client_retries fetch elapse toISODate id key isLoggedIn
                   1 _ _ _ H2) by (unfold maxRetries; lia).
        change ((Z.of_nat 1 + 1) * 1000) with 2000. cbv zeta.
        pose proof (client_single_request fetch elapse toISODate id key
                      isLoggedIn 2 (elapse 2000 w2)) as H3.
        destruct (fetchApiKeyData World fetch elapse toISODate id key
                    isLoggedIn 2 (elapse 2000 w2)) as [[r3 w3] t3].
        simpl in H3 |- *. rewrite H3; [right; reflexivity|].
        destruct (fst (fetch key (elapse 2000 w2))) as [|s3 b3]; [exact I|].
        destruct s3 as [|p|p]; try exact I.
        do 9 (destruct p as [p|p|]; try exact I). unfold maxRetries. lia.
      * pose proof (client_single_request fetch elapse toISODate id key
                      isLoggedIn 1 (elapse 1000 w1)) as H2'.
        destruct (fetchApiKeyData World fetch elapse toISODate id key
                    isLoggedIn 1 (elapse 1000 w1)) as [[r2' w2'] t2].
        simpl in H2' |- *. rewrite H2'; [left; reflexivity|].
        rewrite Hsecond.
        destruct r2 as [|s2 b2]; [exact I|].
        destruct s2 as [|p|p]; try exact I.
        do 9 (destruct p as [p|p|]; try exact I). contradiction.
    + assert (Hone : snd (fetchApiKeyData World fetch elapse toISODate id key
                            isLoggedIn 0%nat w) = [Fetch key]).
      { apply client_single_request. rewrite Hfirst.
        destruct status as [|p|p]; try exact I.
        do 9 (destruct p as [p|p|]; try exact I). congruence. }
      rewrite Hone.
      destruct status as [|p|p]; try reflexivity.
      do 9 (destruct p as [p|p|]; try reflexivity). congruence.
Qed.

Lemma client_request_count {World : Type}
    (fetch : string -> World -> HttpResult * World)
    (elapse : Z -> World -> World) (toISODate : Z -> option string)
    (id key : string) (isLoggedIn : bool) (w : World) :
  (1 <= requests (snd (fetchApiKeyData World fetch elapse toISODate id key
                         isLoggedIn 0%nat w)) <= 3)%nat.
Proof.
  pose proof (client_trace_cases fetch elapse toISODate id key isLoggedIn w)
    as Hcases.
  cbv zeta in Hcases.
  assert (Hshape :
    let tr := snd (fetchApiKeyData World fetch elapse toISODate id key
                     isLoggedIn 0%nat w) in
    tr = [Fetch key]
    \/ tr = [Fetch key; Backoff 1000; Fetch key]
    \/ tr = [Fetch key; Backoff 1000; Fetch key; Backoff 2000; Fetch key]).
  { cbv zeta. destruct (fst (fetch key w)) as [|status b]; [tauto|].
    destruct status as [|p|p]; try tauto.
    do 9 (destruct p as [p|p|]; try tauto). }
  cbv zeta in Hshape.
  destruct Hshape as [H|[H|H]]; rewrite H; unfold requests; simpl; lia.
Qed.

(** X2.  Whatever the network answers, a call of the usage client sends at
    most three requests, all with the credential's secret, waits 1000 ms
    before the second and 2000 ms before the third, and sends a second
    request only when the first answer was a 401. *)
Theorem usage_client_requests {World : Type}
    (fetch : string -> World -> HttpResult * World)
    (elapse : Z -> World -> World) (toISODate : Z -> option string)
    (id key : string) (isLoggedIn : bool) (w : World) :
  let tr := snd (fetchApiKeyData World fetch elapse toISODate id key
                   isLoggedIn 0%nat w) in
  match fst (fetch key w) with
  | Response 401 _ =>
      tr = [Fetch key; Backoff 1000; Fetch key]
      \/ tr = [Fetch key; Backoff 1000; Fetch key; Backoff 2000; Fetch key]
  | _ => tr = [Fetch key]
  end.
Proof.
  exact (client_trace_cases fetch elapse toISODate id key isLoggedIn w).
Qed.

(** ** Every item is scheduled once *)

Lemma batchSizes_schedule {E : Type} (tr : list (BatchEvent E)) :
  batchSizes (schedule tr) = batchSizes tr.
Proof.
  unfold batchSizes, schedule.
  induction tr as [|e tr IH]; simpl; [reflexivity|].
  destruct e; simpl; rewrite IH; reflexivity.
Qed.

Lemma Paced_batchSizes {E : Type} (c : nat) (d : Z) (n : nat)
    (tr : list (BatchEvent E)) :
  Paced c d n tr -> (0 < c)%nat ->
  list_sum (batchSizes tr) = n
  /\ Z.of_nat (List.length (batchSizes tr))
     = (Z.of_nat n + Z.of_nat c - 1) / Z.of_nat c.
Proof.
  induction 1 as [|n Hn|n tr Hn Hrest IH]; intros Hc.
  - split; [reflexivity|]. simpl.
    symmetry. apply Z.div_small. lia.
  - split; [simpl; lia|]. simpl.
    apply Z.div_unique with (r := Z.of_nat n - 1); lia.
  - destruct (IH Hc) as [Hsum Hcount].
    change (batchSizes (Batch c :: Pacing d :: tr)) with (c :: batchSizes tr).
    split.
    + simpl. rewrite Hsum. lia.
    + simpl List.length. rewrite Nat2Z.inj_succ, Hcount.
      replace (Z.of_nat n + Z.of_nat c - 1)
        with ((Z.of_nat (n - c) + Z.of_nat c - 1) + 1 * Z.of_nat c) by lia.
      rewrite Z.div_add by lia. lia.
Qed.

(** The loop from index [i] runs the remaining items as consecutive
    batches. *)
Lemma batchProcess_loop_chunked {World : Type} (elapse : Z -> World -> World)
    {T R E : Type} (items : list T) (processor : T -> M World E R)
    (concurrency delayMs : Z) :
  1 <= concurrency ->
  forall (fuel : nat) (i : Z) (results : list R) (w : World),
    0 <= i ->
    (List.length (skipn (Z.to_nat i) items) <= fuel)%nat ->
    exists rs w' tr,
      batchProcess_loop elapse fuel items processor concurrency delayMs
        i results w = (Returned (results ++ rs), w', tr)
      /\ Chunked elapse processor (Z.to_nat concurrency) delayMs
           (skipn (Z.to_nat i) items) w (rs, w', tr).
Proof.
  intros Hc fuel.
  induction fuel as [|fuel IH]; intros i results w Hi Hfuel;
    rewrite batchProcess_loop_unfold;
    rewrite length_skipn in Hfuel;
    destruct (Z.ltb_spec i (Z.of_nat (List.length items))) as [Hlt|Hge];
    try lia.
  - exists [], w, []. rewrite app_nil_r.
    rewrite skipn_all2 by lia. split; [reflexivity | constructor].
  - cbv zeta.
    rewrite slice_chunk by lia.
    set (rem := skipn (Z.to_nat i) items).
    assert (Hrem : List.length rem = (List.length items - Z.to_nat i)%nat)
      by apply length_skipn.
    destruct (promise_all (map processor (firstn (Z.to_nat concurrency) rem)) w)
      as [[brs w1] t1] eqn:Hall.
    assert (Hnext : skipn (Z.to_nat (i + concurrency)) items
                    = skipn (Z.to_nat concurrency) rem).
    { unfold rem. rewrite skipn_skipn. f_equal. lia. }
    destruct (Z.ltb_spec (i + concurrency) (Z.of_nat (List.length items)))
      as [Hmore|Hlast].
    + destruct (IH (i + concurrency) (results ++ brs) (elapse delayMs w1))
        as (rs & w2 & tr & Hloop & Hchunks); [lia | |].
      { rewrite length_skipn. lia. }
      rewrite Hnext in Hchunks.
      exists (brs ++ rs), w2,
        ([Batch (List.length (firstn (Z.to_nat concurrency) rem))]
         ++ t1 ++ [Pacing delayMs] ++ tr).
      split.
      * eapply bind_run; [reflexivity|].
        eapply bind_run; [exact Hall|].
        eapply bind_run; [reflexivity|].
        rewrite Hloop. rewrite <- app_assoc. reflexivity.
      * rewrite <- (firstn_skipn (Z.to_nat concurrency) rem) at 1.
        rewrite length_firstn, Nat.min_l by lia.
        apply Chunked_more with (w1 := w1);
          [rewrite length_firstn; lia | | exact Hall | exact Hchunks].
        intros Hnil. apply (f_equal (@List.length T)) in Hnil.
        rewrite length_skipn in Hnil. simpl in Hnil. lia.
    + destruct (IH (i + concurrency) (results ++ brs) w1)
        as (rs & w2 & tr & Hloop & Hchunks); [lia | |].
      { rewrite length_skipn. lia. }
      rewrite Hnext in Hchunks.
      rewrite (skipn_all2 rem (n := Z.to_nat concurrency)) in Hchunks by lia.
      inversion Hchunks as [w0 Hw0 Hrun| |batch rest ? ? ? ? ? ? ? ? Hrest];
        subst;
        [|exfalso; simpl in *; lia
         |destruct batch; destruct rest; try discriminate;
          exfalso; apply Hrest; reflexivity].
      exists (brs ++ []), w2,
        ([Batch (List.length (firstn (Z.to_nat concurrency) rem))]
         ++ t1 ++ [] ++ []).
      split.
      * eapply bind_run; [reflexivity|].
        eapply bind_run; [exact Hall|].
        eapply bind_run; [reflexivity|].
        rewrite Hloop. rewrite <- app_assoc. reflexivity.
      * rewrite !app_nil_r.
        rewrite firstn_all2 in * by lia.
        apply Chunked_last; [lia | exact Hall].
  - exists [], w, []. rewrite app_nil_r.
    rewrite skipn_all2 by lia. split; [reflexivity | constructor].
Qed.

(** X3.  With a chunk size [c] of at least 1, [batchProcess] gives every item
    to the worker exactly once, batch by batch in the order of the list: the
    run is the list cut into consecutive batches of [c] items (the last of 1
    to [c]), each announced, handed to [promise_all] in order and followed
    by the delay unless it is the last.  So the batch sizes add up to the
    number of items, and there are [ceil(n/c)] batches. *)
Theorem batchProcess_conservation {World : Type} (elapse : Z -> World -> World)
    {T R E : Type} (items : list T) (processor : T -> M World E R)
    (concurrency delayMs : Z) (fuel : nat) (w : World)
    (Hc : 1 <= concurrency) (Hfuel : (List.length items <= fuel)%nat) :
  let run := batchProcess elapse fuel items processor concurrency delayMs w in
  let tr := snd run in
  (exists results w',
      run = (Returned results, w', tr)
      /\ Chunked elapse processor (Z.to_nat concurrency) delayMs items w
           (results, w', tr))
  /\ list_sum (batchSizes tr) = List.length items
  /\ Z.of_nat (List.length (batchSizes tr))
     = (Z.of_nat (List.length items) + concurrency - 1) / concurrency.
Proof.
  cbv zeta. split.
  - destruct (batchProcess_loop_chunked elapse items processor concurrency
                delayMs Hc fuel 0 [] w ltac:(lia) Hfuel)
      as (results & w' & tr & Hrun & Hchunks).
    exists results, w'. unfold batchProcess. rewrite Hrun.
    split; [reflexivity | exact Hchunks].
  - destruct (batchProcess_returns elapse items processor concurrency delayMs
                (fun _ _ => True) (fun _ _ => I) Hc fuel w Hfuel)
      as (results & w' & tr & Hrun & _ & Hpaced).
    rewrite Hrun. simpl snd.
    rewrite <- batchSizes_schedule.
    destruct (Paced_batchSizes _ _ _ _ Hpaced) as [Hsum Hcount]; [lia|].
    rewrite Z2Nat.id in Hcount by lia.
    split; assumption.
Qed.

Lemma batchProcess_conservation_witness :
  let run := batchProcess (fun _ (w : unit) => w) 7 (seq 0 7)
               (fun x : nat => ret (World := unit) (E := Empty_set) x)
               3 100 tt in
  (exists results w',
      run = (Returned results, w', snd run)
      /\ Chunked (fun _ (w : unit) => w)
           (fun x : nat => ret (World := unit) (E := Empty_set) x) 3 100
           (seq 0 7) tt (results, w', snd run))
  /\ list_sum (batchSizes (snd run)) = 7%nat
  /\ Z.of_nat (List.length (batchSizes (snd run))) = 3.
Proof.
  refine (batchProcess_conservation (fun _ (w : unit) => w) (seq 0 7)
            (fun x : nat => ret x) 3 100 7 tt _ _).
  - lia.
  - simpl. lia.
Defined.

(** ** Ties keep the input order *)

Lemma filter_insert {A : Type} (rank : A -> Z) (k : Z) (x : A) (l : list A) :
  filter (fun a => rank a =? k) (JS.insert (fun a b => rank b - rank a) x l)
  = filter (fun a => rank a =? k) (x :: l).
Proof.
  induction l as [|y l IH]; simpl; [reflexivity|].
  destruct (Z.leb_spec (rank y - rank x) 0) as [Hle|Hgt]; [reflexivity|].
  simpl. rewrite IH. simpl.
  destruct (Z.eqb_spec (rank x) k) as [Hx|Hx]; [|reflexivity].
  destruct (Z.eqb_spec (rank y) k) as [Hy|Hy]; [lia | reflexivity].
Qed.

Lemma filter_sort {A : Type} (rank : A -> Z) (k : Z) (l : list A) :
  filter (fun a => rank a =? k) (JS.sort (fun a b => rank b - rank a) l)
  = filter (fun a => rank a =? k) l.
Proof.
  induction l as [|x l IH]; simpl; [reflexivity|].
  rewrite filter_insert. simpl. rewrite IH. reflexivity.
Qed.

Lemma filter_map_commute {A B : Type} (f : A -> B) (p : B -> bool)
    (l : list A) :
  filter p (map f l) = map f (filter (fun a => p (f a)) l).
Proof.
  induction l as [|a l IH]; simpl; [reflexivity|].
  destruct (p (f a)); simpl; rewrite IH; reflexivity.
Qed.

(** X5.  The sort of the usage records is stable: records with the same
    [remaining] come out in the order they came in. *)
Theorem sortedValid_stable (valid : list ApiUsageData.t) (k : Z) :
  filter (fun u => remaining u =? k) (sortedValid valid)
  = filter (fun u => remaining u =? k) valid.
Proof.
  unfold sortedValid.
  rewrite filter_map_commute.
  assert (Hdec : Forall (fun p : ApiUsageData.t * Z => snd p = remaining (fst p))
                   (JS.sort (fun a b => snd b - snd a)
                      (map (fun r => (r, remaining r)) valid))).
  { apply (Permutation_Forall (Permutation_sym (sort_perm snd _))).
    apply Forall_map. apply Forall_forall. intros; reflexivity. }
  rewrite (filter_ext_in (fun a => remaining (fst a) =? k)
                         (fun a : ApiUsageData.t * Z => snd a =? k)).
  - rewrite (filter_sort snd). clear Hdec.
    induction valid as [|r valid IH]; simpl; [reflexivity|].
    destruct (remaining r =? k); simpl; rewrite IH; reflexivity.
  - intros p Hp. rewrite Forall_forall in Hdec. rewrite (Hdec p Hp).
    reflexivity.
Qed.

(** ** Edge cases and bounds of the aggregator *)

(** X6.  With no credential stored, [getAggregatedData] answers the empty
    response (count 0, totals 0, no data) without a request, a delay or a
    log line; when listing the credentials throws, it throws the same value,
    again without any request. *)
Theorem getAggregatedData_without_keys {World : Type}
    (fetch : string -> World -> HttpResult * World)
    (elapse : Z -> World -> World) (Date_now : World -> Z)
    (toISODate : Z -> option string)
    (formatBeijingTime : Z -> string -> string) {KVNamespace : Type}
    (getAllKeys : KVNamespace -> World -> (Exn + list ApiKey.t) * World)
    (kv : KVNamespace) (isLoggedIn : bool) (w : World) :
  (forall w1,
      getAllKeys kv w = (inr [], w1) ->
      getAggregatedData World fetch elapse Date_now toISODate formatBeijingTime
        KVNamespace getAllKeys kv isLoggedIn w
      = (Returned
           (AggregatedResponse.mk
              (formatBeijingTime
                 (Date_now w1 + CONFIG.TIMEZONE_OFFSET_HOURS * 60 * 60 * 1000)
                 "yyyy-MM-dd HH:mm:ss")
              0 (UsageTotals.mk 0 0 0) []),
         w1, []))
  /\ (forall e w1,
         getAllKeys kv w = (inl e, w1) ->
         getAggregatedData World fetch elapse Date_now toISODate
           formatBeijingTime KVNamespace getAllKeys kv isLoggedIn w
         = (Threw e, w1, [])).
Proof.
  split.
  - intros w1 Hkeys. unfold getAggregatedData, bind. rewrite Hkeys. reflexivity.
  - intros e w1 Hkeys. unfold getAggregatedData, bind. rewrite Hkeys.
    reflexivity.
Qed.

Lemma getAggregatedData_without_keys_witness :
  Scripted.getAggregatedData [] false [Scripted.usage 1 2]
  = (Returned
       (AggregatedResponse.mk "yyyy-MM-dd HH:mm:ss" 0 (UsageTotals.mk 0 0 0) []),
     [Scripted.usage 1 2], []).
Proof.
  apply (proj1 (getAggregatedData_without_keys Scripted.fetch Scripted.elapse
                  Scripted.Date_now Scripted.toISODate
                  Scripted.formatBeijingTime Scripted.getAllKeys
                  [] false [Scripted.usage 1 2])).
  reflexivity.
Defined.

Lemma remaining_sum_bounds (results : list ApiKeyResult) :
  0 <= sumOver remainingOf results
  /\ sumOver allowanceOf results - sumOver usedOf results
     <= sumOver remainingOf results.
Proof.
  induction results as [|[u|e] results [IH0 IH1]]; simpl; unfold remaining; lia.
Qed.

(** X7.  The remaining total is never negative and never less than
    [max(0, totalAllowance - totalUsed)]: flooring per key can only raise the
    total, whatever the records are. *)
Theorem totalRemaining_lower_bound (results : list ApiKeyResult) :
  let t := totals (validResults results) in
  0 <= UsageTotals.totalRemaining t
  /\ Z.max 0 (UsageTotals.total_totalAllowance t
              - UsageTotals.total_orgTotalTokensUsed t)
     <= UsageTotals.totalRemaining t.
Proof.
  cbv zeta. rewrite totals_sums. simpl.
  pose proof (remaining_sum_bounds results). lia.
Qed.

(** X8.  Every response that [getAggregatedData] returns counts every
    credential, failed or not: [total_count] is the number of entries of
    [data]. *)
Theorem total_count_counts_data {World : Type}
    (fetch : string -> World -> HttpResult * World)
    (elapse : Z -> World -> World) (Date_now : World -> Z)
    (toISODate : Z -> option string)
    (formatBeijingTime : Z -> string -> string) {KVNamespace : Type}
    (getAllKeys : KVNamespace -> World -> (Exn + list ApiKey.t) * World)
    (kv : KVNamespace) (isLoggedIn : bool) (w : World) :
  match fst (fst (getAggregatedData World fetch elapse Date_now toISODate
                    formatBeijingTime KVNamespace getAllKeys kv isLoggedIn w))
  with
  | Returned resp =>
      AggregatedResponse.total_count resp
      = Z.of_nat (List.length (AggregatedResponse.data resp))
      /\ match fst (getAllKeys kv w) with
         | inr keyPairs =>
             AggregatedResponse.total_count resp
             = Z.of_nat (List.length keyPairs)
         | inl _ => False
         end
  | Threw e => fst (getAllKeys kv w) = inl e
  | Unsettled => False
  end.
Proof.
  destruct (getAllKeys kv w) as [[e|keyPairs] w1] eqn:Hkeys.
  - unfold getAggregatedData, bind. rewrite Hkeys. reflexivity.
  - destruct (getAggregatedData_run fetch elapse Date_now toISODate
                formatBeijingTime getAllKeys kv isLoggedIn w w1 keyPairs Hkeys)
      as (results & w' & tr & HP & Hrun).
    rewrite Hrun. simpl. split; [|reflexivity].
    rewrite (Permutation_length (data_perm results)).
    rewrite (Forall2_length HP). reflexivity.
Qed.

(** ** The work done by a refresh *)

Lemma tasks_app {E : Type} (t1 t2 : list (BatchEvent E)) :
  tasks (t1 ++ t2) = tasks t1 ++ tasks t2.
Proof. apply flat_map_app. Qed.

Lemma tasks_map_Task {E : Type} (t : list E) : tasks (map Task t) = t.
Proof. induction t as [|e t IH]; simpl; [reflexivity | now rewrite IH]. Qed.

Lemma pacings_app {E : Type} (t1 t2 : list (BatchEvent E)) :
  pacings (t1 ++ t2) = (pacings t1 + pacings t2)%nat.
Proof. unfold pacings. rewrite filter_app, length_app. reflexivity. Qed.

Section BatchTasks.

Context {World : Type} (elapse : Z -> World -> World).
Context {T R E : Type} (items : list T) (processor : T -> M World E R).
Context (concurrency delayMs : Z).

Lemma promise_all_tasks (batch : list T) :
  forall w : World,
    exists ts : list (list E),
      Forall2 (fun item t => exists w0, t = snd (processor item w0)) batch ts
      /\ tasks (snd (promise_all (map processor batch) w)) = List.concat ts.
Proof.
  induction batch as [|item batch IH]; intros w; simpl.
  - exists []. split; [constructor | reflexivity].
  - destruct (processor item w) as [[r w1] t1] eqn:Hrun.
    destruct (IH w1) as (ts & HF & Htasks).
    destruct (promise_all (map processor batch) w1) as [[rs w2] tr] eqn:Hrest.
    exists (t1 :: ts). split.
    + constructor; [|exact HF]. exists w. rewrite Hrun. reflexivity.
    + erewrite bind_run;
        [| unfold embed; rewrite Hrun; reflexivity
         | eapply bind_run; [exact Hrest | reflexivity]].
      simpl snd in *. rewrite app_nil_r, tasks_app, tasks_map_Task, Htasks.
      reflexivity.
Qed.

(** The effects of the tasks in a run of the loop are those of one run of
    the worker per remaining item. *)
Lemma batchProcess_loop_tasks :
  1 <= concurrency ->
  forall (fuel : nat) (i : Z) (results : list R) (w : World),
    0 <= i ->
    (List.length (skipn (Z.to_nat i) items) <= fuel)%nat ->
    exists ts : list (list E),
      Forall2 (fun item t => exists w0, t = snd (processor item w0))
        (skipn (Z.to_nat i) items) ts
      /\ tasks (snd (batchProcess_loop elapse fuel items processor concurrency
                       delayMs i results w)) = List.concat ts.
Proof.
  intros Hc fuel.
  induction fuel as [|fuel IH]; intros i results w Hi Hfuel;
    rewrite batchProcess_loop_unfold;
    rewrite length_skipn in Hfuel;
    destruct (Z.ltb_spec i (Z.of_nat (List.length items))) as [Hlt|Hge];
    try lia.
  - exists []. rewrite skipn_all2 by lia. split; [constructor | reflexivity].
  - cbv zeta. rewrite slice_chunk by lia.
    set (rem := skipn (Z.to_nat i) items).
    assert (Hrem : List.length rem = (List.length items - Z.to_nat i)%nat)
      by apply length_skipn.
    destruct (promise_all_tasks (firstn (Z.to_nat concurrency) rem) w)
      as (ts1 & HF1 & Ht1).
    destruct (promise_all (map processor (firstn (Z.to_nat concurrency) rem)) w)
      as [[brs w1] t1] eqn:Hall.
    simpl snd in Ht1.
    assert (Hnext : skipn (Z.to_nat (i + concurrency)) items
                    = skipn (Z.to_nat concurrency) rem).
    { unfold rem. rewrite skipn_skipn. f_equal. lia. }
    set (pace := if i + concurrency <? Z.of_nat (List.length items)
                 then sleep World elapse (@Pacing E) delayMs else ret tt).
    destruct (pace w1) as [[u w2] tp] eqn:Hpace.
    assert (Htp : tasks tp = []).
    { unfold pace in Hpace.
      destruct (i + concurrency <? Z.of_nat (List.length items));
        inversion Hpace; reflexivity. }
    destruct (IH (i + concurrency) (results ++ brs) w2) as (ts2 & HF2 & Ht2);
      [lia | rewrite length_skipn; lia |].
    rewrite Hnext in HF2.
    destruct (batchProcess_loop elapse fuel items processor concurrency
                delayMs (i + concurrency) (results ++ brs) w2)
      as [[b w3] t3] eqn:Hloop.
    simpl snd in Ht2.
    exists (ts1 ++ ts2). split.
    + rewrite <- (firstn_skipn (Z.to_nat concurrency) rem).
      apply Forall2_app; assumption.
    + erewrite bind_run;
        [| reflexivity
         | eapply bind_run;
           [exact Hall
           | eapply bind_run; [exact Hpace | exact Hloop]]].
      simpl snd.
      change (tasks (Batch (List.length (firstn (Z.to_nat concurrency) rem))
                     :: t1 ++ tp ++ t3))
        with (tasks (t1 ++ tp ++ t3)).
      rewrite !tasks_app, Ht1, Htp, Ht2, List.concat_app.
      reflexivity.
  - exists []. rewrite skipn_all2 by lia. split; [constructor | reflexivity].
Qed.

End BatchTasks.

Lemma requests_concat (ts : list (list FetchEvent)) (lo hi : nat) :
  Forall (fun t => (lo <= requests t <= hi)%nat) ts ->
  (lo * List.length ts <= requests (List.concat ts) <= hi * List.length ts)%nat.
Proof.
  induction 1 as [|t ts Ht _ IH]; simpl.
  - unfold requests. simpl. lia.
  - unfold requests in *. rewrite filter_app, length_app. lia.
Qed.

Lemma schedulerEvents_app (t1 t2 : list AggEvent) :
  schedulerEvents (t1 ++ t2) = schedulerEvents t1 ++ schedulerEvents t2.
Proof. apply flat_map_app. Qed.

Lemma schedulerEvents_scheduler (t : list (BatchEvent FetchEvent)) :
  schedulerEvents (map Scheduler t) = t.
Proof. induction t as [|e t IH]; simpl; [reflexivity | now rewrite IH]. Qed.

Lemma schedulerEvents_console (lines : list string) :
  schedulerEvents (map ConsoleLog lines) = [].
Proof. induction lines as [|l lines IH]; simpl; [reflexivity | exact IH]. Qed.

Lemma consoleLines_app (t1 t2 : list AggEvent) :
  consoleLines (t1 ++ t2) = consoleLines t1 ++ consoleLines t2.
Proof. apply flat_map_app. Qed.

Lemma consoleLines_scheduler (t : list (BatchEvent FetchEvent)) :
  consoleLines (map Scheduler t) = [].
Proof. induction t as [|e t IH]; simpl; [reflexivity | exact IH]. Qed.

Lemma consoleLines_console (lines : list string) :
  consoleLines (map ConsoleLog lines) = lines.
Proof. induction lines as [|l lines IH]; simpl; [reflexivity | now rewrite IH]. Qed.

Section AggregatorTrace.

Context {World : Type} (fetch : string -> World -> HttpResult * World).
Context (elapse : Z -> World -> World) (Date_now : World -> Z).
Context (toISODate : Z -> option string).
Context (formatBeijingTime : Z -> string -> string).
Context {KVNamespace : Type}.
Context (getAllKeys : KVNamespace -> World -> (Exn + list ApiKey.t) * World).

(** The trace of [getAggregatedData]: the scheduler's run over the listed
    credentials, then the lines of [logKeysWithBalance]. *)
Lemma getAggregatedData_trace (kv : KVNamespace) (isLoggedIn : bool)
    (w w1 : World) (keyPairs : list ApiKey.t) :
  getAllKeys kv w = (inr keyPairs, w1) ->
  let run :=
    batchProcess elapse (List.length keyPairs) keyPairs
      (fun kp => fetchApiKeyData World fetch elapse toISODate
                   (ApiKey.id kp) (ApiKey.key kp) isLoggedIn 0%nat)
      10 100 w1 in
  let tr := snd (getAggregatedData World fetch elapse Date_now toISODate
                   formatBeijingTime KVNamespace getAllKeys kv isLoggedIn w) in
  schedulerEvents tr = snd run
  /\ consoleLines tr
     = match keyPairs, fst (fst run) with
       | _ :: _, Returned results =>
           logKeysWithBalance (validResults results) keyPairs
       | _, _ => []
       end.
Proof.
  intros Hkeys. cbv zeta.
  destruct keyPairs as [|kp keyPairs].
  - split; unfold getAggregatedData, bind; rewrite Hkeys; reflexivity.
  - destruct (batchProcess elapse (List.length (kp :: keyPairs)) (kp :: keyPairs)
                (fun kp0 => fetchApiKeyData World fetch elapse toISODate
                              (ApiKey.id kp0) (ApiKey.key kp0) isLoggedIn 0%nat)
                10 100 w1) as [[b w2] t] eqn:Hrun.
    assert (Htr : snd (getAggregatedData World fetch elapse Date_now toISODate
                         formatBeijingTime KVNamespace getAllKeys kv
                         isLoggedIn w)
                  = map Scheduler t
                    ++ match b with
                       | Returned results =>
                           map ConsoleLog
                             (logKeysWithBalance (validResults results)
                                (kp :: keyPairs))
                       | _ => []
                       end).
    { unfold getAggregatedData.
      unfold bind at 1. rewrite Hkeys.
      unfold bind at 1. unfold getBeijingTime at 1.
      change (List.length (kp :: keyPairs) =? 0)%nat with false. cbv iota.
      unfold bind at 1. unfold embed. rewrite Hrun.
      destruct b as [results|e|].
      - unfold bind. rewrite console_log_run. unfold ret. simpl.
        rewrite !app_nil_r. reflexivity.
      - unfold ret. simpl. reflexivity.
      - unfold ret. simpl. reflexivity. }
    rewrite Htr. simpl fst. simpl snd.
    rewrite schedulerEvents_app, schedulerEvents_scheduler.
    rewrite consoleLines_app, consoleLines_scheduler.
    destruct b as [results|e|]; simpl;
      rewrite ?schedulerEvents_console, ?consoleLines_console, ?app_nil_r;
      split; reflexivity.
Qed.

End AggregatorTrace.

Lemma client_traces_bounded {World : Type}
    (fetch : string -> World -> HttpResult * World)
    (elapse : Z -> World -> World) (toISODate : Z -> option string)
    (isLoggedIn : bool) (keyPairs : list ApiKey.t)
    (ts : list (list FetchEvent)) :
  Forall2 (fun kp t =>
             exists w0,
               t = snd (fetchApiKeyData World fetch elapse toISODate
                          (ApiKey.id kp) (ApiKey.key kp) isLoggedIn 0%nat w0))
    keyPairs ts ->
  Forall (fun t => (1 <= requests t <= 3)%nat) ts.
Proof.
  induction 1 as [|kp t kps ts' [w0 Ht] _ IH].
  - constructor.
  - constructor; [|exact IH]. subst t. apply client_request_count.
Qed.

(** X9.  The work of one aggregation over [n] credentials: between [n] and
    [3n] requests to the usage endpoint, batches of at most 10, and
    [ceil(n/10) - 1] pacing delays of 100 ms (none for no credential). *)
Theorem aggregation_work {World : Type}
    (fetch : string -> World -> HttpResult * World)
    (elapse : Z -> World -> World) (Date_now : World -> Z)
    (toISODate : Z -> option string)
    (formatBeijingTime : Z -> string -> string) {KVNamespace : Type}
    (getAllKeys : KVNamespace -> World -> (Exn + list ApiKey.t) * World)
    (kv : KVNamespace) (isLoggedIn : bool) (w w1 : World)
    (keyPairs : list ApiKey.t)
    (Hkeys : getAllKeys kv w = (inr keyPairs, w1)) :
  let tr := schedulerEvents
              (snd (getAggregatedData World fetch elapse Date_now toISODate
                      formatBeijingTime KVNamespace getAllKeys kv isLoggedIn w)) in
  (List.length keyPairs <= requests (tasks tr) <= 3 * List.length keyPairs)%nat
  /\ Forall (fun k => (k <= 10)%nat) (batchSizes tr)
  /\ list_sum (batchSizes tr) = List.length keyPairs
  /\ Forall (fun e => match e with Pacing d => d = 100 | _ => True end) tr
  /\ Z.of_nat (pacings tr)
     = Z.max 0 ((Z.of_nat (List.length keyPairs) + 9) / 10 - 1).
Proof.
  cbv zeta.
  destruct (getAggregatedData_trace fetch elapse Date_now toISODate
              formatBeijingTime getAllKeys kv isLoggedIn w w1 keyPairs Hkeys)
    as [Hsched _].
  cbv zeta in Hsched. rewrite Hsched. clear Hsched.
  set (client := fun kp => fetchApiKeyData World fetch elapse toISODate
                             (ApiKey.id kp) (ApiKey.key kp) isLoggedIn 0%nat).
  destruct (batchProcess_loop_tasks elapse keyPairs client 10 100 ltac:(lia)
              (List.length keyPairs) 0 [] w1 ltac:(lia) (le_n _))
    as (ts & HF & Htasks).
  destruct (batchProcess_returns elapse keyPairs client 10 100
              (fun _ _ => True) (fun _ _ => I) ltac:(lia)
              (List.length keyPairs) w1 (le_n _))
    as (results & w2 & tr & Hrun & _ & Hpaced).
  fold (batchProcess elapse (List.length keyPairs) keyPairs client 10 100 w1)
    in Htasks.
  rewrite Hrun in Htasks |- *. simpl snd in *.
  change (Z.to_nat 10) with 10%nat in Hpaced.
  split; [|split; [|split; [|split]]].
  - rewrite Htasks.
    assert (Hlen : List.length ts = List.length keyPairs)
      by (symmetry; exact (Forall2_length HF)).
    assert (Hall : Forall (fun t => (1 <= requests t <= 3)%nat) ts).
    { apply (client_traces_bounded fetch elapse toISODate isLoggedIn
               keyPairs ts HF). }
    pose proof (requests_concat ts 1 3 Hall). lia.
  - rewrite <- batchSizes_schedule.
    apply Paced_sizes in Hpaced; [|lia].
    induction Hpaced as [|e l He _ IH]; simpl; [constructor|].
    destruct e as [k|d|e]; simpl; [|exact IH|contradiction].
    constructor; [lia | exact IH].
  - rewrite <- batchSizes_schedule.
    apply (Paced_batchSizes _ _ _ _ Hpaced). lia.
  - apply Forall_schedule; [intros; exact I|].
    apply Paced_sizes in Hpaced; [|lia].
    eapply Forall_impl; [|exact Hpaced].
    intros [k|d|e]; simpl; tauto.
  - rewrite <- pacings_schedule.
    destruct keyPairs as [|kp keyPairs].
    + apply Paced_zero in Hpaced. rewrite Hpaced. reflexivity.
    + rewrite (Paced_pacings _ _ _ _ Hpaced) by (simpl; lia).
      change (Z.of_nat 10) with 10.
      assert (1 <= (Z.of_nat (List.length (kp :: keyPairs)) + 10 - 1) / 10).
      { apply Z.div_le_lower_bound; simpl List.length; lia. }
      replace (Z.of_nat (List.length (kp :: keyPairs)) + 9)
        with (Z.of_nat (List.length (kp :: keyPairs)) + 10 - 1) by lia.
      lia.
Qed.

Lemma aggregation_work_witness :
  let tr := schedulerEvents
              (snd (Scripted.getAggregatedData
                      [ApiKey.mk "a" "ka"; ApiKey.mk "b" "kb"] false
                      [Scripted.unauthorized; Scripted.usage 1 2;
                       Response 500 None])) in
  (2 <= requests (tasks tr) <= 3 * 2)%nat
  /\ Forall (fun k => (k <= 10)%nat) (batchSizes tr)
  /\ list_sum (batchSizes tr) = 2%nat
  /\ Forall (fun e => match e with Pacing d => d = 100 | _ => True end) tr
  /\ Z.of_nat (pacings tr) = Z.max 0 ((Z.of_nat 2 + 9) / 10 - 1).
Proof.
  exact (aggregation_work Scripted.fetch Scripted.elapse Scripted.Date_now
           Scripted.toISODate Scripted.formatBeijingTime Scripted.getAllKeys
           [ApiKey.mk "a" "ka"; ApiKey.mk "b" "kb"] false
           [Scripted.unauthorized; Scripted.usage 1 2; Response 500 None]
           [Scripted.unauthorized; Scripted.usage 1 2; Response 500 None]
           [ApiKey.mk "a" "ka"; ApiKey.mk "b" "kb"] eq_refl).
Defined.

(** ** The balance report *)

Lemma find_by_id (all : list ApiKey.t) (kp : ApiKey.t) :
  NoDup (map ApiKey.id all) -> In kp all ->
  find (fun kp' => String.eqb (ApiKey.id kp') (ApiKey.id kp)) all = Some kp.
Proof.
  induction all as [|x all IH]; intros Hnodup Hin; [contradiction|].
  simpl in *. inversion Hnodup as [|i l Hnotin Hrest]; subst.
  destruct (String.eqb_spec (ApiKey.id x) (ApiKey.id kp)) as [Heq|Hne].
  - destruct Hin as [->|Hin]; [reflexivity|].
    exfalso. apply Hnotin. rewrite Heq. apply in_map. exact Hin.
  - destruct Hin as [->|Hin]; [contradiction|].
    apply IH; assumption.
Qed.

Lemma balance_report_secrets (all : list ApiKey.t) :
  NoDup (map ApiKey.id all) ->
  forall (keyPairs : list ApiKey.t) (results : list ApiKeyResult),
    Forall2 (fun kp r => resultId r = ApiKey.id kp) keyPairs results ->
    incl keyPairs all ->
    flat_map
      (fun item =>
         match find (fun kp => String.eqb (ApiKey.id kp) (ApiUsageData.id item))
                    all with
         | Some originalKeyPair => [ApiKey.key originalKeyPair]
         | None => []
         end)
      (filter hasBalance (validResults results))
    = flat_map
        (fun p => match snd p with
                  | UsageData u => if hasBalance u then [ApiKey.key (fst p)] else []
                  | ErrorData _ => []
                  end)
        (combine keyPairs results)
    /\ List.length
         (flat_map
            (fun p => match snd p with
                      | UsageData u => if hasBalance u then [ApiKey.key (fst p)] else []
                      | ErrorData _ => []
                      end)
            (combine keyPairs results))
       = List.length (filter hasBalance (validResults results)).
Proof.
  intros Hnodup keyPairs results HF.
  induction HF as [|kp r keyPairs results Hid _ IH]; intros Hincl.
  - split; reflexivity.
  - assert (Hin : In kp all) by (apply Hincl; left; reflexivity).
    assert (Hincl' : incl keyPairs all)
      by (intros x Hx; apply Hincl; right; exact Hx).
    destruct (IH Hincl') as [IHs IHl].
    destruct r as [u|e]; simpl in *.
    + destruct (hasBalance u) eqn:Hbal; simpl.
      * rewrite Hid, (find_by_id all kp Hnodup Hin). simpl.
        rewrite IHs, IHl. split; reflexivity.
      * split; assumption.
    + split; assumption.
Qed.

(** X10.  [logKeysWithBalance] prints the unmasked secret of every credential
    whose usage record has [allowance - used > 0], in the order of the input,
    between its rule lines; when no credential has balance left it prints the
    one warning line instead.  (The credentials have distinct ids, and the
    results are positional.) *)
Theorem balance_report (keyPairs : list ApiKey.t) (results : list ApiKeyResult)
    (Hids : NoDup (map ApiKey.id keyPairs))
    (Hpos : Forall2 (fun kp r => resultId r = ApiKey.id kp) keyPairs results) :
  let secrets :=
    flat_map
      (fun p => match snd p with
                | UsageData u => if hasBalance u then [ApiKey.key (fst p)] else []
                | ErrorData _ => []
                end)
      (combine keyPairs results) in
  logKeysWithBalance (validResults results) keyPairs
  = match secrets with
    | [] => [(newline ++ "⚠️  没有剩余额度大于0的API Keys" ++ newline)%string]
    | _ :: _ =>
        [JS.repeat "=" 80; "📋 剩余额度大于0的API Keys:"; JS.repeat "-" 80]
        ++ secrets ++ [(JS.repeat "=" 80 ++ newline)%string]
    end.
Proof.
  cbv zeta.
  destruct (balance_report_secrets keyPairs Hids keyPairs results Hpos
              (incl_refl _)) as [Hsecrets Hlen].
  unfold logKeysWithBalance.
  change (filter (fun r => 0 <? ApiUsageData.totalAllowance r
                                - ApiUsageData.orgTotalTokensUsed r)
            (validResults results))
    with (filter hasBalance (validResults results)).
  rewrite Hsecrets.
  destruct (filter hasBalance (validResults results)) as [|u us];
    destruct (flat_map _ (combine keyPairs results)) as [|s ss];
    simpl in Hlen; try discriminate; reflexivity.
Qed.

Lemma balance_report_witness :
  logKeysWithBalance
    (validResults
       [UsageData (ApiUsageData.mk "a" "fk-A...a" "" "" 1 5 0%Q);
        ErrorData (ApiErrorData.mk "b" "fk-B...b" "HTTP 500");
        UsageData (ApiUsageData.mk "c" "fk-C...c" "" "" 9 9 0%Q)])
    [ApiKey.mk "a" "fk-Asecret-a"; ApiKey.mk "b" "fk-Bsecret-b";
     ApiKey.mk "c" "fk-Csecret-c"]
  = [JS.repeat "=" 80; "📋 剩余额度大于0的API Keys:"; JS.repeat "-" 80;
     "fk-Asecret-a"; (JS.repeat "=" 80 ++ newline)%string].
Proof.
  refine (balance_report
            [ApiKey.mk "a" "fk-Asecret-a"; ApiKey.mk "b" "fk-Bsecret-b";
             ApiKey.mk "c" "fk-Csecret-c"]
            [UsageData (ApiUsageData.mk "a" "fk-A...a" "" "" 1 5 0%Q);
             ErrorData (ApiErrorData.mk "b" "fk-B...b" "HTTP 500");
             UsageData (ApiUsageData.mk "c" "fk-C...c" "" "" 9 9 0%Q)] _ _).
  - repeat constructor; simpl; intuition discriminate.
  - repeat constructor.
Defined.

(** ** The life of the cache *)

(** X11.  The cache only ever serves a response that a refresh produced: a
    snapshot present after any sequence of ticks, settled refreshes and key
    changes was there before, or is the response of a refresh that settled
    successfully in between. *)
Theorem snapshot_provenance (actions : list Cache.Action) :
  forall (sys : Cache.System) (data : AggregatedResponse.t),
    ServerState.getData (Cache.serverState (Cache.run sys actions)) = Some data ->
    ServerState.getData (Cache.serverState sys) = Some data
    \/ In (Cache.Settle (inr data)) actions.
Proof.
  induction actions as [|a rest IH]; intros sys data Hdata; simpl in *.
  - left. exact Hdata.
  - destruct (IH _ _ Hdata) as [Hstep|Hin]; [|right; right; exact Hin].
    destruct sys as [s n k]. destruct a as [|r|]; simpl in Hstep.
    + left. unfold autoRefreshData_enter in Hstep.
      destruct (ServerState.isCurrentlyUpdating s); exact Hstep.
    + destruct n as [|n]; [left; exact Hstep|].
      destruct r as [[m|]|d]; simpl in Hstep.
      * left. exact Hstep.
      * left. exact Hstep.
      * right. left. injection Hstep as ->. reflexivity.
    + discriminate Hstep.
Qed.

Lemma snapshot_provenance_witness :
  ServerState.getData (Cache.serverState Cache.boot)
  = Some (AggregatedResponse.mk "t" 0 (UsageTotals.mk 0 0 0) [])
  \/ In (Cache.Settle (inr (AggregatedResponse.mk "t" 0 (UsageTotals.mk 0 0 0) [])))
        [Cache.Tick;
         Cache.Settle (inr (AggregatedResponse.mk "t" 0 (UsageTotals.mk 0 0 0) []));
         Cache.Tick; Cache.Settle (inl Thrown)].
Proof.
  apply (snapshot_provenance
           [Cache.Tick;
            Cache.Settle (inr (AggregatedResponse.mk "t" 0 (UsageTotals.mk 0 0 0) []));
            Cache.Tick; Cache.Settle (inl Thrown)]
           Cache.boot).
  reflexivity.
Defined.

(** X12.  A call of [autoRefreshData] that runs undisturbed always completes.
    Started while a refresh is in progress it changes nothing.  Otherwise it
    ends with the refreshing flag released.  When the credentials could be
    listed, the snapshot it leaves is the very response that
    [getAggregatedData] returns for a client that is not logged in, counting
    every credential, and the last error is cleared.  When they could not, the error is recorded (its message, or
    [Refresh failed] for a thrown value that is not an [Error]) and the old
    snapshot kept. *)
Theorem autoRefreshData_outcome {World : Type}
    (fetch : string -> World -> HttpResult * World)
    (elapse : Z -> World -> World) (Date_now : World -> Z)
    (toISODate : Z -> option string)
    (formatBeijingTime : Z -> string -> string) {KVNamespace : Type}
    (getAllKeys : KVNamespace -> World -> (Exn + list ApiKey.t) * World)
    (env : Env KVNamespace) (s : ServerState.t) (w : World) :
  match fst (fst (autoRefreshData World fetch elapse Date_now toISODate
                    formatBeijingTime KVNamespace getAllKeys env s w)) with
  | Returned s' =>
      if ServerState.isCurrentlyUpdating s then s' = s
      else
        ServerState.isCurrentlyUpdating s' = false
        /\ match fst (getAllKeys (API_KEYS KVNamespace env) w) with
           | inr keyPairs =>
               ServerState.getError s' = None
               /\ exists resp,
                    fst (fst (getAggregatedData World fetch elapse Date_now
                                toISODate formatBeijingTime KVNamespace
                                getAllKeys (API_KEYS KVNamespace env) false w))
                    = Returned resp
                    /\ ServerState.getData s' = Some resp
                    /\ AggregatedResponse.total_count resp
                       = Z.of_nat (List.length keyPairs)
           | inl (ErrorObject message) =>
               ServerState.getError s' = Some message
               /\ ServerState.getData s' = ServerState.getData s
           | inl Thrown =>
               ServerState.getError s' = Some "Refresh failed"
               /\ ServerState.getData s' = ServerState.getData s
           end
  | Threw _ => False
  | Unsettled => False
  end.
Proof.
  unfold autoRefreshData, autoRefreshData_enter.
  destruct (ServerState.isCurrentlyUpdating s) eqn:Hflag.
  - reflexivity.
  - unfold bind at 1. unfold getBeijingTime at 1.
    unfold bind at 1. unfold emit at 1.
    unfold bind at 1.
    destruct (getAllKeys (API_KEYS KVNamespace env) w) as [[e|keyPairs] w1]
      eqn:Hkeys.
    + assert (Hrun : getAggregatedData World fetch elapse Date_now toISODate
                       formatBeijingTime KVNamespace getAllKeys
                       (API_KEYS KVNamespace env) false w = (Threw e, w1, [])).
      { unfold getAggregatedData, bind. rewrite Hkeys. reflexivity. }
      rewrite Hrun. simpl.
      destruct e as [message|]; repeat split.
    + destruct (getAggregatedData_run fetch elapse Date_now toISODate
                  formatBeijingTime getAllKeys (API_KEYS KVNamespace env) false
                  w w1 keyPairs Hkeys) as (results & w' & tr & _ & Hrun).
      rewrite Hrun. simpl.
      repeat split. eexists. repeat split.
Qed.

(** * Properties of the worker's handlers *)

Lemma kvEvents_app (t1 t2 : list Worker.WorkerEvent) :
  Worker.kvEvents (t1 ++ t2) = Worker.kvEvents t1 ++ Worker.kvEvents t2.
Proof. apply flat_map_app. Qed.

Lemma kvEvents_kv (t : list Worker.KvEvent) :
  Worker.kvEvents (map Worker.Kv t) = t.
Proof. induction t as [|e t IH]; simpl; [reflexivity | now rewrite IH]. Qed.

Lemma puts_app (t1 t2 : list Worker.KvEvent) :
  Worker.puts (t1 ++ t2) = Worker.puts t1 ++ Worker.puts t2.
Proof. apply flat_map_app. Qed.

Lemma deletes_app (t1 t2 : list Worker.KvEvent) :
  Worker.deletes (t1 ++ t2) = Worker.deletes t1 ++ Worker.deletes t2.
Proof. apply flat_map_app. Qed.

Lemma gets_app (t1 t2 : list Worker.KvEvent) :
  Worker.gets (t1 ++ t2) = Worker.gets t1 ++ Worker.gets t2.
Proof. apply flat_map_app. Qed.

Section StoreFacts.

Context {World KVNamespace : Type}.
Context (kv_list : KVNamespace -> string -> World -> (Exn + list string) * World).
Context (kv_get : KVNamespace -> string -> World -> (Exn + option string) * World).

Lemma getAllKeys_loop_step (kv : KVNamespace) (name : string)
    (rest : list string) (keys : list ApiKey.t) (w : World) :
  Worker.getAllKeys_loop World KVNamespace kv_get kv (name :: rest) keys w
  = let '(value, w1) := kv_get kv name w in
    match value with
    | inl e => (inl e, w1, [Worker.KvGet name])
    | inr stored =>
        let keys' :=
          match stored with
          | Some v =>
              if String.eqb v "" then keys
              else keys ++ [ApiKey.mk (JSString.replace name "api_keys:" "") v]
          | None => keys
          end in
        let '(r, w2, t) :=
          Worker.getAllKeys_loop World KVNamespace kv_get kv rest keys' w1 in
        (r, w2, Worker.KvGet name :: t)
    end.
Proof.
  simpl. unfold bind, Worker.kvGet.
  destruct (kv_get kv name w) as [[e|[v|]] w1]; simpl.
  - reflexivity.
  - destruct (String.eqb v "");
      destruct (Worker.getAllKeys_loop _ _ _ _ _ _ w1) as [[r w2] t];
      reflexivity.
  - destruct (Worker.getAllKeys_loop _ _ _ _ _ _ w1) as [[r w2] t].
    reflexivity.
Qed.

Lemma getAllKeys_loop_reads (kv : KVNamespace) (names : list string) :
  forall (keys : list ApiKey.t) (w : World),
    let run := Worker.getAllKeys_loop World KVNamespace kv_get kv names keys w in
    Worker.puts (snd run) = []
    /\ Worker.deletes (snd run) = []
    /\ incl (Worker.gets (snd run)) names
    /\ match fst (fst run) with
       | inr keys' =>
           exists added,
             keys' = keys ++ added
             /\ (List.length added <= List.length names)%nat
             /\ Forall (fun k =>
                          ApiKey.key k <> ""
                          /\ exists name,
                               In name names
                               /\ ApiKey.id k
                                  = JSString.replace name "api_keys:" "")
                  added
       | inl _ => True
       end.
Proof.
  induction names as [|name rest IH]; intros keys w; cbv zeta.
  - simpl. repeat split; try apply incl_refl.
    exists []. rewrite app_nil_r. repeat split; constructor.
  - rewrite getAllKeys_loop_step.
    destruct (kv_get kv name w) as [[e|stored] w1].
    + simpl. repeat split.
      apply incl_cons; [left; reflexivity | apply incl_nil_l].
    + cbv zeta.
      set (keys' := match stored with
                    | Some v =>
                        if String.eqb v "" then keys
                        else keys ++ [ApiKey.mk
                                        (JSString.replace name "api_keys:" "") v]
                    | None => keys
                    end).
      assert (Hkeys' : exists new,
                 keys' = keys ++ new /\ (List.length new <= 1)%nat
                 /\ Forall (fun k =>
                              ApiKey.key k <> ""
                              /\ ApiKey.id k
                                 = JSString.replace name "api_keys:" "") new).
      { unfold keys'. destruct stored as [v|].
        - destruct (String.eqb_spec v "") as [Hv|Hv].
          + exists []. rewrite app_nil_r. repeat split; [simpl; lia | constructor].
          + exists [ApiKey.mk (JSString.replace name "api_keys:" "") v].
            repeat split; [simpl; lia|].
            constructor; [split; [exact Hv | reflexivity] | constructor].
        - exists []. rewrite app_nil_r. repeat split; [simpl; lia | constructor]. }
      destruct Hkeys' as (new & Hnew & Hlen1 & Hall1).
      specialize (IH keys' w1). cbv zeta in IH.
      destruct (Worker.getAllKeys_loop World KVNamespace kv_get kv rest keys' w1)
        as [[r w2] t].
      simpl in *. destruct IH as (Hp & Hd & Hg & Hk).
      repeat split; try assumption.
      * apply incl_cons; [left; reflexivity | apply incl_tl, Hg].
      * destruct r as [e|keys'']; [exact I|].
        destruct Hk as (added & -> & Hlen & Hall).
        exists (new ++ added). rewrite Hnew, <- app_assoc.
        repeat split.
        -- rewrite length_app. lia.
        -- apply Forall_app. split.
           ++ eapply Forall_impl; [|exact Hall1].
              intros k [Hne Hid]. split; [exact Hne|].
              exists name. split; [left; reflexivity | exact Hid].
           ++ eapply Forall_impl; [|exact Hall].
              intros k [Hne (n & Hn & Hid)]. split; [exact Hne|].
              exists n. split; [right; exact Hn | exact Hid].
Qed.

Lemma getAllKeys_reads (kv : KVNamespace) (w : World) :
  let run := Worker.getAllKeys World KVNamespace kv_list kv_get kv w in
  Worker.puts (snd run) = []
  /\ Worker.deletes (snd run) = []
  /\ match fst (fst run), fst (kv_list kv "api_keys:" w) with
     | inr keys, inr names =>
         (List.length keys <= List.length names)%nat
         /\ incl (Worker.gets (snd run)) names
         /\ Forall (fun k =>
                      ApiKey.key k <> ""
                      /\ exists name,
                           In name names
                           /\ ApiKey.id k = JSString.replace name "api_keys:" "")
              keys
     | inr _, inl _ => False
     | inl _, _ => Worker.gets (snd run) = []
                   \/ exists names, fst (kv_list kv "api_keys:" w) = inr names
     end.
Proof.
  cbv zeta. unfold Worker.getAllKeys, bind, Worker.kvList.
  destruct (kv_list kv "api_keys:" w) as [[e|names] w1]; simpl.
  - repeat split. left. reflexivity.
  - pose proof (getAllKeys_loop_reads kv names [] w1) as H. cbv zeta in H.
    destruct (Worker.getAllKeys_loop World KVNamespace kv_get kv names [] w1)
      as [[r w2] t].
    simpl in *. destruct H as (Hp & Hd & Hg & Hk).
    repeat split; try assumption.
    destruct r as [e|keys]; [right; eauto|].
    destruct Hk as (added & -> & Hlen & Hall). simpl.
    repeat split; assumption.
Qed.

End StoreFacts.

(** X13.  [getAllKeys] only reads the store.  The credentials it returns all
    have a non-empty secret (an entry stored with an empty value is skipped),
    there are no more of them than names listed, and the id of each is a
    listed name with its first [api_keys:] removed. *)
Theorem getAllKeys_reads_only {World KVNamespace : Type}
    (kv_list : KVNamespace -> string -> World -> (Exn + list string) * World)
    (kv_get : KVNamespace -> string -> World -> (Exn + option string) * World)
    (kv : KVNamespace) (w : World) :
  let run := Worker.getAllKeys World KVNamespace kv_list kv_get kv w in
  Worker.puts (snd run) = []
  /\ Worker.deletes (snd run) = []
  /\ match fst (fst run) with
     | inr keys =>
         exists names,
           fst (kv_list kv "api_keys:" w) = inr names
           /\ (List.length keys <= List.length names)%nat
           /\ Forall (fun k =>
                        ApiKey.key k <> ""
                        /\ exists name,
                             In name names
                             /\ ApiKey.id k
                                = JSString.replace name "api_keys:" "")
                keys
     | inl _ => True
     end.
Proof.
  cbv zeta.
  pose proof (getAllKeys_reads kv_list kv_get kv w) as H. cbv zeta in H.
  destruct H as (Hp & Hd & Hk).
  repeat split; try assumption.
  destruct (fst (fst (Worker.getAllKeys World KVNamespace kv_list kv_get kv w)))
    as [e|keys]; [exact I|].
  destruct (fst (kv_list kv "api_keys:" w)) as [e|names]; [contradiction|].
  destruct Hk as (Hlen & _ & Hall).
  exists names. repeat split; assumption.
Qed.

(** ** Importing keys *)

Section ImportFacts.

Context {World KVNamespace : Type}.
Context (Date_now : World -> Z).
Context (kv_put : KVNamespace -> string -> jsval -> World -> (Exn + unit) * World).
Context (random36 : World -> string * World).

Lemma handleBatchImport_loop_step (kv : KVNamespace) (item : jsval)
    (rest existingKeys : list jsval) (added skipped : Z) (w : World) :
  Worker.handleBatchImport_loop World Date_now KVNamespace kv_put random36 kv
    (item :: rest) existingKeys added skipped w
  = if Worker.importable item then
      let key := Dyn.get "key" item in
      if Dyn.setHas existingKeys key then
        Worker.handleBatchImport_loop World Date_now KVNamespace kv_put random36
          kv rest existingKeys added (skipped + 1) w
      else
        let '(suffix, w1) := random36 w in
        let name := ("api_keys:" ++ "key-" ++ JS.toString (Date_now w) ++ "-"
                     ++ suffix)%string in
        let '(put, w2) := kv_put kv name key w1 in
        match put with
        | inl e => (inl e, w2, [Worker.Kv (Worker.KvPut name key)])
        | inr _ =>
            let '(r, w3, t) :=
              Worker.handleBatchImport_loop World Date_now KVNamespace kv_put
                random36 kv rest (existingKeys ++ [key]) (added + 1) skipped w2 in
            (r, w3, Worker.Kv (Worker.KvPut name key) :: t)
        end
    else
      Worker.handleBatchImport_loop World Date_now KVNamespace kv_put random36
        kv rest existingKeys added skipped w.
Proof.
  simpl Worker.handleBatchImport_loop. unfold Worker.importable.
  destruct (Dyn.truthy item); simpl; [|reflexivity].
  destruct (Dyn.isObject item); simpl; [|reflexivity].
  destruct (Dyn.has "key" item); simpl; [|reflexivity].
  destruct (Dyn.truthy (Dyn.get "key" item)); simpl.
  - destruct (Dyn.setHas existingKeys (Dyn.get "key" item)).
    + reflexivity.
    + unfold bind, Worker.newId, embed, Worker.addKey, Worker.kvPut.
      destruct (random36 w) as [suffix w1].
      destruct (kv_put kv _ (Dyn.get "key" item) w1) as [[e|[]] w2];
        simpl.
      * reflexivity.
      * destruct (Worker.handleBatchImport_loop _ _ _ _ _ _ _ _ _ _ w2)
          as [[r w3] t].
        reflexivity.
  - reflexivity.
Qed.

Lemma prefix_empty (s : string) : String.prefix "" s = true.
Proof. destruct s; reflexivity. Qed.

Lemma setHas_app (set : list jsval) (key v : jsval) :
  Dyn.setHas (set ++ [key]) v = false ->
  Dyn.setHas set v = false /\ Dyn.sameValueZero key v = false.
Proof.
  unfold Dyn.setHas. rewrite existsb_app. simpl.
  rewrite orb_false_r. apply orb_false_elim.
Qed.

(** The loop of [handleBatchImport]: what it writes and how it counts. *)
Lemma handleBatchImport_loop_spec (kv : KVNamespace) (items : list jsval) :
  forall (existingKeys : list jsval) (added skipped : Z) (w : World),
    let run := Worker.handleBatchImport_loop World Date_now KVNamespace kv_put
                 random36 kv items existingKeys added skipped w in
    let written := Worker.puts (Worker.kvEvents (snd run)) in
    Forall (fun p => Dyn.truthy (snd p) = true
                     /\ Dyn.setHas existingKeys (snd p) = false
                     /\ String.prefix "api_keys:key-" (fst p) = true) written
    /\ ForallOrdPairs (fun p q => Dyn.sameValueZero (snd p) (snd q) = false)
         written
    /\ Worker.deletes (Worker.kvEvents (snd run)) = []
    /\ Worker.gets (Worker.kvEvents (snd run)) = []
    /\ match fst (fst run) with
       | inr (added', skipped') =>
           added' = added + Z.of_nat (List.length written)
           /\ (added' - added) + (skipped' - skipped)
              = Z.of_nat (List.length (filter Worker.importable items))
       | inl _ =>
           (List.length written
            <= List.length (filter Worker.importable items))%nat
       end.
Proof.
  induction items as [|item rest IH]; intros existingKeys added skipped w;
    cbv zeta.
  - simpl. repeat split; try constructor; lia.
  - rewrite handleBatchImport_loop_step. simpl filter.
    destruct (Worker.importable item) eqn:Himp.
    + assert (Htruthy : Dyn.truthy (Dyn.get "key" item) = true).
      { unfold Worker.importable in Himp.
        apply andb_prop in Himp as [_ Himp]. exact Himp. }
      cbv zeta.
      destruct (Dyn.setHas existingKeys (Dyn.get "key" item)) eqn:Hhas.
      * specialize (IH existingKeys added (skipped + 1) w). cbv zeta in IH.
        destruct (Worker.handleBatchImport_loop World Date_now KVNamespace
                    kv_put random36 kv rest existingKeys added (skipped + 1) w)
          as [[r w1] t].
        simpl in *. destruct IH as (Hall & Hpairs & Hd & Hg & Hcount).
        repeat split; try assumption.
        destruct r as [e|[added' skipped']]; [lia|].
        destruct Hcount as [Hadded Hsum]. split; [exact Hadded | lia].
      * destruct (random36 w) as [suffix w1].
        set (name := ("api_keys:" ++ "key-" ++ JS.toString (Date_now w) ++ "-"
                      ++ suffix)%string).
        destruct (kv_put kv name (Dyn.get "key" item) w1) as [[e|[]] w2].
        -- simpl. repeat split.
           ++ constructor; [|constructor].
              simpl. repeat split; try assumption; apply prefix_empty.
           ++ constructor; constructor.
           ++ lia.
        -- specialize (IH (existingKeys ++ [Dyn.get "key" item]) (added + 1)
                          skipped w2).
           cbv zeta in IH.
           destruct (Worker.handleBatchImport_loop World Date_now KVNamespace
                       kv_put random36 kv rest
                       (existingKeys ++ [Dyn.get "key" item]) (added + 1)
                       skipped w2) as [[r w3] t].
           simpl in *. destruct IH as (Hall & Hpairs & Hd & Hg & Hcount).
           repeat split; try assumption.
           ++ constructor.
              ** simpl. repeat split; try assumption; apply prefix_empty.
              ** eapply Forall_impl; [|exact Hall].
                 intros p (Ht & Hs & Hn).
                 apply setHas_app in Hs as [Hs _].
                 repeat split; assumption.
           ++ constructor; [|exact Hpairs].
              eapply Forall_impl; [|exact Hall].
              intros p (_ & Hs & _). simpl.
              apply setHas_app in Hs as [_ Hs]. exact Hs.
           ++ destruct r as [e|[added' skipped']]; [lia|].
              destruct Hcount as [Hadded Hsum]. split; lia.
    + specialize (IH existingKeys added skipped w). cbv zeta in IH.
      destruct (Worker.handleBatchImport_loop World Date_now KVNamespace
                  kv_put random36 kv rest existingKeys added skipped w)
        as [[r w1] t].
      simpl in *. exact IH.
Qed.

End ImportFacts.

Section ImportHandler.

Context {World KVNamespace : Type}.
Context (Date_now : World -> Z).
Context (kv_list : KVNamespace -> string -> World -> (Exn + list string) * World).
Context (kv_get : KVNamespace -> string -> World -> (Exn + option string) * World).
Context (kv_put : KVNamespace -> string -> jsval -> World -> (Exn + unit) * World).
Context (random36 : World -> string * World).

Lemma handleBatchImport_run (items : list jsval) (env : Env KVNamespace)
    (s : ServerState.t) (w : World) :
  Worker.handleBatchImport World Date_now KVNamespace kv_list kv_get kv_put
    random36 items env s w
  = let '(keys, w1, t1) :=
      Worker.getAllKeys World KVNamespace kv_list kv_get
        (API_KEYS KVNamespace env) w in
    match keys with
    | inl e => ((inl e, s), w1, map Worker.Kv t1)
    | inr keys =>
        let '(counted, w2, t2) :=
          Worker.handleBatchImport_loop World Date_now KVNamespace kv_put
            random36 (API_KEYS KVNamespace env) items
            (map (fun k => VString (ApiKey.key k)) keys) 0 0 w1 in
        match counted with
        | inl e => ((inl e, s), w2, map Worker.Kv t1 ++ t2)
        | inr (added, skipped) =>
            ((inr (Worker.createJsonResponse (Worker.DImported added skipped) 200),
              if 0 <? added then ServerState.clearCache s else s),
             w2, map Worker.Kv t1 ++ t2)
        end
    end.
Proof.
  unfold Worker.handleBatchImport. unfold bind at 1. unfold embed.
  destruct (Worker.getAllKeys World KVNamespace kv_list kv_get
              (API_KEYS KVNamespace env) w) as [[[e|keys] w1] t1].
  - unfold ret. rewrite app_nil_r. reflexivity.
  - unfold bind.
    destruct (Worker.handleBatchImport_loop _ _ _ _ _ _ _ _ _ _ w1)
      as [[[e|[added skipped]] w2] t2]; unfold ret; rewrite app_nil_r;
      reflexivity.
Qed.

Lemma not_in_set (keys : list ApiKey.t) (v : jsval) :
  Dyn.setHas (map (fun k => VString (ApiKey.key k)) keys) v = false ->
  forall k, In k keys -> v <> VString (ApiKey.key k).
Proof.
  unfold Dyn.setHas. intros Hset k Hin ->.
  assert (Htrue : existsb (fun x => Dyn.sameValueZero x (VString (ApiKey.key k)))
                    (map (fun k0 => VString (ApiKey.key k0)) keys) = true).
  { apply existsb_exists. exists (VString (ApiKey.key k)). split.
    - apply in_map_iff. exists k. split; [reflexivity | exact Hin].
    - simpl. apply String.eqb_refl. }
  rewrite Htrue in Hset. discriminate.
Qed.

End ImportHandler.

(** X14.  A batch import never stores a key twice: every value it writes is
    truthy, is no key that the store already held, and differs from every
    other value it writes, each under a fresh name [api_keys:key-...]; it
    deletes nothing. *)
Theorem batch_import_writes {World KVNamespace : Type}
    (Date_now : World -> Z)
    (kv_list : KVNamespace -> string -> World -> (Exn + list string) * World)
    (kv_get : KVNamespace -> string -> World -> (Exn + option string) * World)
    (kv_put : KVNamespace -> string -> jsval -> World -> (Exn + unit) * World)
    (random36 : World -> string * World)
    (items : list jsval) (env : Env KVNamespace) (s : ServerState.t)
    (w : World) :
  let run := Worker.handleBatchImport World Date_now KVNamespace kv_list kv_get
               kv_put random36 items env s w in
  let written := Worker.puts (Worker.kvEvents (snd run)) in
  Forall (fun p => Dyn.truthy (snd p) = true
                   /\ String.prefix "api_keys:key-" (fst p) = true) written
  /\ ForallOrdPairs (fun p q => Dyn.sameValueZero (snd p) (snd q) = false)
       written
  /\ Worker.deletes (Worker.kvEvents (snd run)) = []
  /\ match fst (fst (Worker.getAllKeys World KVNamespace kv_list kv_get
                       (API_KEYS KVNamespace env) w)) with
     | inr keys =>
         Forall (fun p => forall k, In k keys -> snd p <> VString (ApiKey.key k))
           written
     | inl _ => written = []
     end.
Proof.
  cbv zeta. rewrite handleBatchImport_run.
  pose proof (getAllKeys_reads kv_list kv_get (API_KEYS KVNamespace env) w)
    as Hreads.
  cbv zeta in Hreads. destruct Hreads as (Hp1 & Hd1 & _).
  destruct (Worker.getAllKeys World KVNamespace kv_list kv_get
              (API_KEYS KVNamespace env) w) as [[[e|keys] w1] t1].
  - simpl in *. rewrite kvEvents_kv, Hp1, Hd1.
    repeat split; constructor.
  - pose proof (handleBatchImport_loop_spec Date_now kv_put random36
                  (API_KEYS KVNamespace env) items
                  (map (fun k => VString (ApiKey.key k)) keys) 0 0 w1) as Hloop.
    cbv zeta in Hloop.
    destruct (Worker.handleBatchImport_loop World Date_now KVNamespace kv_put
                random36 (API_KEYS KVNamespace env) items
                (map (fun k => VString (ApiKey.key k)) keys) 0 0 w1)
      as [[counted w2] t2].
    simpl in Hloop, Hp1, Hd1 |- *.
    destruct Hloop as (Hall & Hpairs & Hd & _ & _).
    assert (Hwritten :
              Worker.puts (Worker.kvEvents (map Worker.Kv t1 ++ t2))
              = Worker.puts (Worker.kvEvents t2)).
    { rewrite kvEvents_app, kvEvents_kv, puts_app, Hp1. reflexivity. }
    assert (Hdeleted :
              Worker.deletes (Worker.kvEvents (map Worker.Kv t1 ++ t2)) = []).
    { rewrite kvEvents_app, kvEvents_kv, deletes_app, Hd1, Hd. reflexivity. }
    destruct counted as [e|[added skipped]]; simpl;
      rewrite Hwritten, Hdeleted;
      (repeat split; [| exact Hpairs |]);
      (eapply Forall_impl; [|exact Hall]);
      try (intros p (Ht & _ & Hn); split; assumption);
      intros p (_ & Hs & _); apply not_in_set; exact Hs.
Qed.

(** X15.  The answer of a batch import: [added] is the number of keys
    written, [added + skipped] the number of items that carry a usable key,
    and the cache is cleared exactly when something was added.  When the
    store throws midway the cache is left as it was, whatever was written
    before. *)
Theorem batch_import_accounting {World KVNamespace : Type}
    (Date_now : World -> Z)
    (kv_list : KVNamespace -> string -> World -> (Exn + list string) * World)
    (kv_get : KVNamespace -> string -> World -> (Exn + option string) * World)
    (kv_put : KVNamespace -> string -> jsval -> World -> (Exn + unit) * World)
    (random36 : World -> string * World)
    (items : list jsval) (env : Env KVNamespace) (s : ServerState.t)
    (w : World) :
  let run := Worker.handleBatchImport World Date_now KVNamespace kv_list kv_get
               kv_put random36 items env s w in
  let written := Worker.puts (Worker.kvEvents (snd run)) in
  match fst (fst run) with
  | (inr response, s') =>
      exists added skipped,
        response
        = Worker.createJsonResponse (Worker.DImported added skipped) 200
        /\ added = Z.of_nat (List.length written)
        /\ added + skipped
           = Z.of_nat (List.length (filter Worker.importable items))
        /\ s' = (if 0 <? added then ServerState.new else s)
  | (inl _, s') => s' = s
  end.
Proof.
  cbv zeta. rewrite handleBatchImport_run.
  pose proof (getAllKeys_reads kv_list kv_get (API_KEYS KVNamespace env) w)
    as Hreads.
  cbv zeta in Hreads. destruct Hreads as (Hp1 & _ & _).
  destruct (Worker.getAllKeys World KVNamespace kv_list kv_get
              (API_KEYS KVNamespace env) w) as [[[e|keys] w1] t1].
  - reflexivity.
  - pose proof (handleBatchImport_loop_spec Date_now kv_put random36
                  (API_KEYS KVNamespace env) items
                  (map (fun k => VString (ApiKey.key k)) keys) 0 0 w1) as Hloop.
    cbv zeta in Hloop.
    destruct (Worker.handleBatchImport_loop World Date_now KVNamespace kv_put
                random36 (API_KEYS KVNamespace env) items
                (map (fun k => VString (ApiKey.key k)) keys) 0 0 w1)
      as [[counted w2] t2].
    simpl in Hloop, Hp1 |- *.
    destruct Hloop as (_ & _ & _ & _ & Hcount).
    destruct counted as [e|[added skipped]]; simpl; [reflexivity|].
    destruct Hcount as [Hadded Hsum].
    exists added, skipped. repeat split.
    + rewrite kvEvents_app, kvEvents_kv, puts_app, Hp1. simpl. lia.
    + lia.
Qed.

(** ** Adding one key *)

Section SingleAdd.

Context {World KVNamespace : Type}.
Context (Date_now : World -> Z).
Context (kv_list : KVNamespace -> string -> World -> (Exn + list string) * World).
Context (kv_get : KVNamespace -> string -> World -> (Exn + option string) * World).
Context (kv_put : KVNamespace -> string -> jsval -> World -> (Exn + unit) * World).
Context (random36 : World -> string * World).


End SingleAdd.


(** ** Deleting in batch *)



(** ** The password gate *)

(** X18.  [handleExportKeys] reads the store only for a body whose
    [password] is the string [EXPORT_PASSWORD]: then it answers 200 with the
    stored credentials, or 400 when listing them throws.  For any other body
    (wrong, missing or non-string password, [null], unparsable) it answers
    401 or 400 without a single KV operation. *)
Theorem export_requires_password {World KVNamespace : Type}
    (kv_list : KVNamespace -> string -> World -> (Exn + list string) * World)
    (kv_get : KVNamespace -> string -> World -> (Exn + option string) * World)
    (typeErrorMessage : string -> string)
    (req : Worker.Request) (env : Env KVNamespace) (w : World) :
  let run := Worker.handleExportKeys World KVNamespace kv_list kv_get
               typeErrorMessage req env w in
  let response := fst (fst run) in
  let authorised :=
    match Worker.json req with
    | inr body =>
        Dyn.isString (EXPORT_PASSWORD KVNamespace env) (Dyn.get "password" body)
    | inl _ => false
    end in
  if authorised then
    match fst (fst (Worker.getAllKeys World KVNamespace kv_list kv_get
                      (API_KEYS KVNamespace env) w)) with
    | inr keys =>
        response = Worker.createJsonResponse (Worker.DExported keys) 200
    | inl _ => Worker.status response = 400
    end
  else
    Worker.kvEvents (snd run) = []
    /\ (Worker.status response = 400 \/ Worker.status response = 401).
Proof.
  cbv zeta. unfold Worker.handleExportKeys.
  destruct (Worker.json req) as [e|body].
  - simpl. split; [reflexivity | left; reflexivity].
  - destruct (Dyn.isString (EXPORT_PASSWORD KVNamespace env)
                (Dyn.get "password" body)) eqn:Hpw.
    + destruct body as [| |b|n|str|items|fields]; try discriminate Hpw;
        simpl in Hpw |- *; rewrite ?Hpw; simpl;
        unfold bind, embed;
        destruct (Worker.getAllKeys World KVNamespace kv_list kv_get
                    (API_KEYS KVNamespace env) w) as [[[e|keys] w1] t1];
        reflexivity.
    + destruct body as [| |b|n|str|items|fields]; simpl in Hpw |- *;
        rewrite ?Hpw; simpl;
        (split; [reflexivity | first [left; reflexivity | right; reflexivity]]).
Qed.

(** X19.  [handleLogin] answers 200 exactly when the body is an object whose
    [username] and [password] are both the string [EXPORT_PASSWORD];
    otherwise 401, or 400 for a [null] or unparsable body.  It never reads or
    writes the store. *)
Theorem login_requires_password {World KVNamespace : Type}
    (typeErrorMessage : string -> string)
    (req : Worker.Request) (env : Env KVNamespace) (w : World) :
  let run := Worker.handleLogin World KVNamespace typeErrorMessage req env w in
  let response := fst (fst run) in
  Worker.kvEvents (snd run) = []
  /\ snd (fst run) = w
  /\ match Worker.json req with
     | inr (VObject fields) =>
         if Dyn.isString (EXPORT_PASSWORD KVNamespace env)
              (Dyn.get "username" (VObject fields))
            && Dyn.isString (EXPORT_PASSWORD KVNamespace env)
                 (Dyn.get "password" (VObject fields))
         then response = Worker.createJsonResponse Worker.DSuccess 200
         else Worker.status response = 401
     | inr (VNull | VUndefined) | inl _ => Worker.status response = 400
     | inr _ => Worker.status response = 401
     end.
Proof.
  cbv zeta. unfold Worker.handleLogin.
  destruct (Worker.json req) as [e|body]; [repeat split|].
  destruct body as [| |b|n|str|items|fields];
    try (repeat split; fail).
  destruct (Dyn.isString (EXPORT_PASSWORD KVNamespace env)
              (Dyn.get "username" (VObject fields))
            && Dyn.isString (EXPORT_PASSWORD KVNamespace env)
                 (Dyn.get "password" (VObject fields)));
    repeat split.
Qed.

(** ** Routing *)

Lemma bind_ret_state {World E A B S : Type} (m : M World E A) (f : A -> B)
    (s : S) (w : World) :
  snd (fst (fst (bind m (fun x => ret (f x, s)) w))) = s.
Proof. unfold bind, ret. destruct (m w) as [[a w1] t]. reflexivity. Qed.

Lemma kvEvents_aggregation (t : list AggEvent) :
  Worker.kvEvents (map Worker.Aggregation t) = [].
Proof. induction t as [|e t IH]; simpl; [reflexivity | exact IH]. Qed.

Lemma kvEvents_usage (t : list FetchEvent) :
  Worker.kvEvents (map Worker.Usage t) = [].
Proof. induction t as [|e t IH]; simpl; [reflexivity | exact IH]. Qed.

Section RouterFacts.

Context {World : Type} (fetch : string -> World -> HttpResult * World).
Context (elapse : Z -> World -> World) (Date_now : World -> Z).
Context (toISODate : Z -> option string).
Context (formatBeijingTime : Z -> string -> string).
Context {KVNamespace : Type}.
Context (kv_list : KVNamespace -> string -> World -> (Exn + list string) * World).
Context (kv_get : KVNamespace -> string -> World -> (Exn + option string) * World).
Context (kv_put : KVNamespace -> string -> jsval -> World -> (Exn + unit) * World).
Context (kv_delete : KVNamespace -> string -> World -> (Exn + unit) * World).
Context (random36 : World -> string * World).
Context (typeErrorMessage : string -> string).

(** The KV operations of [GET /api/data] are those of the listing. *)
Lemma handleGetData_kv (req : Worker.Request) (env : Env KVNamespace) (w : World) :
  Worker.kvEvents
    (snd (Worker.handleGetData World fetch elapse Date_now toISODate
            formatBeijingTime KVNamespace kv_list kv_get req env w))
  = snd (Worker.getAllKeys World KVNamespace kv_list kv_get
           (API_KEYS KVNamespace env) w).
Proof.
  unfold Worker.handleGetData. cbv zeta. unfold bind at 1.
  unfold Worker.getAggregatedData_kv.
  destruct (getAggregatedData _ _ _ _ _ _ _ _ _ _ w) as [[[data|e|] w1] t];
    simpl; rewrite !kvEvents_app, kvEvents_kv, kvEvents_aggregation;
    simpl; rewrite ?app_nil_r; reflexivity.
Qed.

Lemma handleGetKeys_kv (env : Env KVNamespace) (w : World) :
  Worker.kvEvents
    (snd (Worker.handleGetKeys World KVNamespace kv_list kv_get env w))
  = snd (Worker.getAllKeys World KVNamespace kv_list kv_get
           (API_KEYS KVNamespace env) w).
Proof.
  unfold Worker.handleGetKeys. unfold bind at 1. unfold embed.
  destruct (Worker.getAllKeys World KVNamespace kv_list kv_get
              (API_KEYS KVNamespace env) w) as [[[e|keys] w1] t];
    simpl; rewrite kvEvents_app, kvEvents_kv, app_nil_r; reflexivity.
Qed.

Lemma default_fetch_run (req : Worker.Request) (env : Env KVNamespace)
    (s : ServerState.t) (w : World) :
  Worker.default_fetch World fetch elapse Date_now toISODate formatBeijingTime
    KVNamespace kv_list kv_get kv_put kv_delete random36 typeErrorMessage
    req env s w
  = let '(settled, s', w1, t) :=
      Worker.handler World fetch elapse Date_now toISODate formatBeijingTime
        KVNamespace kv_list kv_get kv_put kv_delete random36 typeErrorMessage
        req env s w in
    match settled with
    | Threw error =>
        ((Returned (Worker.createJsonResponse (Worker.DInternal error) 500), s'),
         w1, t ++ [Worker.ConsoleError "[FATAL ERROR]"])
    | _ => ((settled, s'), w1, t)
    end.
Proof.
  unfold Worker.default_fetch. unfold bind at 1.
  destruct (Worker.handler _ _ _ _ _ _ _ _ _ _ _ _ _ req env s w)
    as [[[settled s'] w1] t].
  destruct settled as [response|error|]; simpl; rewrite ?app_nil_r;
    reflexivity.
Qed.

(** The exported [fetch] adds no KV operation to those of [handler] and
    leaves the server state as [handler] left it. *)
Lemma default_fetch_handler (req : Worker.Request) (env : Env KVNamespace)
    (s : ServerState.t) (w : World) :
  let entry := Worker.default_fetch World fetch elapse Date_now toISODate
                 formatBeijingTime KVNamespace kv_list kv_get kv_put kv_delete
                 random36 typeErrorMessage req env s w in
  let inner := Worker.handler World fetch elapse Date_now toISODate
                 formatBeijingTime KVNamespace kv_list kv_get kv_put kv_delete
                 random36 typeErrorMessage req env s w in
  snd (fst (fst entry)) = snd (fst (fst inner))
  /\ Worker.kvEvents (snd entry) = Worker.kvEvents (snd inner)
  /\ fst (fst (fst entry))
     = match fst (fst (fst inner)) with
       | Threw error =>
           Returned (Worker.createJsonResponse (Worker.DInternal error) 500)
       | settled => settled
       end.
Proof.
  cbv zeta. rewrite default_fetch_run.
  destruct (Worker.handler _ _ _ _ _ _ _ _ _ _ _ _ _ req env s w)
    as [[[settled s'] w1] t].
  destruct settled as [response|error|]; simpl; repeat split.
  rewrite kvEvents_app. simpl. rewrite app_nil_r. reflexivity.
Qed.

Lemma bind_ret_trace {E A B : Type} (m : M World E A) (f : A -> B) (w : World) :
  snd (bind m (fun x => ret (f x)) w) = snd (m w).
Proof.
  unfold bind, ret. destruct (m w) as [[a w1] t]. simpl. apply app_nil_r.
Qed.

(** A [GET] reaches the dashboard, the aggregated data, the key list or the
    404 answer, and none of them writes. *)
Lemma handler_get (req : Worker.Request) (env : Env KVNamespace)
    (s : ServerState.t) (w : World) :
  Worker.method req = "GET" ->
  let run := Worker.handler World fetch elapse Date_now toISODate
               formatBeijingTime KVNamespace kv_list kv_get kv_put kv_delete
               random36 typeErrorMessage req env s w in
  snd (fst (fst run)) = s
  /\ Worker.puts (Worker.kvEvents (snd run)) = []
  /\ Worker.deletes (Worker.kvEvents (snd run)) = [].
Proof.
  intros Hget. cbv zeta. unfold Worker.handler. rewrite Hget. cbv zeta.
  change (String.eqb "GET" "GET") with true.
  change (String.eqb "GET" "POST") with false.
  change (String.eqb "GET" "DELETE") with false.
  rewrite !andb_false_r, !andb_true_r.
  destruct (String.eqb (Worker.pathname req) "/"); [repeat split|].
  destruct (String.eqb (Worker.pathname req) "/api/data").
  { split; [apply (bind_ret_state _ (fun x => x))|].
    rewrite (bind_ret_trace _ (fun x => (x, s))), handleGetData_kv.
    pose proof (getAllKeys_reads kv_list kv_get (API_KEYS KVNamespace env) w)
      as Hreads.
    cbv zeta in Hreads. destruct Hreads as (Hp & Hd & _).
    split; assumption. }
  destruct (String.eqb (Worker.pathname req) "/api/keys").
  { split; [apply (bind_ret_state _ (fun x => Returned x))|].
    rewrite (bind_ret_trace _ (fun x => (Returned x, s))), handleGetKeys_kv.
    pose proof (getAllKeys_reads kv_list kv_get (API_KEYS KVNamespace env) w)
      as Hreads.
    cbv zeta in Hreads. destruct Hreads as (Hp & Hd & _).
    split; assumption. }
  repeat split.
Qed.

(** The KV operations of a [GET]: the listing of the credentials for the two
    routes that read them, none for the others. *)
Lemma handler_get_kv (req : Worker.Request) (env : Env KVNamespace)
    (s : ServerState.t) (w : World) :
  Worker.method req = "GET" ->
  Worker.kvEvents
    (snd (Worker.handler World fetch elapse Date_now toISODate
            formatBeijingTime KVNamespace kv_list kv_get kv_put kv_delete
            random36 typeErrorMessage req env s w))
  = if String.eqb (Worker.pathname req) "/api/data"
       || String.eqb (Worker.pathname req) "/api/keys"
    then snd (Worker.getAllKeys World KVNamespace kv_list kv_get
                (API_KEYS KVNamespace env) w)
    else [].
Proof.
  intros Hget. unfold Worker.handler. rewrite Hget. cbv zeta.
  change (String.eqb "GET" "GET") with true.
  change (String.eqb "GET" "POST") with false.
  change (String.eqb "GET" "DELETE") with false.
  rewrite !andb_false_r, !andb_true_r.
  destruct (String.eqb_spec (Worker.pathname req) "/") as [Hroot|_].
  { rewrite Hroot. reflexivity. }
  destruct (String.eqb (Worker.pathname req) "/api/data").
  { rewrite (bind_ret_trace _ (fun x => (x, s))). apply handleGetData_kv. }
  destruct (String.eqb (Worker.pathname req) "/api/keys").
  { rewrite (bind_ret_trace _ (fun x => (Returned x, s))).
    apply handleGetKeys_kv. }
  reflexivity.
Qed.

(** Only three routes can change the server state. *)
Lemma handler_state (req : Worker.Request) (env : Env KVNamespace)
    (s : ServerState.t) (w : World) :
  let run := Worker.handler World fetch elapse Date_now toISODate
               formatBeijingTime KVNamespace kv_list kv_get kv_put kv_delete
               random36 typeErrorMessage req env s w in
  snd (fst (fst run)) = s
  \/ (Worker.method req = "POST"
      /\ (Worker.pathname req = "/api/keys"
          \/ Worker.pathname req = "/api/keys/batch-delete"))
  \/ (Worker.method req = "DELETE"
      /\ JSString.startsWith (Worker.pathname req) "/api/keys/" = true).
Proof.
  cbv zeta. unfold Worker.handler. cbv zeta.
  destruct (String.eqb (Worker.pathname req) "/"); [left; reflexivity|].
  destruct (String.eqb (Worker.pathname req) "/api/data"
            && String.eqb (Worker.method req) "GET").
  { left. apply (bind_ret_state _ (fun x => x)). }
  destruct (String.eqb (Worker.pathname req) "/api/login"
            && String.eqb (Worker.method req) "POST").
  { left. apply (bind_ret_state _ (fun x => Returned x)). }
  destruct (String.eqb (Worker.pathname req) "/api/keys"
            && String.eqb (Worker.method req) "GET").
  { left. apply (bind_ret_state _ (fun x => Returned x)). }
  destruct (String.eqb (Worker.pathname req) "/api/keys"
            && String.eqb (Worker.method req) "POST") eqn:Hadd.
  { right. left. apply andb_prop in Hadd as [Hp Hm].
    apply String.eqb_eq in Hp, Hm. split; [exact Hm | left; exact Hp]. }
  destruct (String.eqb (Worker.pathname req) "/api/keys/batch-delete"
            && String.eqb (Worker.method req) "POST") eqn:Hdel.
  { right. left. apply andb_prop in Hdel as [Hp Hm].
    apply String.eqb_eq in Hp, Hm. split; [exact Hm | right; exact Hp]. }
  destruct (String.eqb (Worker.pathname req) "/api/keys/export"
            && String.eqb (Worker.method req) "POST").
  { left. apply (bind_ret_state _ (fun x => Returned x)). }
  destruct (JSString.startsWith (Worker.pathname req) "/api/keys/"
            && String.eqb (Worker.method req) "DELETE") eqn:Hone.
  { right. right. apply andb_prop in Hone as [Hp Hm].
    apply String.eqb_eq in Hm. split; assumption. }
  destruct (JSString.matchesRefresh (Worker.pathname req)
            && String.eqb (Worker.method req) "POST").
  { left. apply (bind_ret_state _ (fun x => Returned x)). }
  left. reflexivity.
Qed.

End RouterFacts.

(** X20.  A [GET] request never changes anything: whatever its path, the
    server state is left as it was and no KV entry is written or deleted.
    The only KV operations of a [GET] are the reads by which [getAllKeys]
    lists the credentials, for [/api/data] and for [/api/keys]; any other
    path is answered without touching the store. *)
Theorem get_requests_read_only {World : Type}
    (fetch : string -> World -> HttpResult * World)
    (elapse : Z -> World -> World) (Date_now : World -> Z)
    (toISODate : Z -> option string)
    (formatBeijingTime : Z -> string -> string) {KVNamespace : Type}
    (kv_list : KVNamespace -> string -> World -> (Exn + list string) * World)
    (kv_get : KVNamespace -> string -> World -> (Exn + option string) * World)
    (kv_put : KVNamespace -> string -> jsval -> World -> (Exn + unit) * World)
    (kv_delete : KVNamespace -> string -> World -> (Exn + unit) * World)
    (random36 : World -> string * World)
    (typeErrorMessage : string -> string)
    (req : Worker.Request) (env : Env KVNamespace) (s : ServerState.t)
    (w : World)
    (Hget : Worker.method req = "GET") :
  let run := Worker.default_fetch World fetch elapse Date_now toISODate
               formatBeijingTime KVNamespace kv_list kv_get kv_put kv_delete
               random36 typeErrorMessage req env s w in
  snd (fst (fst run)) = s
  /\ Worker.puts (Worker.kvEvents (snd run)) = []
  /\ Worker.deletes (Worker.kvEvents (snd run)) = []
  /\ Worker.kvEvents (snd run)
     = if String.eqb (Worker.pathname req) "/api/data"
          || String.eqb (Worker.pathname req) "/api/keys"
       then snd (Worker.getAllKeys World KVNamespace kv_list kv_get
                   (API_KEYS KVNamespace env) w)
       else [].
Proof.
  cbv zeta.
  destruct (default_fetch_handler fetch elapse Date_now toISODate
              formatBeijingTime kv_list kv_get kv_put kv_delete random36
              typeErrorMessage req env s w) as (Hstate & Hkv & _).
  cbv zeta in Hstate, Hkv. rewrite Hstate, Hkv.
  destruct (handler_get fetch elapse Date_now toISODate formatBeijingTime
              kv_list kv_get kv_put kv_delete random36 typeErrorMessage
              req env s w Hget) as (Hs & Hp & Hd).
  repeat split; try assumption.
  exact (handler_get_kv fetch elapse Date_now toISODate formatBeijingTime
           kv_list kv_get kv_put kv_delete random36 typeErrorMessage
           req env s w Hget).
Qed.

Lemma get_requests_read_only_witness :
  let run := Memory.default_fetch
               (Worker.mkRequest "GET" "/api/data" None (inl Thrown))
               Memory.env (ServerState.startUpdate ServerState.new)
               [("api_keys:k1", "fk-one")] in
  snd (fst (fst run)) = ServerState.startUpdate ServerState.new
  /\ Worker.puts (Worker.kvEvents (snd run)) = []
  /\ Worker.deletes (Worker.kvEvents (snd run)) = []
  /\ Worker.kvEvents (snd run)
     = [Worker.KvList "api_keys:"; Worker.KvGet "api_keys:k1"].
Proof.
  exact (get_requests_read_only Memory.fetch Memory.elapse Memory.Date_now
           Memory.toISODate Memory.formatBeijingTime Memory.kv_list
           Memory.kv_get Memory.kv_put Memory.kv_delete Memory.random36
           Memory.typeErrorMessage
           (Worker.mkRequest "GET" "/api/data" None (inl Thrown))
           Memory.env (ServerState.startUpdate ServerState.new)
           [("api_keys:k1", "fk-one")] eq_refl).
Defined.

(** X21.  The server state can change only through [POST /api/keys],
    [POST /api/keys/batch-delete] and [DELETE /api/keys/...]: a request that
    leaves a different state behind is one of these. *)
Theorem state_changing_routes {World : Type}
    (fetch : string -> World -> HttpResult * World)
    (elapse : Z -> World -> World) (Date_now : World -> Z)
    (toISODate : Z -> option string)
    (formatBeijingTime : Z -> string -> string) {KVNamespace : Type}
    (kv_list : KVNamespace -> string -> World -> (Exn + list string) * World)
    (kv_get : KVNamespace -> string -> World -> (Exn + option string) * World)
    (kv_put : KVNamespace -> string -> jsval -> World -> (Exn + unit) * World)
    (kv_delete : KVNamespace -> string -> World -> (Exn + unit) * World)
    (random36 : World -> string * World)
    (typeErrorMessage : string -> string)
    (req : Worker.Request) (env : Env KVNamespace) (s : ServerState.t)
    (w : World)
    (Hchanged :
       snd (fst (fst (Worker.default_fetch World fetch elapse Date_now toISODate
                        formatBeijingTime KVNamespace kv_list kv_get kv_put
                        kv_delete random36 typeErrorMessage req env s w)))
       <> s) :
  (Worker.method req = "POST"
   /\ (Worker.pathname req = "/api/keys"
       \/ Worker.pathname req = "/api/keys/batch-delete"))
  \/ (Worker.method req = "DELETE"
      /\ JSString.startsWith (Worker.pathname req) "/api/keys/" = true).
Proof.
  destruct (default_fetch_handler fetch elapse Date_now toISODate
              formatBeijingTime kv_list kv_get kv_put kv_delete random36
              typeErrorMessage req env s w) as (Hstate & _ & _).
  cbv zeta in Hstate. rewrite Hstate in Hchanged.
  destruct (handler_state fetch elapse Date_now toISODate formatBeijingTime
              kv_list kv_get kv_put kv_delete random36 typeErrorMessage
              req env s w) as [Hsame|Hroute].
  - contradiction.
  - exact Hroute.
Qed.

Lemma state_changing_routes_witness :
  ("DELETE" = "POST"
   /\ ("/api/keys/k1" = "/api/keys" \/ "/api/keys/k1" = "/api/keys/batch-delete"))
  \/ ("DELETE" = "DELETE"
      /\ JSString.startsWith "/api/keys/k1" "/api/keys/" = true).
Proof.
  apply (state_changing_routes Memory.fetch Memory.elapse Memory.Date_now
           Memory.toISODate Memory.formatBeijingTime Memory.kv_list
           Memory.kv_get Memory.kv_put Memory.kv_delete Memory.random36
           Memory.typeErrorMessage
           (Worker.mkRequest "DELETE" "/api/keys/k1" None (inl Thrown))
           Memory.env (ServerState.startUpdate ServerState.new)
           [("api_keys:k1", "fk-one")]).
  vm_compute. discriminate.
Defined.

(** ** Ids in paths *)

Lemma prefix_append (p rest : string) : String.prefix p (p ++ rest) = true.
Proof.
  induction p as [|c p IH]; simpl.
  - apply prefix_empty.
  - destruct (ascii_dec c c) as [_|Hne]; [exact IH | contradiction].
Qed.

Lemma indexOf_at_start (c : ascii) (p rest : string) :
  JSString.indexOf (String c p) (String c p ++ rest) = Some 0%nat.
Proof.
  unfold JSString.indexOf. simpl append. unfold String.index.
  fold (String.append p rest).
  change (String c (p ++ rest)) with (String c p ++ rest)%string.
  rewrite prefix_append. reflexivity.
Qed.

Lemma from_append (a b : string) : JSString.from (String.length a) (a ++ b) = b.
Proof.
  unfold JSString.from. rewrite string_length_append.
  replace (String.length a + String.length b - String.length a)%nat
    with (String.length b) by lia.
  induction a as [|c a IH]; simpl.
  - apply substring_whole.
  - exact IH.
Qed.

Lemma from_end (s : string) : JSString.from (String.length s) s = "".
Proof.
  rewrite <- (string_append_empty s) at 2. apply from_append.
Qed.

Lemma substring_head (a b : string) :
  String.substring 0 (String.length a) (a ++ b) = a.
Proof.
  rewrite substring_prefix_append by lia. apply substring_whole.
Qed.

Lemma index_cons (p : string) (c : ascii) (s : string) :
  String.index 0 p (String c s)
  = if String.prefix p (String c s) then Some 0%nat
    else match String.index 0 p s with
         | Some n => Some (S n)
         | None => None
         end.
Proof. reflexivity. Qed.

Lemma prefix_head_ne (a c : ascii) (p s : string) :
  a <> c -> String.prefix (String a p) (String c s) = false.
Proof.
  intros Hne. simpl. destruct (ascii_dec a c); [contradiction | reflexivity].
Qed.

(** A pattern that starts with [/] is not found inside a plain string. *)
Lemma indexOf_plain (p : string) (id : string) (t : string) :
  Worker.plain id = true ->
  JSString.indexOf (String "/" p) (id ++ t)
  = match JSString.indexOf (String "/" p) t with
    | Some n => Some (String.length id + n)%nat
    | None => None
    end.
Proof.
  unfold JSString.indexOf.
  induction id as [|c id IH]; intros Hplain.
  - simpl. destruct (String.index 0 (String "/" p) t); reflexivity.
  - change (Worker.plain (String c id))
      with (negb (Ascii.eqb c "/") && JSString.isDot c && Worker.plain id)
      in Hplain.
    apply andb_prop in Hplain as [Hc Hplain].
    apply andb_prop in Hc as [Hslash _].
    assert (Hne : "/"%char <> c).
    { intros <-. discriminate Hslash. }
    change (String c id ++ t)%string with (String c (id ++ t)).
    rewrite index_cons, (prefix_head_ne _ _ _ _ Hne), (IH Hplain).
    destruct (String.index 0 (String "/" p) t); reflexivity.
Qed.

Lemma plain_allDots (id : string) : Worker.plain id = true -> JSString.allDots id = true.
Proof.
  induction id as [|c id IH]; simpl; [reflexivity|].
  intros H. apply andb_prop in H as [Hc Hrest].
  apply andb_prop in Hc as [_ Hdot].
  rewrite Hdot, (IH Hrest). reflexivity.
Qed.

Lemma plain_no_suffix (id t : string) :
  Worker.plain (id ++ String "/" t) = false.
Proof.
  induction id as [|c id IH]; simpl; [reflexivity|].
  rewrite IH. apply andb_false_r.
Qed.

Lemma eqb_plain (id t s : string) :
  Worker.plain s = true -> String.eqb (id ++ String "/" t) s = false.
Proof.
  intros Hs. apply String.eqb_neq. intros Heq.
  rewrite <- Heq, plain_no_suffix in Hs. discriminate.
Qed.

(** The piece that the two routes cut out of a path is the id it was built
    from, for a plain id. *)
Lemma splitSecond_delete_path (id : string) :
  Worker.plain id = true ->
  JSString.splitSecond ("/api/keys/" ++ id) "/api/keys/" = Some id.
Proof.
  intros Hplain. unfold JSString.splitSecond.
  rewrite (indexOf_at_start "/" "api/keys/" id).
  change (0 + String.length "/api/keys/")%nat with (String.length "/api/keys/").
  rewrite from_append.
  rewrite <- (string_append_empty id) at 1.
  rewrite (indexOf_plain "api/keys/" id "" Hplain).
  reflexivity.
Qed.

Lemma splitSecond_refresh_path (id : string) :
  Worker.plain id = true ->
  JSString.splitSecond ("/api/keys/" ++ id ++ "/refresh") "/api/keys/"
  = Some (id ++ "/refresh")%string.
Proof.
  intros Hplain. unfold JSString.splitSecond.
  rewrite (indexOf_at_start "/" "api/keys/" (id ++ "/refresh")).
  change (0 + String.length "/api/keys/")%nat with (String.length "/api/keys/").
  rewrite from_append.
  rewrite (indexOf_plain "api/keys/" id "/refresh" Hplain).
  reflexivity.
Qed.

Lemma replace_refresh (id : string) :
  Worker.plain id = true ->
  JSString.replace (id ++ "/refresh") "/refresh" "" = id.
Proof.
  intros Hplain. unfold JSString.replace.
  rewrite (indexOf_plain "refresh" id "/refresh" Hplain).
  change (JSString.indexOf "/refresh" "/refresh") with (Some 0%nat).
  cbv iota beta.
  rewrite Nat.add_0_r, substring_head.
  replace (String.length id + String.length "/refresh")%nat
    with (String.length (id ++ "/refresh")) by (rewrite string_length_append; lia).
  rewrite from_end. simpl. apply string_append_empty.
Qed.

Lemma matchesRefresh_path (id : string) :
  Worker.plain id = true -> id <> "" ->
  JSString.matchesRefresh ("/api/keys/" ++ id ++ "/refresh") = true.
Proof.
  intros Hplain Hne. unfold JSString.matchesRefresh.
  assert (Hlen : String.length ("/api/keys/" ++ id ++ "/refresh")
                 = (10 + String.length id + 8)%nat).
  { rewrite !string_length_append. simpl. lia. }
  assert (Hid : (1 <= String.length id)%nat).
  { destruct id; [contradiction | simpl; lia]. }
  apply andb_true_intro; split;
    [apply andb_true_intro; split; [apply andb_true_intro; split|]|].
  - unfold JSString.startsWith. apply prefix_append.
  - unfold JSString.endsWith. apply andb_true_intro. split.
    + apply Nat.leb_le. rewrite Hlen. simpl. lia.
    + rewrite <- string_append_assoc.
      replace (String.length (("/api/keys/" ++ id) ++ "/refresh")
               - String.length "/refresh")%nat
        with (String.length ("/api/keys/" ++ id))
        by (rewrite !string_length_append; simpl; lia).
      rewrite from_append. reflexivity.
  - apply Nat.leb_le. rewrite Hlen. lia.
  - rewrite Hlen.
    replace (10 + String.length id + 8 - 18)%nat with (String.length id) by lia.
    change (String.substring 10 (String.length id)
              ("/api/keys/" ++ id ++ "/refresh"))
      with (String.substring 0 (String.length id) (id ++ "/refresh")).
    rewrite substring_head. apply plain_allDots, Hplain.
Qed.

Section PathRoutes.

Context {World : Type} (fetch : string -> World -> HttpResult * World).
Context (elapse : Z -> World -> World) (Date_now : World -> Z).
Context (toISODate : Z -> option string).
Context (formatBeijingTime : Z -> string -> string).
Context {KVNamespace : Type}.
Context (kv_list : KVNamespace -> string -> World -> (Exn + list string) * World).
Context (kv_get : KVNamespace -> string -> World -> (Exn + option string) * World).
Context (kv_put : KVNamespace -> string -> jsval -> World -> (Exn + unit) * World).
Context (kv_delete : KVNamespace -> string -> World -> (Exn + unit) * World).
Context (random36 : World -> string * World).
Context (typeErrorMessage : string -> string).

Lemma route_refresh (id : string) (header : option string) (body : Exn + jsval)
    (env : Env KVNamespace) (s : ServerState.t) (w : World) :
  Worker.plain id = true -> id <> "" ->
  let path := ("/api/keys/" ++ id ++ "/refresh")%string in
  let req := Worker.mkRequest "POST" path header body in
  Worker.handler World fetch elapse Date_now toISODate formatBeijingTime
    KVNamespace kv_list kv_get kv_put kv_delete random36 typeErrorMessage
    req env s w
  = bind (Worker.handleRefreshSingleKey World fetch elapse toISODate
            KVNamespace kv_get typeErrorMessage path req env)
      (fun response => ret (Returned response, s)) w.
Proof.
  intros Hplain Hne. cbv zeta. unfold Worker.handler. cbv zeta.
  cbn [Worker.pathname Worker.method].
  set (path := ("/api/keys/" ++ id ++ "/refresh")%string).
  assert (E1 : String.eqb path "/" = false) by reflexivity.
  assert (E2 : String.eqb path "/api/data" = false) by reflexivity.
  assert (E3 : String.eqb path "/api/login" = false) by reflexivity.
  assert (E4 : String.eqb path "/api/keys" = false) by reflexivity.
  assert (E5 : String.eqb path "/api/keys/batch-delete" = false).
  { change (String.eqb path "/api/keys/batch-delete")
      with (String.eqb (id ++ String "/" "refresh") "batch-delete").
    apply eqb_plain. reflexivity. }
  assert (E6 : String.eqb path "/api/keys/export" = false).
  { change (String.eqb path "/api/keys/export")
      with (String.eqb (id ++ String "/" "refresh") "export").
    apply eqb_plain. reflexivity. }
  assert (E7 : JSString.matchesRefresh path = true)
    by exact (matchesRefresh_path id Hplain Hne).
  rewrite E1, E2, E3, E4, E5, E6, E7.
  change (String.eqb "POST" "DELETE") with false.
  rewrite (andb_false_r (JSString.startsWith path "/api/keys/")).
  reflexivity.
Qed.

Lemma route_delete (id : string) (header : option string) (body : Exn + jsval)
    (env : Env KVNamespace) (s : ServerState.t) (w : World) :
  let path := ("/api/keys/" ++ id)%string in
  let req := Worker.mkRequest "DELETE" path header body in
  Worker.handler World fetch elapse Date_now toISODate formatBeijingTime
    KVNamespace kv_list kv_get kv_put kv_delete random36 typeErrorMessage
    req env s w
  = bind (Worker.handleDeleteKey World KVNamespace kv_delete path env s)
      (fun done =>
         ret (match fst done with
              | inr response => Returned response
              | inl error => Threw error
              end, snd done)) w.
Proof.
  cbv zeta. unfold Worker.handler. cbv zeta.
  cbn [Worker.pathname Worker.method].
  set (path := ("/api/keys/" ++ id)%string).
  assert (E1 : String.eqb path "/" = false) by reflexivity.
  rewrite E1.
  change (String.eqb "DELETE" "GET") with false.
  change (String.eqb "DELETE" "POST") with false.
  change (String.eqb "DELETE" "DELETE") with true.
  rewrite !andb_false_r, andb_true_r.
  unfold JSString.startsWith, path at 1. rewrite prefix_append.
  reflexivity.
Qed.

End PathRoutes.

(** X22.  Refreshing one key by its id.  For an id without [/] or line
    break (as the generated ids are) and not empty,
    [POST /api/keys/<id>/refresh] reads exactly the entry [api_keys:<id>] and
    leaves the server state alone.  Only for a stored, non-empty secret is
    the usage endpoint asked, and the answer is then 200 with the record of
    this id, its key shown masked unless the request carries
    [X-Logged-In: true]; a missing or empty entry gives 404 and a throwing
    store 500, both without a request to the usage endpoint. *)
Theorem refresh_route {World : Type}
    (fetch : string -> World -> HttpResult * World)
    (elapse : Z -> World -> World) (Date_now : World -> Z)
    (toISODate : Z -> option string)
    (formatBeijingTime : Z -> string -> string) {KVNamespace : Type}
    (kv_list : KVNamespace -> string -> World -> (Exn + list string) * World)
    (kv_get : KVNamespace -> string -> World -> (Exn + option string) * World)
    (kv_put : KVNamespace -> string -> jsval -> World -> (Exn + unit) * World)
    (kv_delete : KVNamespace -> string -> World -> (Exn + unit) * World)
    (random36 : World -> string * World)
    (typeErrorMessage : string -> string)
    (id : string) (header : option string) (body : Exn + jsval)
    (env : Env KVNamespace) (s : ServerState.t) (w : World)
    (Hplain : Worker.plain id = true) (Hne : id <> "") :
  let req := Worker.mkRequest "POST" ("/api/keys/" ++ id ++ "/refresh")%string
               header body in
  let run := Worker.default_fetch World fetch elapse Date_now toISODate
               formatBeijingTime KVNamespace kv_list kv_get kv_put kv_delete
               random36 typeErrorMessage req env s w in
  let response := fst (fst (fst run)) in
  Worker.kvEvents (snd run) = [Worker.KvGet ("api_keys:" ++ id)%string]
  /\ snd (fst (fst run)) = s
  /\ match fst (kv_get (API_KEYS KVNamespace env) ("api_keys:" ++ id)%string w)
     with
     | inr (Some key) =>
         if String.eqb key "" then
           response = Returned (Worker.createErrorResponse "Key not found" 404)
           /\ Worker.usageEvents (snd run) = []
         else
           exists record,
             response
             = Returned (Worker.createJsonResponse (Worker.DRefreshed record) 200)
             /\ resultId record = id
             /\ resultKey record = getDisplayKey key (Worker.loggedIn req)
     | inr None =>
         response = Returned (Worker.createErrorResponse "Key not found" 404)
         /\ Worker.usageEvents (snd run) = []
     | inl error =>
         response
         = Returned (Worker.createErrorResponse
                       (Worker.messageOr "Unknown error" error) 500)
         /\ Worker.usageEvents (snd run) = []
     end.
Proof.
  cbv zeta. rewrite default_fetch_run.
  rewrite (route_refresh fetch elapse Date_now toISODate formatBeijingTime
             kv_list kv_get kv_put kv_delete random36 typeErrorMessage
             id header body env s w Hplain Hne).
  cbv zeta. unfold Worker.handleRefreshSingleKey. cbv zeta.
  rewrite (splitSecond_refresh_path id Hplain), (replace_refresh id Hplain).
  destruct (String.eqb_spec id "") as [Hempty|_]; [contradiction|].
  unfold bind, embed, Worker.kvGet.
  destruct (kv_get (API_KEYS KVNamespace env) ("api_keys:" ++ id)%string w)
    as [[error|[key|]] w1]; simpl.
  - repeat split.
  - destruct (String.eqb key ""); simpl.
    + repeat split.
    + pose proof (client_identity fetch elapse toISODate id key
                    (Worker.loggedIn
                       (Worker.mkRequest "POST"
                          ("/api/keys/" ++ id ++ "/refresh")%string header body))
                    0%nat w1) as [Hid Hkey].
      destruct (fetchApiKeyData World fetch elapse toISODate id key _ 0%nat w1)
        as [[record w2] t].
      simpl in *. rewrite !app_nil_r.
      repeat split.
      * rewrite kvEvents_usage. reflexivity.
      * exists record. repeat split; assumption.
  - repeat split.
Qed.

Lemma refresh_route_witness :
  let req := Worker.mkRequest "POST" "/api/keys/key-1700000000000-k3j9x0a/refresh"
               (Some "true") (inl Thrown) in
  let run := Memory.default_fetch req Memory.env ServerState.new
               [("api_keys:key-1700000000000-k3j9x0a", "fk-one-long-secret")] in
  Worker.kvEvents (snd run)
  = [Worker.KvGet "api_keys:key-1700000000000-k3j9x0a"]
  /\ snd (fst (fst run)) = ServerState.new
  /\ exists record,
       fst (fst (fst run))
       = Returned (Worker.createJsonResponse (Worker.DRefreshed record) 200)
       /\ resultId record = "key-1700000000000-k3j9x0a"
       /\ resultKey record = "fk-one-long-secret".
Proof.
  exact (refresh_route Memory.fetch Memory.elapse Memory.Date_now
           Memory.toISODate Memory.formatBeijingTime Memory.kv_list
           Memory.kv_get Memory.kv_put Memory.kv_delete Memory.random36
           Memory.typeErrorMessage "key-1700000000000-k3j9x0a" (Some "true")
           (inl Thrown) Memory.env ServerState.new
           [("api_keys:key-1700000000000-k3j9x0a", "fk-one-long-secret")]
           eq_refl ltac:(discriminate)).
Defined.

(** X23.  Deleting one key by its id.  For an id without [/] or line break
    and not empty, [DELETE /api/keys/<id>] performs exactly one KV operation,
    the delete of [api_keys:<id>], without looking the entry up first: when
    the delete returns, the answer is 200 and the cache is cleared, stored
    or not; when it throws, the answer is the 500 of the exported [fetch]
    and the cache is left as it was. *)
Theorem delete_route {World : Type}
    (fetch : string -> World -> HttpResult * World)
    (elapse : Z -> World -> World) (Date_now : World -> Z)
    (toISODate : Z -> option string)
    (formatBeijingTime : Z -> string -> string) {KVNamespace : Type}
    (kv_list : KVNamespace -> string -> World -> (Exn + list string) * World)
    (kv_get : KVNamespace -> string -> World -> (Exn + option string) * World)
    (kv_put : KVNamespace -> string -> jsval -> World -> (Exn + unit) * World)
    (kv_delete : KVNamespace -> string -> World -> (Exn + unit) * World)
    (random36 : World -> string * World)
    (typeErrorMessage : string -> string)
    (id : string) (header : option string) (body : Exn + jsval)
    (env : Env KVNamespace) (s : ServerState.t) (w : World)
    (Hplain : Worker.plain id = true) (Hne : id <> "") :
  let req := Worker.mkRequest "DELETE" ("/api/keys/" ++ id)%string header body in
  let run := Worker.default_fetch World fetch elapse Date_now toISODate
               formatBeijingTime KVNamespace kv_list kv_get kv_put kv_delete
               random36 typeErrorMessage req env s w in
  Worker.kvEvents (snd run) = [Worker.KvDelete ("api_keys:" ++ id)%string]
  /\ match fst (kv_delete (API_KEYS KVNamespace env) ("api_keys:" ++ id)%string w)
     with
     | inr _ =>
         fst (fst run)
         = (Returned (Worker.createJsonResponse Worker.DSuccess 200),
            ServerState.new)
     | inl error =>
         fst (fst run)
         = (Returned (Worker.createJsonResponse (Worker.DInternal error) 500), s)
     end.
Proof.
  cbv zeta. rewrite default_fetch_run.
  rewrite (route_delete fetch elapse Date_now toISODate formatBeijingTime
             kv_list kv_get kv_put kv_delete random36 typeErrorMessage
             id header body env s w).
  cbv zeta. unfold Worker.handleDeleteKey.
  rewrite (splitSecond_delete_path id Hplain).
  destruct id as [|c id]; [contradiction|].
  unfold bind, embed, Worker.deleteKey, Worker.kvDelete.
  destruct (kv_delete (API_KEYS KVNamespace env)
              ("api_keys:" ++ String c id)%string w) as [[error|[]] w1];
    simpl; split; reflexivity.
Qed.

Lemma delete_route_witness :
  let run := Memory.default_fetch
               (Worker.mkRequest "DELETE" "/api/keys/not-there" None (inl Thrown))
               Memory.env (ServerState.startUpdate ServerState.new)
               [("api_keys:k1", "fk-one")] in
  Worker.kvEvents (snd run) = [Worker.KvDelete "api_keys:not-there"]
  /\ fst (fst run)
     = (Returned (Worker.createJsonResponse Worker.DSuccess 200),
        ServerState.new).
Proof.
  exact (delete_route Memory.fetch Memory.elapse Memory.Date_now
           Memory.toISODate Memory.formatBeijingTime Memory.kv_list
           Memory.kv_get Memory.kv_put Memory.kv_delete Memory.random36
           Memory.typeErrorMessage "not-there" None (inl Thrown) Memory.env
           (ServerState.startUpdate ServerState.new)
           [("api_keys:k1", "fk-one")] eq_refl ltac:(discriminate)).
Defined.

(** ** What [/api/data] shows of the stored secrets *)

Lemma Forall2_sources {A B : Type} (P : A -> B -> Prop) (l : list A)
    (l' : list B) :
  Forall2 P l l' -> Forall (fun b => exists a, In a l /\ P a b) l'.
Proof.
  induction 1 as [|a b l l' Hab _ IH]; constructor.
  - exists a. split; [left; reflexivity | exact Hab].
  - eapply Forall_impl; [|exact IH].
    intros b' (a' & Hin & HP). exists a'. split; [right; exact Hin | exact HP].
Qed.

Section DisplayedKeys.

Context {World : Type} (fetch : string -> World -> HttpResult * World).
Context (elapse : Z -> World -> World) (Date_now : World -> Z).
Context (toISODate : Z -> option string).
Context (formatBeijingTime : Z -> string -> string).
Context {KVNamespace : Type}.
Context (getAllKeys : KVNamespace -> World -> (Exn + list ApiKey.t) * World).

(** Every entry of the aggregated [data] comes from a listed credential and
    carries its id and its display key. *)
Lemma getAggregatedData_keys (kv : KVNamespace) (isLoggedIn : bool)
    (w w1 : World) (keyPairs : list ApiKey.t) :
  getAllKeys kv w = (inr keyPairs, w1) ->
  exists resp w' tr,
    getAggregatedData World fetch elapse Date_now toISODate formatBeijingTime
      KVNamespace getAllKeys kv isLoggedIn w = (Returned resp, w', tr)
    /\ Forall (fun r => exists kp, In kp keyPairs
                 /\ resultId r = ApiKey.id kp
                 /\ resultKey r = getDisplayKey (ApiKey.key kp) isLoggedIn)
         (AggregatedResponse.data resp).
Proof.
  intros Hkeys. unfold getAggregatedData.
  unfold bind at 1. rewrite Hkeys.
  unfold bind at 1. unfold getBeijingTime at 1.
  destruct keyPairs as [|kp keyPairs].
  - do 3 eexists. split; [reflexivity|]. constructor.
  - change (List.length (kp :: keyPairs) =? 0)%nat with false. cbv iota.
    destruct (batchProcess_returns elapse (kp :: keyPairs)
                (fun kp => fetchApiKeyData World fetch elapse toISODate
                             (ApiKey.id kp) (ApiKey.key kp) isLoggedIn 0%nat)
                10 100
                (fun kp r => resultId r = ApiKey.id kp
                             /\ resultKey r
                                = getDisplayKey (ApiKey.key kp) isLoggedIn)
                (fun kp w0 => client_identity fetch elapse toISODate
                                (ApiKey.id kp) (ApiKey.key kp)
                                isLoggedIn 0%nat w0)
                ltac:(lia) (List.length (kp :: keyPairs)) w1 (le_n _))
      as (results & w2 & tr & Hrun & HP & _).
    unfold bind at 1. unfold embed. rewrite Hrun.
    unfold bind. rewrite console_log_run. unfold ret.
    do 3 eexists. split; [reflexivity|].
    cbn [AggregatedResponse.data].
    eapply Permutation_Forall.
    + apply Permutation_sym, data_perm.
    + exact (Forall2_sources _ _ _ HP).
Qed.

End DisplayedKeys.

(** X24.  [GET /api/data] never hands a stored secret to a client that is not
    logged in.  Once the credentials are listed, [handleGetData] answers 200
    with the aggregated response, and each entry of its [data], usage record
    or error record, after every retry of the usage client, carries the id of
    a listed credential and that credential's key: in full only if the header
    [X-Logged-In] is exactly [true], masked by [maskApiKey] otherwise. *)
Theorem data_route_masks_keys {World : Type}
    (fetch : string -> World -> HttpResult * World)
    (elapse : Z -> World -> World) (Date_now : World -> Z)
    (toISODate : Z -> option string)
    (formatBeijingTime : Z -> string -> string) {KVNamespace : Type}
    (kv_list : KVNamespace -> string -> World -> (Exn + list string) * World)
    (kv_get : KVNamespace -> string -> World -> (Exn + option string) * World)
    (req : Worker.Request) (env : Env KVNamespace) (w w1 : World)
    (keyPairs : list ApiKey.t)
    (Hkeys : Worker.listKeys World KVNamespace kv_list kv_get
               (API_KEYS KVNamespace env) w = (inr keyPairs, w1)) :
  exists resp w' tr,
    Worker.handleGetData World fetch elapse Date_now toISODate
      formatBeijingTime KVNamespace kv_list kv_get req env w
    = (Returned (Worker.createJsonResponse (Worker.DAggregated resp) 200),
       w', tr)
    /\ Forall (fun r => exists kp, In kp keyPairs
                 /\ resultId r = ApiKey.id kp
                 /\ resultKey r
                    = match Worker.loggedInHeader req with
                      | Some "true"%string => ApiKey.key kp
                      | _ => maskApiKey (ApiKey.key kp)
                      end)
         (AggregatedResponse.data resp).
Proof.
  destruct (getAggregatedData_keys fetch elapse Date_now toISODate
              formatBeijingTime
              (Worker.listKeys World KVNamespace kv_list kv_get)
              (API_KEYS KVNamespace env) (Worker.loggedIn req) w w1 keyPairs
              Hkeys) as (resp & w' & tr & Hrun & Hdata).
  exists resp, w'. unfold Worker.handleGetData. cbv zeta.
  unfold bind at 1. unfold Worker.getAggregatedData_kv. rewrite Hrun. simpl.
  eexists. split; [reflexivity|].
  eapply Forall_impl; [|exact Hdata].
  intros r (kp & Hin & Hid & Hkey). exists kp.
  split; [exact Hin|]. split; [exact Hid|].
  rewrite Hkey. unfold Worker.loggedIn, getDisplayKey.
  destruct (Worker.loggedInHeader req) as [v|]; [|reflexivity].
  destruct (String.eqb_spec v "true") as [->|Hv]; [reflexivity|].
  repeat (destruct v as [|[[] [] [] [] [] [] [] []] v];
          try reflexivity; try (exfalso; apply Hv; reflexivity)).
Qed.

Lemma data_route_masks_keys_witness :
  exists resp w' tr,
    Worker.handleGetData Memory.World Memory.fetch Memory.elapse
      Memory.Date_now Memory.toISODate Memory.formatBeijingTime unit
      Memory.kv_list Memory.kv_get
      (Worker.mkRequest "GET" "/api/data" (Some "TRUE") (inl Thrown))
      Memory.env [("api_keys:k1", "fk-ABCDEFGHIJKL")]
    = (Returned (Worker.createJsonResponse (Worker.DAggregated resp) 200),
       w', tr)
    /\ Forall (fun r => exists kp, In kp [ApiKey.mk "k1" "fk-ABCDEFGHIJKL"]
                 /\ resultId r = ApiKey.id kp
                 /\ resultKey r = maskApiKey (ApiKey.key kp))
         (AggregatedResponse.data resp).
Proof.
  exact (data_route_masks_keys Memory.fetch Memory.elapse Memory.Date_now
           Memory.toISODate Memory.formatBeijingTime Memory.kv_list
           Memory.kv_get
           (Worker.mkRequest "GET" "/api/data" (Some "TRUE") (inl Thrown))
           Memory.env [("api_keys:k1", "fk-ABCDEFGHIJKL")]
           [("api_keys:k1", "fk-ABCDEFGHIJKL")]
           [ApiKey.mk "k1" "fk-ABCDEFGHIJKL"] eq_refl).
Defined.
